(** * Rag_LLM: document ingestion and retrieval pipeline

    A shallow embedding of the Python sources
      - [src/utils/chunker.py]            ([clean_text], [chunker]),
      - [src/utils/extractor.py]          ([load_document]),
      - [src/client/embedding_client.py]  ([embed], [embed_batch]),
      - [src/repository/document_vector_repository.py] ([VectorRepository]),
      - [src/service/document_service.py] ([DocumentService]),
      - [src/controller/document_controller.py] (the HTTP endpoints),
      - [src/service/authentication_service.py] (the dependency
        [get_current_user_bearer] of the endpoints, with the lookup of the
        user in [user_service.py] and [user_repository.py]),
    followed by the properties of the pipeline.

    Python [str] values are sequences of Unicode code points, Python [int]s
    are unbounded integers ([Z]), lists are lists.  The [while] loop of
    [chunker] is run with fuel.  The [async] service methods are written in
    a state-and-exception monad over the vector store, the repository
    object and a log of the calls made to the outside.

    The libraries the sources call are not part of the repository.  The
    builtins of Python ([str.strip], [str.split], [re.sub] for the three
    patterns of [clean_text], slices, [sorted], [os.path.splitext]) and the
    calls of the Qdrant client are written out; the text extractors, the
    embedding model, [str.lower], [uuid] and the clock are fields of the
    environment [Env], the JWT library and the users collection fields of
    [AuthEnv].  Failures of the file system and of the connection to the
    vector store are left out. *)

From Stdlib Require Import Strings.String Strings.Ascii Strings.Byte.
From Stdlib Require Import ZArith NArith DecimalString List Bool Lia.
From Stdlib Require Import Sorting.Sorted Sorting.Permutation.
From Stdlib Require Import Floats.SpecFloat.
Import ListNotations.

Set Implicit Arguments.

(* ===================================================================== *)
(** * Python strings and the builtins the sources call                    *)
(* ===================================================================== *)

Module PyStr.

(** A character is a code point; a [str] is a list of them. *)
Definition char := N.
Definition pystr := list char.

(** A string literal of the sources, as a [str]. *)
Definition lit (s : string) : pystr :=
  map N_of_ascii (list_ascii_of_string s).

Definition SPACE : char := 32%N.
Definition NEWLINE : char := 10%N.
Definition NBSP : char := 160%N.

(** [str.isspace] on one character: the code points CPython lists as
    whitespace, which [str.strip()] and [str.split()] use. *)
Definition isspace (c : char) : bool :=
  ((9 <=? c) && (c <=? 13) || (28 <=? c) && (c <=? 32)
   || (c =? 133) || (c =? 160) || (c =? 5760)
   || (8192 <=? c) && (c <=? 8202)
   || (c =? 8232) || (c =? 8233) || (c =? 8239) || (c =? 8287)
   || (c =? 12288))%N.

(** [s.lstrip()], [s.rstrip()], [s.strip()]. *)
Fixpoint lstrip (s : pystr) : pystr :=
  match s with
  | [] => []
  | c :: t => if isspace c then lstrip t else s
  end.

Definition rstrip (s : pystr) : pystr := rev (lstrip (rev s)).

Definition strip (s : pystr) : pystr := rstrip (lstrip s).

(** [s.replace(old, new)] for one-character [old] and [new]. *)
Definition replace_char (old new : char) (s : pystr) : pystr :=
  map (fun c => if (c =? old)%N then new else c) s.

(** [s.split()]: the maximal runs of non-whitespace characters, in order.
    [cur] is the token being read. *)
Fixpoint split_from (cur : pystr) (s : pystr) : list pystr :=
  match s with
  | [] => match cur with [] => [] | _ :: _ => [cur] end
  | c :: t =>
      if isspace c
      then match cur with
           | [] => split_from [] t
           | _ :: _ => cur :: split_from [] t
           end
      else split_from (cur ++ [c]) t
  end.

Definition split (s : pystr) : list pystr := split_from [] s.

(** [sep.join(l)]. *)
Fixpoint join (sep : pystr) (l : list pystr) : pystr :=
  match l with
  | [] => []
  | x :: t => match t with
              | [] => x
              | _ :: _ => x ++ sep ++ join sep t
              end
  end.

(** [len(l)]. *)
Definition len {A : Type} (l : list A) : Z := Z.of_nat (length l).

(** [l[start:stop]]: a negative index counts from the end, and both
    indices are clamped to [0, len(l)]. *)
Definition slice_index (n i : Z) : Z :=
  (if i <? 0 then Z.max (i + n) 0 else Z.min i n)%Z.

Definition py_slice {A : Type} (l : list A) (start stop : Z) : list A :=
  let n := len l in
  let lo := slice_index n start in
  let hi := slice_index n stop in
  firstn (Z.to_nat (hi - lo)) (skipn (Z.to_nat lo) l).

(** [re.sub(pattern, repl, s)] for a pattern [[class]{min,}]: every maximal
    run of characters of the class that is at least [min] long is replaced
    by [repl]; a shorter run is kept.  [run] is the run being read. *)
Definition flush (min : nat) (repl run : pystr) : pystr :=
  match run with
  | [] => []
  | _ :: _ => if (min <=? length run)%nat then repl else run
  end.

Fixpoint re_sub_runs (cls : char -> bool) (min : nat) (repl : pystr)
                     (run : pystr) (s : pystr) : pystr :=
  match s with
  | [] => flush min repl run
  | c :: t =>
      if cls c
      then re_sub_runs cls min repl (run ++ [c]) t
      else flush min repl run ++ c :: re_sub_runs cls min repl [] t
  end.

Definition re_sub (cls : char -> bool) (min : nat) (repl : pystr)
                  (s : pystr) : pystr :=
  re_sub_runs cls min repl [] s.

(** Truthiness of a [str]: empty is false. *)
Definition truthy (s : pystr) : bool :=
  match s with [] => false | _ :: _ => true end.

(** Equality test on [str]. *)
Fixpoint eqb (a b : pystr) : bool :=
  match a, b with
  | [], [] => true
  | x :: a', y :: b' => (x =? y)%N && eqb a' b'
  | _, _ => false
  end.

End PyStr.

(* ===================================================================== *)
(** * src/utils/chunker.py                                                *)
(* ===================================================================== *)

Module Chunker.
Import PyStr.

(** The class [[^\x20-\x7E\n]]. *)
Definition not_printable (c : char) : bool :=
  negb ((32 <=? c) && (c <=? 126) || (c =? NEWLINE))%N.

Definition is_space (c : char) : bool := (c =? SPACE)%N.
Definition is_newline (c : char) : bool := (c =? NEWLINE)%N.

Definition clean_text (text : pystr) : pystr :=
  let text := replace_char NBSP SPACE text in
  let text := re_sub not_printable 1 [SPACE] text in
  let text := re_sub is_space 2 [SPACE] text in
  let text := re_sub is_newline 2 [NEWLINE] text in
  let text := strip text in
  text.

(** One pass through the body of the [while] loop: either the [break] is
    taken, or the loop goes on from the next [start]. *)
Inductive iteration : Type :=
| Break (chunks : list pystr)
| Continue (start : Z) (chunks : list pystr).

Definition chunker_body (seq : list pystr) (size overlap : Z)
                        (start : Z) (chunks : list pystr) : iteration :=
  let end_ := (start + size)%Z in
  let chunk := py_slice seq start end_ in
  let chunks := chunks ++ [join [SPACE] chunk] in
  if (end_ >=? len seq)%Z then Break chunks
  else Continue (start + (size - overlap))%Z chunks.

(** The [while start < len(seq)] loop; [None] when the fuel runs out. *)
Fixpoint chunker_loop (fuel : nat) (seq : list pystr) (size overlap : Z)
                      (start : Z) (chunks : list pystr)
  : option (list pystr) :=
  match fuel with
  | O => None
  | S fuel' =>
      if (start <? len seq)%Z
      then match chunker_body seq size overlap start chunks with
           | Break chunks' => Some chunks'
           | Continue start' chunks' =>
               chunker_loop fuel' seq size overlap start' chunks'
           end
      else Some chunks
  end.

Definition chunker (fuel : nat) (text : pystr) (size overlap : Z)
  : option (list pystr) :=
  let cleaned_text := clean_text text in
  let seq := split cleaned_text in
  chunker_loop fuel seq size overlap 0%Z [].

End Chunker.

(* ===================================================================== *)
(** * Python's [sorted] and [os.path.splitext]                            *)
(* ===================================================================== *)

Module PyLib.
Import PyStr.

(** [sorted(l, key=...)] is a stable sort.  [le a b] says that [a] may
    stand before [b]; an element is put in front of the first element it
    may stand before, so equal keys keep the order they came in. *)
Section Sort.
Variable A : Type.
Variable le : A -> A -> bool.

Fixpoint insert_by (x : A) (l : list A) : list A :=
  match l with
  | [] => [x]
  | y :: t => if le x y then x :: y :: t else y :: insert_by x t
  end.

Definition sort_by (l : list A) : list A := fold_right insert_by [] l.
End Sort.

Definition sorted {A : Type} (key : A -> Z) (l : list A) : list A :=
  sort_by (fun a b => (key a <=? key b)%Z) l.

(** [s.rfind(c)] for a character [c]: the last index of [c], or -1. *)
Fixpoint rfind_from (c : char) (s : pystr) (i : Z) (found : Z) : Z :=
  match s with
  | [] => found
  | x :: t => rfind_from c t (i + 1) (if (x =? c)%N then i else found)
  end.

Definition rfind (c : char) (s : pystr) : Z := rfind_from c s 0 (-1).

Definition DOT : char := 46%N.

(** [genericpath._splitext(p, sep, altsep, '.')], which [os.path.splitext]
    calls: the extension starts at the last dot of the last path
    component, unless that component has only dots before it. *)
Definition splitext (sep : char) (altsep : option char) (p : pystr)
  : pystr * pystr :=
  let sepIndex := rfind sep p in
  let sepIndex := match altsep with
                  | Some a => Z.max sepIndex (rfind a p)
                  | None => sepIndex
                  end in
  let dotIndex := rfind DOT p in
  if (dotIndex >? sepIndex)%Z
     && existsb (fun c => negb (c =? DOT)%N) (py_slice p (sepIndex + 1) dotIndex)
  then (firstn (Z.to_nat dotIndex) p, skipn (Z.to_nat dotIndex) p)
  else (p, []).

End PyLib.

(* ===================================================================== *)
(** * src/exceptions/exceptions.py and the outcome of a call              *)
(* ===================================================================== *)

Module Exceptions.
Import PyStr.

(** The exception classes of the repository, the builtin ones it names,
    and one class for whatever a third-party library raises.  All of them
    derive from [Exception]. *)
Inductive exception_class : Type :=
| UserRepositoryError
| UserNotFoundError
| UserExistsError
| UserUpdateError
| UserDeleteError
| InvalidCredentialsError
| TokenError
| TokenExpiredError
| VectorCollectionError
| PointError
| DocumentRepositoryError
| DocumentNotFoundError
| DocumentValidationError
| FileTypeError
| EmptyDocumentError
| ChunkingError
| EmbeddingError
| FileProcessingError
| ValueError
| KeyError
| TypeError
| LibraryError.

(** An exception object: its class and [str(e)]; or FastAPI's
    [HTTPException(status_code, detail)]. *)
Inductive exn : Type :=
| Exn (cls : exception_class) (msg : pystr)
| HTTPException (status_code : Z) (detail : pystr).

Definition str_of (e : exn) : pystr :=
  match e with
  | Exn _ msg => msg
  | HTTPException _ detail => detail
  end.

Definition HTTP_400_BAD_REQUEST : Z := 400.
Definition HTTP_401_UNAUTHORIZED : Z := 401.
Definition HTTP_404_NOT_FOUND : Z := 404.
Definition HTTP_500_INTERNAL_SERVER_ERROR : Z := 500.

(** What a call does: it returns, it raises, or (a [while] loop that never
    ends) it does neither. *)
Inductive outcome (A : Type) : Type :=
| Return (a : A)
| Raise (e : exn)
| Hang.

Arguments Return {A} a.
Arguments Raise {A} e.
Arguments Hang {A}.

(** What a third-party call gives: a value, or an error with its text. *)
Inductive lib_result (A : Type) : Type :=
| Ok (a : A)
| Fails (msg : pystr).

Arguments Ok {A} a.
Arguments Fails {A} msg.

End Exceptions.

(* ===================================================================== *)
(** * src/models/document_model.py                                        *)
(* ===================================================================== *)

Module Models.
Import PyStr.

(** A Python [float]: an IEEE 754 value. *)
Definition float : Type := spec_float.

Record DocumentModel : Type := {
  doc_id : pystr;
  user_id : pystr;
  filename : pystr;
  file_type : option pystr;
  chunks_count : Z;
  created_at : pystr
}.

(** The payload of a stored point, a JSON object: any key may be absent
    in a point that something else wrote, which is why the service reads
    it with [.get] and defaults. *)
Record Payload : Type := {
  p_chunk_text : option pystr;
  p_chunk_index : option Z;
  p_doc_id : option pystr;
  p_user_id : option pystr;
  p_filename : option pystr;
  p_file_type : option pystr;
  p_created_at : option pystr;
  p_doc_metadata : option DocumentModel
}.

(** [VectorPayload(...).dict()]: every key is present. *)
Definition VectorPayload (doc_id user_id chunk_text : pystr) (chunk_index : Z)
    (filename file_type created_at : pystr) (doc_metadata : DocumentModel)
  : Payload :=
  {| p_chunk_text := Some chunk_text;
     p_chunk_index := Some chunk_index;
     p_doc_id := Some doc_id;
     p_user_id := Some user_id;
     p_filename := Some filename;
     p_file_type := Some file_type;
     p_created_at := Some created_at;
     p_doc_metadata := Some doc_metadata |}.

(** [qdrant_client.models.PointStruct]. *)
Record PointStruct : Type := {
  id : pystr;
  vector : list float;
  payload : Payload
}.

(** A point as a query returns it ([with_payload=True]). *)
Record ScoredPoint : Type := {
  sp_id : pystr;
  sp_score : float;
  sp_payload : Payload
}.

(** [FieldCondition(key=..., match=MatchValue(value=...))] and
    [Filter(must=[...])]. *)
Record FieldCondition : Type := {
  key : pystr;
  match_value : pystr
}.

Record Filter : Type := {
  must : list FieldCondition
}.

(** The dict [upload_document] returns. *)
Record UploadResult : Type := {
  u_doc_id : pystr;
  u_filename : pystr;
  u_file_type : pystr;
  u_chunks_count : Z;
  u_message : pystr
}.

(** The dict [get_user_document] returns: the document metadata with the
    key ["chunks"] added. *)
Record DocumentWithChunks : Type := {
  d_metadata : DocumentModel;
  d_chunks : list Payload
}.

(** One entry of the list [search_user_documents] returns, and the
    [SearchResult] model of the controller. *)
Record SearchHit : Type := {
  h_doc_id : pystr;
  h_filename : pystr;
  h_chunk_text : pystr;
  h_score : float;
  h_chunk_index : Z
}.

(** [fastapi.UploadFile]: the name the client sent, if any, and the bytes. *)
Record UploadFile : Type := {
  f_filename : option pystr;
  f_content : list byte
}.

(** The dict of a document as [get_unique_documents] and
    [get_document_metadata] return it: the [doc_metadata] dict of a chunk,
    or the dict rebuilt from the chunk's own keys, which has no
    ["chunks_count"].  The value under ["file_type"] may be [None]. *)
Record DocumentDict : Type := {
  dd_doc_id : pystr;
  dd_user_id : pystr;
  dd_filename : pystr;
  dd_file_type : option pystr;
  dd_created_at : pystr;
  dd_chunks_count : option Z
}.

(** [DocumentModel(...).dict()]. *)
Definition dict_of_model (m : DocumentModel) : DocumentDict :=
  {| dd_doc_id := doc_id m;
     dd_user_id := user_id m;
     dd_filename := filename m;
     dd_file_type := file_type m;
     dd_created_at := created_at m;
     dd_chunks_count := Some (chunks_count m) |}.

(** The [DocumentResponse] model of the controller. *)
Record DocumentResponse : Type := {
  r_id : pystr;
  r_doc_id : pystr;
  r_filename : pystr;
  r_file_type : option pystr;
  r_chunks_count : Z;
  r_created_at : pystr;
  r_user_id : pystr
}.

End Models.

(* ===================================================================== *)
(** * The outside of the program, and the monad of the [async] methods    *)
(* ===================================================================== *)

Module Runtime.
Import PyStr Exceptions Models.

(** What reading a file as UTF-8 gives. *)
Inductive utf8_result : Type :=
| Utf8Text (text : pystr)
| UnicodeDecodeError
| Utf8Fails (msg : pystr).

(** What one request finds around it: the settings
    ([src/config/settings.py]), the platform's path separators, and the
    answers of the libraries whose code is not part of the repository. *)
Record Env : Type := {
  (* Settings *)
  VECTOR_SIZE : Z;
  CHUNK_SIZE : Z;
  OVERLAP : Z;
  (* os.path *)
  os_sep : char;
  os_altsep : option char;
  (* str.lower() *)
  str_lower : pystr -> pystr;
  (* str(uuid.uuid4()), str(uuid.uuid5(uuid.UUID(ns), name)) *)
  uuid4 : pystr;
  uuid5 : pystr -> pystr -> pystr;
  (* settings.get_utc_now().isoformat() *)
  utc_now : pystr;
  (* str(i) for an int *)
  str_of_int : Z -> pystr;
  (* tempfile.NamedTemporaryFile: the path without the suffix *)
  temp_prefix : pystr;
  (* open(path, "r", encoding=...).read() *)
  read_utf8 : list byte -> utf8_result;
  read_latin1 : list byte -> lib_result pystr;
  (* fitz: the text of each page;  docx: the text of each paragraph *)
  pdf_pages : list byte -> lib_result (list pystr);
  docx_paragraphs : list byte -> lib_result (list pystr);
  (* SentenceTransformer.encode on a list, and on one string *)
  encode_batch : list pystr -> lib_result (list (list float));
  encode : pystr -> lib_result (list float);
  (* the vector store's similarity of a query and a stored vector *)
  similarity : list float -> list float -> float
}.

(** The collection of the vector store: its vector size and its points. *)
Record Collection : Type := {
  vectors_size : Z;
  points : list PointStruct
}.

(** A call to the outside. *)
Inductive event : Type :=
| FileRead
| TempFileWrite (path : pystr)
| LoadDocument (path : pystr)
| Unlink (path : pystr)
| EncodeBatch (texts : list pystr)
| Encode (text : pystr)
| CollectionExists
| CreateCollection (size : Z)
| CreatePayloadIndex (field_name : pystr)
| Upsert (pts : list PointStruct)
| QueryPoints (query : list float) (query_filter : option Filter) (limit : Z)
| Scroll (scroll_filter : option Filter) (limit : Z)
| Delete (points_selector : Filter).

(** The state a method runs in: the collection in the vector store
    ([None]: it does not exist), the [_collection_ready] field of the
    repository object, and the calls made so far, oldest first. *)
Record World : Type := {
  collection : option Collection;
  collection_ready : bool;
  log : list event
}.

Definition M (A : Type) : Type := World -> outcome A * World.

Definition ret {A : Type} (a : A) : M A := fun w => (Return a, w).

Definition raise {A : Type} (e : exn) : M A := fun w => (Raise e, w).

Definition hang {A : Type} : M A := fun w => (Hang, w).

Definition bind {A B : Type} (m : M A) (k : A -> M B) : M B :=
  fun w =>
    match m w with
    | (Return a, w') => k a w'
    | (Raise e, w') => (Raise e, w')
    | (Hang, w') => (Hang, w')
    end.

(** [try: m  except ... as e: handler e]. *)
Definition try_except {A : Type} (m : M A) (handler : exn -> M A) : M A :=
  fun w =>
    match m w with
    | (Raise e, w') => handler e w'
    | r => r
    end.

(** [try: m  finally: cleanup]. *)
Definition try_finally {A : Type} (m : M A) (cleanup : M unit) : M A :=
  fun w =>
    match m w with
    | (Hang, w') => (Hang, w')
    | (r, w') =>
        match cleanup w' with
        | (Return _, w'') => (r, w'')
        | (Raise e, w'') => (Raise e, w'')
        | (Hang, w'') => (Hang, w'')
        end
    end.

Definition emit (ev : event) : M unit :=
  fun w => (Return tt,
            {| collection := collection w;
               collection_ready := collection_ready w;
               log := log w ++ [ev] |}).

Definition get_collection : M (option Collection) :=
  fun w => (Return (collection w), w).

Definition put_collection (c : option Collection) : M unit :=
  fun w => (Return tt,
            {| collection := c;
               collection_ready := collection_ready w;
               log := log w |}).

Definition get_collection_ready : M bool :=
  fun w => (Return (collection_ready w), w).

Definition set_collection_ready (b : bool) : M unit :=
  fun w => (Return tt,
            {| collection := collection w;
               collection_ready := b;
               log := log w |}).

(** A third-party answer inside the monad. *)
Definition lift_lib {A : Type} (r : lib_result A) : M A :=
  match r with
  | Ok a => ret a
  | Fails msg => raise (Exn LibraryError msg)
  end.

(** [for x in l: body x]. *)
Fixpoint for_each {A : Type} (l : list A) (body : A -> M unit) : M unit :=
  match l with
  | [] => ret tt
  | x :: t => bind (body x) (fun _ => for_each t body)
  end.

(** [enumerate(l)]. *)
Fixpoint enumerate_from {A : Type} (i : Z) (l : list A) : list (Z * A) :=
  match l with
  | [] => []
  | x :: t => (i, x) :: enumerate_from (i + 1) t
  end.

Definition enumerate {A : Type} (l : list A) : list (Z * A) :=
  enumerate_from 0 l.

End Runtime.

Declare Scope monad_scope.
Delimit Scope monad_scope with monad.
Notation "x <- m ;; k" := (Runtime.bind m (fun x => k))
  (at level 61, m at next level, right associativity) : monad_scope.
Notation "m ;; k" := (Runtime.bind m (fun _ => k))
  (at level 61, right associativity) : monad_scope.
Open Scope monad_scope.

(* ===================================================================== *)
(** * The Qdrant client, as the repository uses it                        *)
(* ===================================================================== *)

(** The client library and the server behind it are not part of the
    repository.  The definitions below say what the calls that the
    repository makes do to one collection: a point is stored under its id;
    a filter selects the points whose payload has the values of all its
    conditions; a call on a collection that does not exist fails; a query
    for fewer than one point is refused; and the server accepts only
    vectors of the size the collection was created with (it answers
    "Wrong input: Vector dimension error" otherwise).  Failures of the
    connection are left out. *)

Module Qdrant.
Import PyStr PyLib Exceptions Models Runtime.

(** The string a payload has under a key; the conditions of the repository
    name [doc_id] and [user_id]. *)
Definition payload_get (p : Payload) (k : pystr) : option pystr :=
  if PyStr.eqb k (lit "doc_id") then p_doc_id p
  else if PyStr.eqb k (lit "user_id") then p_user_id p
  else if PyStr.eqb k (lit "filename") then p_filename p
  else if PyStr.eqb k (lit "file_type") then p_file_type p
  else None.

Definition condition_holds (p : Payload) (c : FieldCondition) : bool :=
  match payload_get p (key c) with
  | Some v => PyStr.eqb v (match_value c)
  | None => false
  end.

(** A point matches [Filter(must=conditions)] when every condition holds;
    it matches no filter ([None]) always. *)
Definition matches (f : option Filter) (pt : PointStruct) : bool :=
  match f with
  | None => true
  | Some f => forallb (condition_holds (payload pt)) (must f)
  end.

Definition no_collection {A : Type} : M A :=
  raise (Exn LibraryError (lit "Not found: Collection doesn't exist")).

Definition collection_exists : M bool :=
  emit CollectionExists ;;
  c <- get_collection ;;
  ret (match c with Some _ => true | None => false end).

Definition create_collection (size : Z) : M unit :=
  emit (CreateCollection size) ;;
  c <- get_collection ;;
  match c with
  | Some _ => raise (Exn LibraryError (lit "Collection already exists"))
  | None => put_collection (Some {| vectors_size := size; points := [] |})
  end.

Definition create_payload_index (field_name : pystr) : M unit :=
  emit (CreatePayloadIndex field_name) ;;
  c <- get_collection ;;
  match c with
  | Some _ => ret tt
  | None => no_collection
  end.

(** A point replaces the stored point of the same id, or is added. *)
Definition upsert_point (pts : list PointStruct) (pt : PointStruct)
  : list PointStruct :=
  filter (fun q => negb (PyStr.eqb (id q) (id pt))) pts ++ [pt].

(** [upsert]: the points are stored, all or none; the store refuses
    vectors whose length is not the vector size of the collection. *)
Definition upsert (pts : list PointStruct) : M unit :=
  emit (Upsert pts) ;;
  c <- get_collection ;;
  match c with
  | None => no_collection
  | Some c =>
      if forallb (fun pt => (len (vector pt) =? vectors_size c)%Z) pts
      then put_collection
             (Some {| vectors_size := vectors_size c;
                      points := fold_left upsert_point pts (points c) |})
      else raise (Exn LibraryError (lit "Wrong input: Vector dimension error"))
  end.

(** [query_points]: the points that match the filter, most similar first,
    at most [limit] of them; a [limit] below 1 is an error. *)
Definition query_points (env : Env) (query : list float)
    (query_filter : option Filter) (limit : Z) : M (list ScoredPoint) :=
  emit (QueryPoints query query_filter limit) ;;
  if (limit <=? 0)%Z
  then raise (Exn LibraryError
                (lit "limit value " ++ str_of_int env limit
                 ++ lit " is invalid"))
  else
  c <- get_collection ;;
  match c with
  | None => no_collection
  | Some c =>
      if (len query =? vectors_size c)%Z
      then
        let scored :=
          map (fun pt => {| sp_id := id pt;
                            sp_score := similarity env query (vector pt);
                            sp_payload := payload pt |})
              (filter (matches query_filter) (points c)) in
        let ranked :=
          sort_by (fun a b => SFleb (sp_score b) (sp_score a)) scored in
        ret (firstn (Z.to_nat limit) ranked)
      else raise (Exn LibraryError (lit "Wrong input: Vector dimension error"))
  end.

(** [scroll]: the first [limit] points that match the filter. *)
Definition scroll (scroll_filter : option Filter) (limit : Z)
  : M (list PointStruct) :=
  emit (Scroll scroll_filter limit) ;;
  c <- get_collection ;;
  match c with
  | None => no_collection
  | Some c =>
      ret (firstn (Z.to_nat limit) (filter (matches scroll_filter) (points c)))
  end.

(** [delete]: the points that match the selector are removed. *)
Definition delete (points_selector : Filter) : M unit :=
  emit (Delete points_selector) ;;
  c <- get_collection ;;
  match c with
  | None => no_collection
  | Some c =>
      put_collection
        (Some {| vectors_size := vectors_size c;
                 points := filter (fun pt => negb (matches (Some points_selector) pt))
                                  (points c) |})
  end.

End Qdrant.

(* ===================================================================== *)
(** * src/utils/extractor.py                                              *)
(* ===================================================================== *)

Module Extractor.
Import PyStr PyLib Exceptions Models Runtime.

Definition extract_from_pdf (env : Env) (content : list byte) : M pystr :=
  try_except
    (pages <- lift_lib (pdf_pages env content) ;;
     ret (fold_left (fun text page => text ++ page ++ [NEWLINE]) pages []))
    (fun e => raise (Exn FileProcessingError
                       (lit "Failed to extract text from PDF: " ++ str_of e))).

Definition extract_from_docx (env : Env) (content : list byte) : M pystr :=
  try_except
    (paragraphs <- lift_lib (docx_paragraphs env content) ;;
     ret (join [NEWLINE] paragraphs))
    (fun e => raise (Exn FileProcessingError
                       (lit "Failed to extract text from DOCX: " ++ str_of e))).

Definition extract_from_txt (env : Env) (content : list byte) : M pystr :=
  match read_utf8 env content with
  | Utf8Text text => ret text
  | UnicodeDecodeError =>
      try_except
        (lift_lib (read_latin1 env content))
        (fun e => raise (Exn FileProcessingError
                           (lit "Failed to decode text file: " ++ str_of e)))
  | Utf8Fails msg =>
      raise (Exn FileProcessingError (lit "Failed to read text file: " ++ msg))
  end.

(** [load_document(file_path)]; [content] is what the file at [file_path]
    holds. *)
Definition load_document (env : Env) (file_path : pystr) (content : list byte)
  : M pystr :=
  emit (LoadDocument file_path) ;;
  let ext := str_lower env (snd (splitext (os_sep env) (os_altsep env) file_path)) in
  if PyStr.eqb ext (lit ".txt") then extract_from_txt env content
  else if PyStr.eqb ext (lit ".pdf") then extract_from_pdf env content
  else if PyStr.eqb ext (lit ".docx") then extract_from_docx env content
  else raise (Exn FileTypeError (lit "Unsupported file type: " ++ ext)).

End Extractor.

(* ===================================================================== *)
(** * src/client/embedding_client.py                                      *)
(* ===================================================================== *)

Module EmbeddingClient.
Import PyStr Exceptions Models Runtime.

(** Both methods are called with [to_list=True]. *)
Definition embed (env : Env) (text : pystr) : M (list float) :=
  emit (Encode text) ;;
  lift_lib (encode env text).

Definition embed_batch (env : Env) (texts : list pystr)
  : M (list (list float)) :=
  emit (EncodeBatch texts) ;;
  lift_lib (encode_batch env texts).

End EmbeddingClient.

(* ===================================================================== *)
(** * src/repository/document_vector_repository.py                        *)
(* ===================================================================== *)

Module VectorRepository.
Import PyStr Exceptions Models Runtime.

Definition indices : list pystr :=
  [lit "user_id"; lit "doc_id"; lit "filename"; lit "file_type";
   lit "created_at"; lit "chunk_index"].

Definition _ensure_collection_exists (env : Env) : M unit :=
  ready <- get_collection_ready ;;
  if ready then ret tt
  else
    try_except
      (exists_ <- Qdrant.collection_exists ;;
       (if negb exists_
        then Qdrant.create_collection (VECTOR_SIZE env) ;;
             for_each indices Qdrant.create_payload_index
        else ret tt) ;;
       set_collection_ready true)
      (fun e => raise (Exn VectorCollectionError
                         (lit "Failed to initialize Qdrant collection: "
                          ++ str_of e))).

Definition save_points (env : Env) (pts : list PointStruct) : M unit :=
  _ensure_collection_exists env ;;
  try_except
    (Qdrant.upsert pts)
    (fun e => raise (Exn PointError
                       (lit "Failed to save points to Qdrant: " ++ str_of e))).

Definition search (env : Env) (query_vector : list float) (top_k : Z)
    (query_filter : option Filter) : M (list ScoredPoint) :=
  _ensure_collection_exists env ;;
  try_except
    (Qdrant.query_points env query_vector query_filter top_k)
    (fun e => raise (Exn PointError
                       (lit "Failed to search Qdrant: " ++ str_of e))).

(** [if user_id:] is false for [None] and for the empty string. *)
Definition user_given (user_id : option pystr) : option pystr :=
  match user_id with
  | Some u => if truthy u then Some u else None
  | None => None
  end.

(** The filter on a document id and, if a user id is given, on it. *)
Definition doc_filter (doc_id : pystr) (user_id : option pystr) : Filter :=
  let conditions :=
    [{| key := lit "doc_id"; match_value := doc_id |}] in
  let conditions :=
    match user_given user_id with
    | Some u => conditions ++ [{| key := lit "user_id"; match_value := u |}]
    | None => conditions
    end in
  {| must := conditions |}.

Definition get_points_by_doc_id (env : Env) (doc_id : pystr)
    (user_id : option pystr) : M (list Payload) :=
  _ensure_collection_exists env ;;
  try_except
    (pts <- Qdrant.scroll (Some (doc_filter doc_id user_id)) 1000 ;;
     ret (map payload pts))
    (fun e => raise (Exn PointError
                       (lit "Failed to retrieve points for document ID '"
                        ++ doc_id ++ lit "': " ++ str_of e))).

Definition delete_points (env : Env) (query_filter : Filter) : M unit :=
  _ensure_collection_exists env ;;
  try_except
    (Qdrant.delete query_filter)
    (fun e => raise (Exn PointError
                       (lit "Failed to delete points from Qdrant: "
                        ++ str_of e))).

Definition delete_points_by_doc_id (env : Env) (doc_id : pystr)
    (user_id : option pystr) : M unit :=
  _ensure_collection_exists env ;;
  try_except
    (delete_points env (doc_filter doc_id user_id))
    (fun e => raise (Exn PointError
                       (lit "Failed to delete points for document ID '"
                        ++ doc_id ++ lit "': " ++ str_of e))).

(** [initialize_collection]: the call in a [try] whose handler re-raises. *)
Definition initialize_collection (env : Env) : M unit :=
  try_except (_ensure_collection_exists env) (fun e => raise e).

(** [payload[k]], a [KeyError] when the key is missing, and
    [payload.get(k, default)]. *)
Definition getitem {A : Type} (o : option A) (k : pystr) : M A :=
  match o with
  | Some a => ret a
  | None => raise (Exn KeyError (lit "'" ++ k ++ lit "'"))
  end.

Definition get_default {A : Type} (o : option A) (default : A) : A :=
  match o with Some a => a | None => default end.

(** The filter of [get_unique_documents]: on the user id if one is given,
    and no filter otherwise. *)
Definition unique_filter (user_id : option pystr) : option Filter :=
  match user_given user_id with
  | Some u => Some {| must := [{| key := lit "user_id"; match_value := u |}] |}
  | None => None
  end.

(** [doc_id_map], a dict from document ids to points.  A dict keeps its
    keys in the order they were first set: an association list, new keys
    at the end. *)
Definition doc_id_map_has (d_id : pystr)
    (doc_id_map : list (pystr * PointStruct)) : bool :=
  existsb (fun kv => PyStr.eqb (fst kv) d_id) doc_id_map.

(** One pass of [for point in all_points]. *)
Definition doc_id_map_step (doc_id_map : list (pystr * PointStruct))
    (point : PointStruct) : list (pystr * PointStruct) :=
  match p_doc_id (payload point) with
  | Some d_id =>
      if truthy d_id && negb (doc_id_map_has d_id doc_id_map)
      then doc_id_map ++ [(d_id, point)]
      else doc_id_map
  | None => doc_id_map
  end.

(** The dict of the document of a point: its [doc_metadata] if it has
    one, and otherwise the dict of its own keys, of which ["doc_id"],
    ["user_id"] and ["filename"] must be there. *)
Definition document_of_point (point : PointStruct) : M DocumentDict :=
  match p_doc_metadata (payload point) with
  | Some doc_metadata => ret (dict_of_model doc_metadata)
  | None =>
      doc_id <- getitem (p_doc_id (payload point)) (lit "doc_id") ;;
      user_id <- getitem (p_user_id (payload point)) (lit "user_id") ;;
      filename <- getitem (p_filename (payload point)) (lit "filename") ;;
      ret {| dd_doc_id := doc_id;
             dd_user_id := user_id;
             dd_filename := filename;
             dd_file_type := Some (get_default (p_file_type (payload point)) []);
             dd_created_at := get_default (p_created_at (payload point)) [];
             dd_chunks_count := None |}
  end.

(** [for point in points: ... documents.append(doc_metadata)]. *)
Fixpoint documents_of (points : list PointStruct) : M (list DocumentDict) :=
  match points with
  | [] => ret []
  | point :: rest =>
      doc_metadata <- document_of_point point ;;
      documents <- documents_of rest ;;
      ret (doc_metadata :: documents)
  end.

Definition get_unique_documents (env : Env) (user_id : option pystr)
  : M (list DocumentDict) :=
  _ensure_collection_exists env ;;
  try_except
    (let query_filter := unique_filter user_id in
     all_points <- Qdrant.scroll query_filter 1000 ;;
     let doc_id_map := fold_left doc_id_map_step all_points [] in
     let points := map snd doc_id_map in
     documents_of points)
    (fun e => raise (Exn PointError
                       (lit "Failed to retrieve unique documents: "
                        ++ str_of e))).

Definition get_document_metadata (env : Env) (doc_id : pystr)
    (user_id : option pystr) : M (option DocumentDict) :=
  _ensure_collection_exists env ;;
  try_except
    (points <- Qdrant.scroll (Some (doc_filter doc_id user_id)) 1 ;;
     match points with
     | [] => ret None
     | point :: _ =>
         doc_metadata <- document_of_point point ;;
         ret (Some doc_metadata)
     end)
    (fun e => raise (Exn PointError
                       (lit "Failed to retrieve document metadata for '"
                        ++ doc_id ++ lit "': " ++ str_of e))).

End VectorRepository.

(* ===================================================================== *)
(** * src/service/document_service.py                                     *)
(* ===================================================================== *)

Module DocumentService.
Import PyStr PyLib Exceptions Models Runtime.

(** [chunker(text)] with the default [size] and [overlap] of the settings.
    The loop is given one more pass than there are tokens; a loop that
    has not ended by then never ends (lemma [chunker_loop_never_ends]). *)
Definition run_chunker (env : Env) (text : pystr) : M (list pystr) :=
  let fuel := S (length (split (Chunker.clean_text text))) in
  match Chunker.chunker fuel text (CHUNK_SIZE env) (OVERLAP env) with
  | Some chunks => ret chunks
  | None => hang
  end.

Definition supported_types : list pystr :=
  [lit ".txt"; lit ".pdf"; lit ".docx"].

(** [x in l] for strings. *)
Definition str_in (x : pystr) (l : list pystr) : bool :=
  existsb (PyStr.eqb x) l.

(** The exceptions [_process_document] re-raises as they are. *)
Definition is_processing_error (c : exception_class) : bool :=
  match c with
  | FileTypeError | EmptyDocumentError | ChunkingError
  | EmbeddingError | FileProcessingError => true
  | _ => false
  end.

Definition _process_document (env : Env) (file : UploadFile)
  : M (list (pystr * list float)) :=
  let suffix :=
    match f_filename file with
    | Some name => Some (snd (splitext (os_sep env) (os_altsep env) name))
    | None => None
    end in
  let temp_file_path :=
    match suffix with
    | Some sfx => Some (temp_prefix env ++ sfx)
    | None => None
    end in
  try_finally
    (try_except
       (temp_file_path <-
          match temp_file_path with
          | Some path => ret path
          | None => raise (Exn TypeError (lit "expected str, bytes or os.PathLike object, not NoneType"))
          end ;;
        emit FileRead ;;
        let content := f_content file in
        emit (TempFileWrite temp_file_path) ;;
        text <-
          try_except
            (Extractor.load_document env temp_file_path content)
            (fun e =>
               match e with
               | Exn ValueError msg => raise (Exn FileTypeError msg)
               | _ => raise (Exn FileProcessingError
                               (lit "Failed to extract text from document: "
                                ++ str_of e))
               end) ;;
        if negb (truthy (strip text))
        then raise (Exn EmptyDocumentError
                      (lit "Document appears to be empty or text could not be extracted"))
        else
        chunks <-
          try_except
            (run_chunker env text)
            (fun e => raise (Exn ChunkingError
                               (lit "Failed to chunk document: " ++ str_of e))) ;;
        match chunks with
        | [] => raise (Exn ChunkingError
                         (lit "No chunks could be created from the document"))
        | _ :: _ =>
        let chunk_texts := filter (fun chunk => truthy (strip chunk)) chunks in
        match chunk_texts with
        | [] => raise (Exn EmptyDocumentError
                         (lit "No valid text chunks found in document"))
        | _ :: _ =>
        embeddings <-
          try_except
            (EmbeddingClient.embed_batch env chunk_texts)
            (fun e => raise (Exn EmbeddingError
                               (lit "Failed to generate embeddings: "
                                ++ str_of e))) ;;
        let chunks_data := combine chunk_texts embeddings in
        ret chunks_data
        end
        end)
       (fun e =>
          match e with
          | Exn c _ =>
              if is_processing_error c then raise e
              else raise (Exn FileProcessingError
                            (lit "Unexpected error processing document: "
                             ++ str_of e))
          | HTTPException _ _ =>
              raise (Exn FileProcessingError
                       (lit "Unexpected error processing document: "
                        ++ str_of e))
          end))
    (match temp_file_path with
     | Some path => if truthy path then emit (Unlink path) else ret tt
     | None => ret tt
     end).

(** The point of chunk [i] of a document. *)
Definition make_point (env : Env) (doc_id user_id filename ext : pystr)
    (doc_metadata : DocumentModel) (i : Z) (chunk : pystr * list float)
  : PointStruct :=
  let payload :=
    VectorPayload doc_id user_id (fst chunk) i filename ext
                  (created_at doc_metadata) doc_metadata in
  let point_uuid := uuid5 env doc_id (str_of_int env i) in
  {| id := point_uuid; vector := snd chunk; payload := payload |}.

Definition upload_document (env : Env) (file : UploadFile) (user_id : pystr)
  : M UploadResult :=
  let doc_id := uuid4 env in
  match f_filename file with
  | None => raise (Exn FileTypeError (lit "No filename provided"))
  | Some filename =>
  if negb (truthy filename)
  then raise (Exn FileTypeError (lit "No filename provided"))
  else
  let ext := str_lower env (snd (splitext (os_sep env) (os_altsep env) filename)) in
  if negb (str_in ext supported_types)
  then raise (Exn FileTypeError
                (lit "Unsupported file type. Only .txt, .pdf, and .docx files are supported."))
  else
  try_except
    (chunks_data <- _process_document env file ;;
     let doc_metadata :=
       {| doc_id := doc_id;
          user_id := user_id;
          filename := filename;
          file_type := Some ext;
          chunks_count := len chunks_data;
          created_at := utc_now env |} in
     let points :=
       map (fun ic => make_point env doc_id user_id filename ext
                                 doc_metadata (fst ic) (snd ic))
           (enumerate chunks_data) in
     VectorRepository.save_points env points ;;
     ret {| u_doc_id := doc_id;
            u_filename := filename;
            u_file_type := ext;
            u_chunks_count := len chunks_data;
            u_message := lit "Document uploaded successfully" |})
    (fun e =>
       match e with
       | Exn VectorCollectionError _ | Exn PointError _ => raise e
       | _ => raise (Exn DocumentRepositoryError
                       (lit "Failed to upload document: " ++ str_of e))
       end)
  end.

Definition from_option {A : Type} (o : option A) (default : A) : A :=
  match o with Some a => a | None => default end.

(** [lambda x: x.get("chunk_index", 0)]. *)
Definition chunk_index_key (x : Payload) : Z :=
  from_option (p_chunk_index x) 0%Z.

(** The source puts the sorted list under the key ["chunks"] of the
    metadata dict, which is the dict inside the first chunk when that chunk
    has one; the record keeps the metadata and the list apart. *)
Definition get_user_document (env : Env) (doc_id user_id : pystr)
  : M DocumentWithChunks :=
  try_except
    (chunks <- VectorRepository.get_points_by_doc_id env doc_id (Some user_id) ;;
     match chunks with
     | [] => raise (Exn DocumentNotFoundError
                      (lit "Document " ++ doc_id ++ lit " not found"))
     | first :: _ =>
         let doc_metadata :=
           match p_doc_metadata first with
           | Some m => m
           | None =>
               {| doc_id := doc_id;
                  user_id := user_id;
                  filename := from_option (p_filename first) (lit "Unknown");
                  file_type := Some (from_option (p_file_type first) []);
                  created_at := from_option (p_created_at first) [];
                  chunks_count := len chunks |}
           end in
         ret {| d_metadata := doc_metadata;
                d_chunks := sorted chunk_index_key chunks |}
     end)
    (fun e =>
       match e with
       | Exn DocumentNotFoundError _ => raise e
       | Exn VectorCollectionError _ | Exn PointError _ => raise e
       | _ => raise (Exn DocumentRepositoryError
                       (lit "Failed to retrieve document: " ++ str_of e))
       end).

Definition delete_user_document (env : Env) (doc_id user_id : pystr)
  : M pystr :=
  try_except
    (chunks <- VectorRepository.get_points_by_doc_id env doc_id (Some user_id) ;;
     match chunks with
     | [] => raise (Exn DocumentNotFoundError
                      (lit "Document " ++ doc_id ++ lit " not found"))
     | _ :: _ =>
         VectorRepository.delete_points_by_doc_id env doc_id (Some user_id) ;;
         ret (lit "Document " ++ doc_id ++ lit " deleted successfully")
     end)
    (fun e =>
       match e with
       | Exn DocumentNotFoundError _ => raise e
       | Exn VectorCollectionError _ | Exn PointError _ => raise e
       | _ => raise (Exn DocumentRepositoryError
                       (lit "Failed to delete document: " ++ str_of e))
       end).

(** [payload[k]]: a missing key is a [KeyError]. *)
Definition subscript {A : Type} (o : option A) (k : pystr) : M A :=
  match o with
  | Some a => ret a
  | None => raise (Exn KeyError (lit "'" ++ k ++ lit "'"))
  end.

(** The filter on the owner of a chunk. *)
Definition user_filter (user_id : pystr) : Filter :=
  {| must := [{| key := lit "user_id"; match_value := user_id |}] |}.

Fixpoint search_hits (results : list ScoredPoint) : M (list SearchHit) :=
  match results with
  | [] => ret []
  | result :: rest =>
      doc_id <- subscript (p_doc_id (sp_payload result)) (lit "doc_id") ;;
      chunk_text <- subscript (p_chunk_text (sp_payload result)) (lit "chunk_text") ;;
      chunk_index <- subscript (p_chunk_index (sp_payload result)) (lit "chunk_index") ;;
      hits <- search_hits rest ;;
      ret ({| h_doc_id := doc_id;
              h_filename := from_option (p_filename (sp_payload result)) (lit "Unknown");
              h_chunk_text := chunk_text;
              h_score := sp_score result;
              h_chunk_index := chunk_index |} :: hits)
  end.

Definition search_user_documents (env : Env) (query : pystr) (top_k : Z)
    (user_id : pystr) : M (list SearchHit) :=
  if negb (truthy (strip query))
  then raise (Exn EmptyDocumentError (lit "Query cannot be empty"))
  else
  try_except
    (query_embedding <- EmbeddingClient.embed env query ;;
     results <- VectorRepository.search env query_embedding top_k
                  (Some (user_filter user_id)) ;;
     search_hits results)
    (fun e =>
       match e with
       | Exn VectorCollectionError _ | Exn PointError _ => raise e
       | _ => raise (Exn DocumentRepositoryError
                       (lit "Failed to search documents: " ++ str_of e))
       end).

Definition list_user_documents (env : Env) (user_id : pystr)
  : M (list DocumentDict) :=
  try_except
    (VectorRepository.get_unique_documents env (Some user_id))
    (fun e =>
       match e with
       | Exn PointError _ => raise e
       | _ => raise (Exn DocumentRepositoryError
                       (lit "Failed to list documents: " ++ str_of e))
       end).

End DocumentService.

(* ===================================================================== *)
(** * src/controller/document_controller.py                               *)
(* ===================================================================== *)

Module DocumentController.
Import PyStr Exceptions Models Runtime.

(** What [get_current_user_bearer] hands to an endpoint: the dict with
    the keys ["user_id"] and ["email"].  The dependency returns it only
    after [if not user_id: raise TokenError], so the user id is a string
    that is not empty: [cu_given].  A request whose token has no such id
    is answered with 401 and does not reach the endpoint. *)
Record CurrentUser : Type := {
  cu_user_id : pystr;
  cu_email : option pystr;
  cu_given : truthy cu_user_id = true
}.

Definition http_error {A : Type} (status : Z) (detail : pystr) : M A :=
  raise (HTTPException status detail).

Definition upload_document (env : Env) (file : UploadFile)
    (current_user : CurrentUser) : M UploadResult :=
  try_except
    (DocumentService.upload_document env file (cu_user_id current_user))
    (fun e =>
       match e with
       | Exn FileTypeError _ => http_error HTTP_400_BAD_REQUEST (str_of e)
       | Exn EmptyDocumentError _ => http_error HTTP_400_BAD_REQUEST (str_of e)
       | Exn ChunkingError _ => http_error HTTP_400_BAD_REQUEST (str_of e)
       | Exn EmbeddingError _ =>
           http_error HTTP_500_INTERNAL_SERVER_ERROR (str_of e)
       | Exn FileProcessingError _ =>
           http_error HTTP_500_INTERNAL_SERVER_ERROR (str_of e)
       | Exn VectorCollectionError _ =>
           http_error HTTP_500_INTERNAL_SERVER_ERROR
                      (lit "Vector storage error: " ++ str_of e)
       | Exn PointError _ =>
           http_error HTTP_500_INTERNAL_SERVER_ERROR
                      (lit "Vector point error: " ++ str_of e)
       | Exn DocumentRepositoryError _ =>
           http_error HTTP_500_INTERNAL_SERVER_ERROR (str_of e)
       | _ =>
           http_error HTTP_500_INTERNAL_SERVER_ERROR
                      (lit "Unexpected error: " ++ str_of e)
       end).

Definition delete_document (env : Env) (doc_id : pystr)
    (current_user : CurrentUser) : M pystr :=
  try_except
    (DocumentService.delete_user_document env doc_id (cu_user_id current_user))
    (fun e =>
       match e with
       | Exn DocumentNotFoundError _ => http_error HTTP_404_NOT_FOUND (str_of e)
       | Exn VectorCollectionError _ =>
           http_error HTTP_500_INTERNAL_SERVER_ERROR
                      (lit "Vector storage error: " ++ str_of e)
       | Exn PointError _ =>
           http_error HTTP_500_INTERNAL_SERVER_ERROR
                      (lit "Vector point error: " ++ str_of e)
       | Exn DocumentRepositoryError _ =>
           http_error HTTP_500_INTERNAL_SERVER_ERROR (str_of e)
       | _ =>
           http_error HTTP_500_INTERNAL_SERVER_ERROR
                      (lit "Failed to delete document: " ++ str_of e)
       end).

(** [SearchResult(...)]: the model wants [chunk_index >= 0]. *)
Fixpoint search_results (hits : list SearchHit) : M (list SearchHit) :=
  match hits with
  | [] => ret []
  | result :: rest =>
      if (h_chunk_index result <? 0)%Z
      then raise (Exn LibraryError (lit "1 validation error for SearchResult"))
      else rest' <- search_results rest ;; ret (result :: rest')
  end.

Definition search_documents (env : Env) (query : pystr) (top_k : Z)
    (current_user : CurrentUser) : M (list SearchHit) :=
  try_except
    (hits <- DocumentService.search_user_documents env query top_k
               (cu_user_id current_user) ;;
     search_results hits)
    (fun e =>
       match e with
       | Exn EmptyDocumentError _ => http_error HTTP_400_BAD_REQUEST (str_of e)
       | Exn VectorCollectionError _ =>
           http_error HTTP_500_INTERNAL_SERVER_ERROR
                      (lit "Vector storage error: " ++ str_of e)
       | Exn PointError _ =>
           http_error HTTP_500_INTERNAL_SERVER_ERROR
                      (lit "Vector point error: " ++ str_of e)
       | Exn DocumentRepositoryError _ =>
           http_error HTTP_500_INTERNAL_SERVER_ERROR (str_of e)
       | _ =>
           http_error HTTP_500_INTERNAL_SERVER_ERROR
                      (lit "Failed to search documents: " ++ str_of e)
       end).

(** [DocumentResponse(...)]: the model wants [chunks_count >= 0]. *)
Definition document_response (doc_id filename : pystr)
    (file_type : option pystr) (chunks_count : Z)
    (created_at user_id : pystr) : M DocumentResponse :=
  if (chunks_count <? 0)%Z
  then raise (Exn LibraryError (lit "1 validation error for DocumentResponse"))
  else ret {| r_id := doc_id;
              r_doc_id := doc_id;
              r_filename := filename;
              r_file_type := file_type;
              r_chunks_count := chunks_count;
              r_created_at := created_at;
              r_user_id := user_id |}.

(** [[DocumentResponse(...) for doc in documents]]; a dict without
    ["chunks_count"] counts as 0 chunks. *)
Fixpoint document_responses (documents : list DocumentDict)
  : M (list DocumentResponse) :=
  match documents with
  | [] => ret []
  | doc :: rest =>
      r <- document_response (dd_doc_id doc) (dd_filename doc)
             (dd_file_type doc)
             (VectorRepository.get_default (dd_chunks_count doc) 0%Z)
             (dd_created_at doc) (dd_user_id doc) ;;
      rest' <- document_responses rest ;;
      ret (r :: rest')
  end.

Definition list_documents (env : Env) (current_user : CurrentUser)
  : M (list DocumentResponse) :=
  try_except
    (documents <- DocumentService.list_user_documents env
                    (cu_user_id current_user) ;;
     document_responses documents)
    (fun e =>
       match e with
       | Exn PointError _ =>
           http_error HTTP_500_INTERNAL_SERVER_ERROR
                      (lit "Vector storage error: " ++ str_of e)
       | Exn DocumentRepositoryError _ =>
           http_error HTTP_500_INTERNAL_SERVER_ERROR (str_of e)
       | _ =>
           http_error HTTP_500_INTERNAL_SERVER_ERROR
                      (lit "Failed to list documents: " ++ str_of e)
       end).

(** [get_document]: the count of the response is the number of chunks
    that came back, not the count in the metadata. *)
Definition get_document (env : Env) (doc_id : pystr)
    (current_user : CurrentUser) : M DocumentResponse :=
  try_except
    (document <- DocumentService.get_user_document env doc_id
                   (cu_user_id current_user) ;;
     let chunks := d_chunks document in
     let chunks_count := len chunks in
     let document := d_metadata document in
     document_response (Models.doc_id document) (filename document)
       (file_type document) chunks_count (created_at document)
       (user_id document))
    (fun e =>
       match e with
       | Exn DocumentNotFoundError _ => http_error HTTP_404_NOT_FOUND (str_of e)
       | Exn VectorCollectionError _ =>
           http_error HTTP_500_INTERNAL_SERVER_ERROR
                      (lit "Vector storage error: " ++ str_of e)
       | Exn PointError _ =>
           http_error HTTP_500_INTERNAL_SERVER_ERROR
                      (lit "Vector point error: " ++ str_of e)
       | Exn DocumentRepositoryError _ =>
           http_error HTTP_500_INTERNAL_SERVER_ERROR (str_of e)
       | _ =>
           http_error HTTP_500_INTERNAL_SERVER_ERROR
                      (lit "Failed to retrieve document: " ++ str_of e)
       end).

(** The status code of the response FastAPI sends for an outcome. *)
Definition status_code_of {A : Type} (r : outcome A) : option Z :=
  match r with
  | Return _ => Some 200%Z
  | Raise (HTTPException status _) => Some status
  | Raise (Exn _ _) => Some 500%Z
  | Hang => None
  end.

End DocumentController.

(* ===================================================================== *)
(** * src/service/authentication_service.py: who the current user is      *)
(* ===================================================================== *)

(** The endpoints of the document controller declare
    [Depends(get_current_user_bearer)]: FastAPI runs the dependency on the
    bearer token of a request and calls the endpoint with the dict it
    returns; when the dependency raises, the endpoint is not called.  The
    JWT library, the users collection and the validation of the
    [UserDetail] model are not part of the repository ([AuthEnv]); none of
    them touches the vector store.  Claims of a token that are not strings
    are left out. *)

Module Authentication.
Import PyStr Exceptions Models Runtime.

(** The claims of a decoded token that the code reads, each with
    [payload.get]. *)
Record TokenPayload : Type := {
  sub : option pystr;
  email : option pystr
}.

(** [jwt.decode(token, JWT_SECRET, algorithms=[JWT_ALGORITHM])]: the
    payload, or one of the two errors that [decode_access_token] names
    ([ExpiredSignatureError] derives from [InvalidTokenError] and is
    caught first), or another error. *)
Inductive jwt_result : Type :=
| Decoded (payload : TokenPayload)
| ExpiredSignatureError
| InvalidTokenError
| JwtFails (msg : pystr).

(** A document of the users collection, its [_id] as a string; the keys
    that [get_user_by_id] reads. *)
Record UserDocument : Type := {
  ud_id : pystr;
  ud_email : option pystr;
  ud_created_at : option pystr;
  ud_updated_at : option pystr;
  ud_is_active : option bool;
  ud_roles : option (list pystr);
  ud_last_login : option pystr
}.

(** The [UserDetail] model. *)
Record UserDetail : Type := {
  dt_id : pystr;
  dt_email : pystr;
  dt_created_at : option pystr;
  dt_updated_at : option pystr;
  dt_is_active : bool;
  dt_roles : list pystr;
  dt_last_login : option pystr
}.

Record AuthEnv : Type := {
  jwt_decode : pystr -> jwt_result;
  (* collection.find_one({"_id": ObjectId(user_id)}), the [_id] of the
     document turned into a string *)
  find_one_by_id : pystr -> lib_result (option UserDocument);
  (* the validation of an address by pydantic's EmailStr *)
  validate_email : pystr -> lib_result pystr
}.

Definition decode_access_token (aenv : AuthEnv) (token : pystr)
  : M TokenPayload :=
  match jwt_decode aenv token with
  | Decoded payload => ret payload
  | ExpiredSignatureError => raise (Exn TokenExpiredError (lit "Token expired"))
  | InvalidTokenError => raise (Exn TokenError (lit "Invalid token"))
  | JwtFails msg => raise (Exn LibraryError msg)
  end.

(** [UserRepository.find_by_id]. *)
Definition find_by_id (aenv : AuthEnv) (user_id : pystr)
  : M (option UserDocument) :=
  try_except
    (lift_lib (find_one_by_id aenv user_id))
    (fun e => raise (Exn UserRepositoryError
                       (lit "Failed to find user by ID: " ++ str_of e))).

(** [UserService.get_user_by_id]. *)
Definition get_user_by_id (aenv : AuthEnv) (user_id : pystr)
  : M (option UserDetail) :=
  user <- find_by_id aenv user_id ;;
  match user with
  | None => ret None
  | Some user =>
      email <- DocumentService.subscript (ud_email user) (lit "email") ;;
      email <- lift_lib (validate_email aenv email) ;;
      ret (Some {| dt_id := ud_id user;
                   dt_email := email;
                   dt_created_at := ud_created_at user;
                   dt_updated_at := ud_updated_at user;
                   dt_is_active :=
                     DocumentService.from_option (ud_is_active user) true;
                   dt_roles := DocumentService.from_option (ud_roles user) [];
                   dt_last_login := ud_last_login user |})
  end.

(** [get_current_user_bearer(credentials)]; [credentials] is the token of
    the request.  [if not user_id] holds for a missing ["sub"] and for the
    empty string. *)
Definition get_current_user_bearer (aenv : AuthEnv) (credentials : pystr)
  : M DocumentController.CurrentUser :=
  try_except
    (payload <- decode_access_token aenv credentials ;;
     let user_id := sub payload in
     let email := email payload in
     match user_id with
     | None | Some [] =>
         raise (Exn TokenError (lit "Invalid token payload"))
     | Some (c :: rest) =>
         let user_id := c :: rest in
         user <- get_user_by_id aenv user_id ;;
         match user with
         | None =>
             raise (Exn UserNotFoundError
                      (lit "User with ID " ++ user_id ++ lit " not found"))
         | Some _ =>
             ret {| DocumentController.cu_user_id := user_id;
                    DocumentController.cu_email := email;
                    DocumentController.cu_given := eq_refl |}
         end
     end)
    (fun e =>
       match e with
       | Exn TokenExpiredError _ =>
           raise (HTTPException HTTP_401_UNAUTHORIZED (str_of e))
       | Exn TokenError _ =>
           raise (HTTPException HTTP_401_UNAUTHORIZED (str_of e))
       | Exn UserNotFoundError _ =>
           raise (HTTPException HTTP_401_UNAUTHORIZED (str_of e))
       | _ =>
           raise (HTTPException HTTP_500_INTERNAL_SERVER_ERROR
                    (lit "Authentication error: " ++ str_of e))
       end).

(** A request with the bearer token [credentials] to an endpoint that
    depends on [get_current_user_bearer]. *)
Definition authenticated {A : Type} (aenv : AuthEnv) (credentials : pystr)
    (endpoint : DocumentController.CurrentUser -> M A) : M A :=
  current_user <- get_current_user_bearer aenv credentials ;;
  endpoint current_user.

End Authentication.

(* ===================================================================== *)
(** * A concrete environment to run the model in                          *)
(* ===================================================================== *)

Module Scenario.
Import PyStr PyLib Exceptions Models Runtime.

(** [str.lower] on ASCII letters. *)
Definition ascii_lower (s : pystr) : pystr :=
  map (fun c => if ((65 <=? c) && (c <=? 90))%N then (c + 32)%N else c) s.

(** A rendering of a non-negative int. *)
Definition digits (i : Z) : pystr :=
  lit (NilEmpty.string_of_uint (N.to_uint (Z.to_N i))).

(** An embedding model of dimension [dim]: every text gets the vector of
    [dim] zeros. *)
Definition zero_vector (dim : nat) : list float :=
  repeat (S754_zero false) dim.

(** A POSIX host with a text decoder for ASCII files and an embedding
    model of dimension [dim]; the collection is created with [size]. *)
Definition env0 (size : Z) (dim : nat) (chunk_size overlap : Z) : Env :=
  {| VECTOR_SIZE := size;
     CHUNK_SIZE := chunk_size;
     OVERLAP := overlap;
     os_sep := 47%N;
     os_altsep := None;
     str_lower := ascii_lower;
     uuid4 := lit "doc-1";
     uuid5 := fun ns name => ns ++ lit "/" ++ name;
     utc_now := lit "2025-01-01T00:00:00+00:00";
     str_of_int := digits;
     temp_prefix := lit "/tmp/tmpq1w2e3";
     read_utf8 := fun b => Utf8Text (map Byte.to_N b);
     read_latin1 := fun b => Ok (map Byte.to_N b);
     pdf_pages := fun _ => Fails (lit "cannot open broken document");
     docx_paragraphs := fun _ => Fails (lit "File is not a zip file");
     encode_batch := fun texts => Ok (map (fun _ => zero_vector dim) texts);
     encode := fun _ => Ok (zero_vector dim);
     similarity := fun _ _ => S754_finite false 1 0 |}.

Definition bytes_of (s : string) : list byte := list_byte_of_string s.

Definition empty_world : World :=
  {| collection := None; collection_ready := false; log := [] |}.

Definition alice : DocumentController.CurrentUser :=
  {| DocumentController.cu_user_id := lit "alice";
     DocumentController.cu_email := Some (lit "alice@example.org");
     DocumentController.cu_given := eq_refl |}.

Definition bob : DocumentController.CurrentUser :=
  {| DocumentController.cu_user_id := lit "bob";
     DocumentController.cu_email := Some (lit "bob@example.org");
     DocumentController.cu_given := eq_refl |}.

(** A text file with nothing in it, one with a control character only,
    one with seven words, and a spreadsheet. *)
Definition empty_txt : UploadFile :=
  {| f_filename := Some (lit "empty.txt"); f_content := [] |}.

Definition control_txt : UploadFile :=
  {| f_filename := Some (lit "control.txt"); f_content := [x00] |}.

Definition seven_txt : UploadFile :=
  {| f_filename := Some (lit "seven.TXT");
     f_content := bytes_of "one two three four five six seven" |}.

Definition sheet_xlsx : UploadFile :=
  {| f_filename := Some (lit "sheet.xlsx"); f_content := bytes_of "PK" |}.

(** A point of chunk [i] of document [doc_id] of [user_id]. *)
Definition point_of (doc_id user_id : pystr) (i : Z) (v : list float)
  : PointStruct :=
  {| id := doc_id ++ lit "/" ++ digits i;
     vector := v;
     payload :=
       {| p_chunk_text := Some (lit "text");
          p_chunk_index := Some i;
          p_doc_id := Some doc_id;
          p_user_id := Some user_id;
          p_filename := Some (lit "notes.txt");
          p_file_type := Some (lit ".txt");
          p_created_at := Some (lit "2025-01-01T00:00:00+00:00");
          p_doc_metadata := None |} |}.

(** A store that holds document [d1] of alice: chunks 2, 0 and 1, in
    this order. *)
Definition alice_world : World :=
  {| collection :=
       Some {| vectors_size := 2;
               points := [point_of (lit "d1") (lit "alice") 2 (zero_vector 2);
                          point_of (lit "d1") (lit "alice") 0 (zero_vector 2);
                          point_of (lit "d1") (lit "alice") 1 (zero_vector 2)] |};
     collection_ready := true;
     log := [] |}.

(** A world in which the repository object has marked the collection
    ready and the collection is not there: it was removed in the vector
    store after the repository had looked. *)
Definition gone_world : World :=
  {| collection := None; collection_ready := true; log := [] |}.

(** The users collection with alice in it, and a JWT library that knows
    three tokens: one of alice, one whose ["sub"] is the empty string, and
    one that has expired. *)
Definition alice_document : Authentication.UserDocument :=
  {| Authentication.ud_id := lit "alice";
     Authentication.ud_email := Some (lit "alice@example.org");
     Authentication.ud_created_at := Some (lit "2025-01-01T00:00:00+00:00");
     Authentication.ud_updated_at := None;
     Authentication.ud_is_active := None;
     Authentication.ud_roles := None;
     Authentication.ud_last_login := None |}.

Definition auth0 : Authentication.AuthEnv :=
  {| Authentication.jwt_decode := fun token =>
       if PyStr.eqb token (lit "token-of-alice")
       then Authentication.Decoded
              {| Authentication.sub := Some (lit "alice");
                 Authentication.email := Some (lit "alice@example.org") |}
       else if PyStr.eqb token (lit "token-without-user")
       then Authentication.Decoded
              {| Authentication.sub := Some [];
                 Authentication.email := None |}
       else if PyStr.eqb token (lit "old-token")
       then Authentication.ExpiredSignatureError
       else Authentication.InvalidTokenError;
     Authentication.find_one_by_id := fun user_id =>
       if PyStr.eqb user_id (lit "alice") then Ok (Some alice_document)
       else Ok None;
     Authentication.validate_email := fun address => Ok address |}.

(** A point that some other program has stored for alice: it has no
    chunk text and no metadata. *)
Definition bare_point : PointStruct :=
  {| id := lit "p0";
     vector := zero_vector 2;
     payload :=
       {| p_chunk_text := None;
          p_chunk_index := Some 0%Z;
          p_doc_id := Some (lit "d9");
          p_user_id := Some (lit "alice");
          p_filename := None;
          p_file_type := None;
          p_created_at := None;
          p_doc_metadata := None |} |}.

(** The result of a search that found it. *)
Definition bare_result : ScoredPoint :=
  {| sp_id := lit "p0";
     sp_score := S754_finite false 1 0;
     sp_payload := payload bare_point |}.

(** The answer of the upload of the seven words. *)
Definition seven_result : UploadResult :=
  {| u_doc_id := lit "doc-1";
     u_filename := lit "seven.TXT";
     u_file_type := lit ".txt";
     u_chunks_count := 2;
     u_message := lit "Document uploaded successfully" |}.

(** The world after alice has uploaded the seven words. *)
Definition seven_world : World :=
  snd (DocumentService.upload_document (env0 3 3 4 1) seven_txt (lit "alice")
         empty_world).

End Scenario.

(* ===================================================================== *)
(** * The vocabulary of the properties                                    *)
(* ===================================================================== *)

Unset Implicit Arguments.

Module Props.
Import PyStr PyLib Chunker Exceptions Models Runtime.

(** No two neighbours of [s] are both the character [c]. *)
Fixpoint no_adjacent (c : char) (s : pystr) : Prop :=
  match s with
  | [] => True
  | x :: t =>
      match t with
      | [] => True
      | y :: _ => ~ (x = c /\ y = c)
      end /\ no_adjacent c t
  end.

(** The first character of [s], if there is one, is not whitespace. *)
Definition starts_clean (s : pystr) : Prop :=
  match s with
  | [] => True
  | c :: _ => isspace c = false
  end.

Definition ends_clean (s : pystr) : Prop := starts_clean (rev s).

(** [squeeze c s] drops every [c] that another [c] follows: what
    [re.sub] does for the pattern [c{2,}] and the replacement [c]. *)
Fixpoint squeeze (c : char) (s : pystr) : pystr :=
  match s with
  | [] => []
  | x :: t =>
      match t with
      | y :: _ => if ((x =? c) && (y =? c))%N then squeeze c t
                  else x :: squeeze c t
      | [] => [x]
      end
  end.

(** What one pass of [clean_text] leaves. *)
Record clean (s : pystr) : Prop := {
  clean_printable : Forall (fun c => not_printable c = false) s;
  clean_spaces : no_adjacent SPACE s;
  clean_newlines : no_adjacent NEWLINE s;
  clean_start : starts_clean s;
  clean_end : ends_clean s
}.

(** The tokens at positions [k*(size-overlap)] to
    [k*(size-overlap)+size-1] of [seq], as far as [seq] goes. *)
Definition window (seq : list pystr) (size overlap : Z) (k : nat)
  : list pystr :=
  firstn (Z.to_nat size) (skipn (k * Z.to_nat (size - overlap)) seq).

(** A token: not empty, and without whitespace. *)
Definition is_token (w : pystr) : Prop :=
  w <> [] /\ Forall (fun c => isspace c = false) w.

(** What a logged call does to the collection. *)
Definition apply_event (ev : event) (c : option Collection)
  : option Collection :=
  match ev, c with
  | CreateCollection size, None =>
      Some {| vectors_size := size; points := [] |}
  | Upsert pts, Some c =>
      if forallb (fun pt => (len (vector pt) =? vectors_size c)%Z) pts
      then Some {| vectors_size := vectors_size c;
                   points := fold_left Qdrant.upsert_point pts (points c) |}
      else Some c
  | Delete f, Some c =>
      Some {| vectors_size := vectors_size c;
              points := filter (fun pt => negb (Qdrant.matches (Some f) pt))
                               (points c) |}
  | _, _ => c
  end.

Definition replay (evs : list event) (c : option Collection)
  : option Collection :=
  fold_left (fun c ev => apply_event ev c) evs c.

(** [w'] follows [w] by calls that all satisfy [P]: the log has grown by
    them, and the collection is what they make of it. *)
Definition follows (P : event -> Prop) (w w' : World) : Prop :=
  exists evs,
    log w' = log w ++ evs
    /\ Forall P evs
    /\ collection w' = replay evs (collection w).

(** [m] takes every world to one related to it by [R]. *)
Definition steps (R : World -> World -> Prop) {A : Type} (m : M A) : Prop :=
  forall w, R w (snd (m w)).

(** A call that leaves the collection as it is. *)
Definition inert (ev : event) : Prop :=
  forall c, apply_event ev c = c.

(** The calls that set the collection up. *)
Definition structural (env : Env) (ev : event) : Prop :=
  match ev with
  | CollectionExists | CreatePayloadIndex _ => True
  | CreateCollection size => size = VECTOR_SIZE env
  | _ => False
  end.

(** The calls that do not go to the vector store. *)
Definition local (ev : event) : Prop :=
  match ev with
  | FileRead | TempFileWrite _ | LoadDocument _ | Unlink _
  | EncodeBatch _ | Encode _ => True
  | _ => False
  end.

(** The condition that a chunk belongs to [user_id]. *)
Definition owner_condition (user_id : pystr) : FieldCondition :=
  {| key := lit "user_id"; match_value := user_id |}.

Definition scoped (user_id : pystr) (f : option Filter) : Prop :=
  exists f', f = Some f' /\ In (owner_condition user_id) (must f').

(** The metadata of the document that [user_id] uploads under the name
    [filename], with the extension [ext], in [n] chunks. *)
Definition metadata_of (env : Env) (user_id filename ext : pystr) (n : Z)
  : DocumentModel :=
  {| doc_id := uuid4 env;
     user_id := user_id;
     filename := filename;
     file_type := Some ext;
     chunks_count := n;
     created_at := utc_now env |}.

(** The point of chunk [i] of that document: its vector is the embedding
    of the chunk, its id is made from the document id and [i], and its
    payload holds the text of the chunk, the index [i], the document id,
    the user id, the name, the extension, the time and the metadata of
    the document. *)
Definition chunk_point (env : Env) (user_id filename ext : pystr) (n : Z)
    (i : nat) (chunk : pystr * list float) : PointStruct :=
  {| id := uuid5 env (uuid4 env) (str_of_int env (Z.of_nat i));
     vector := snd chunk;
     payload :=
       {| p_chunk_text := Some (fst chunk);
          p_chunk_index := Some (Z.of_nat i);
          p_doc_id := Some (uuid4 env);
          p_user_id := Some user_id;
          p_filename := Some filename;
          p_file_type := Some ext;
          p_created_at := Some (utc_now env);
          p_doc_metadata :=
            Some (metadata_of env user_id filename ext n) |} |}.

(** The points of the chunks [chunks_data]: at every position [i], the
    point of chunk [i], and no point where there is no chunk. *)
Definition owned_points (env : Env) (user_id filename ext : pystr)
    (chunks_data : list (pystr * list float)) (pts : list PointStruct)
  : Prop :=
  forall i,
    nth_error pts i
    = option_map (chunk_point env user_id filename ext (len chunks_data) i)
                 (nth_error chunks_data i).

(** The lowercased extension of a file name, as [upload_document] takes
    it. *)
Definition extension_of (env : Env) (filename : pystr) : pystr :=
  str_lower env (snd (splitext (os_sep env) (os_altsep env) filename)).

(** What the upload of [file] by [user_id], called in the world [w], may
    ask of the outside: it reads and deletes nothing in the vector store,
    and it upserts nothing but the points of the chunks that
    [_process_document] returns for this file in this world, under the
    name of the file and its extension. *)
Definition uploads (env : Env) (file : UploadFile) (user_id : pystr)
    (w : World) (ev : event) : Prop :=
  match ev with
  | CreateCollection size => size = VECTOR_SIZE env
  | Upsert pts =>
      match f_filename file,
            fst (DocumentService._process_document env file w) with
      | Some filename, Return chunks_data =>
          owned_points env user_id filename (extension_of env filename)
                       chunks_data pts
      | _, _ => False
      end
  | Delete _ | Scroll _ _ | QueryPoints _ _ _ => False
  | _ => True
  end.

(** What [_process_document] returns for a file, when it returns: the
    text is what [load_document] gives for the temporary copy, the chunks
    are those of [chunker] on that text that are not blank, in their
    order, and chunk [i] is paired with the [i]-th embedding of the
    model. *)
Definition chunks_of_file (env : Env) (file : UploadFile) (w : World)
    (chunks_data : list (pystr * list float)) : Prop :=
  match f_filename file with
  | None => False
  | Some filename =>
      let path :=
        temp_prefix env
        ++ snd (splitext (os_sep env) (os_altsep env) filename) in
      match fst (Extractor.load_document env path (f_content file) w) with
      | Return text =>
          match Chunker.chunker (S (length (split (clean_text text)))) text
                                (CHUNK_SIZE env) (OVERLAP env) with
          | Some chunks =>
              let chunk_texts :=
                filter (fun chunk => truthy (strip chunk)) chunks in
              match encode_batch env chunk_texts with
              | Ok embeddings => chunks_data = combine chunk_texts embeddings
              | Fails _ => False
              end
          | None => False
          end
      | _ => False
      end
  end.

(** What the service may ask of the outside on behalf of [user_id]. *)
Definition policy (env : Env) (user_id : pystr) (ev : event) : Prop :=
  match ev with
  | CreateCollection size => size = VECTOR_SIZE env
  | Upsert pts =>
      Forall (fun pt => p_user_id (payload pt) = Some user_id) pts
  | Delete f => In (owner_condition user_id) (must f)
  | Scroll f _ => scoped user_id f
  | QueryPoints _ f _ => scoped user_id f
  | _ => True
  end.

(** What a lookup or a search for [user_id] may ask: nothing that writes,
    and every query scoped to the user. *)
Definition reads (env : Env) (user_id : pystr) (ev : event) : Prop :=
  match ev with
  | CreateCollection size => size = VECTOR_SIZE env
  | Upsert _ | Delete _ => False
  | Scroll f _ => scoped user_id f
  | QueryPoints _ f _ => scoped user_id f
  | _ => True
  end.

(** What a deletion for [user_id] may ask. *)
Definition deletes (env : Env) (user_id : pystr) (ev : event) : Prop :=
  match ev with
  | CreateCollection size => size = VECTOR_SIZE env
  | Upsert _ => False
  | Delete f => In (owner_condition user_id) (must f)
  | Scroll f _ => scoped user_id f
  | QueryPoints _ f _ => scoped user_id f
  | _ => True
  end.

(** The points in the store. *)
Definition stored (c : option Collection) : list PointStruct :=
  match c with
  | Some c => points c
  | None => []
  end.

(** The collection, if there is one, has the configured vector size. *)
Definition configured (env : Env) (c : option Collection) : Prop :=
  match c with
  | Some c => vectors_size c = VECTOR_SIZE env
  | None => True
  end.

(** The repository object believes the collection ready only if it is
    there. *)
Definition world_ok (w : World) : Prop :=
  collection_ready w = true -> collection w <> None.

(** A step that does not make that belief wrong. *)
Definition keeps_ok (w w' : World) : Prop := world_ok w -> world_ok w'.

(** The order of two elements by their keys. *)
Definition key_le {A : Type} (key : A -> Z) (a b : A) : Prop :=
  (key a <= key b)%Z.

End Props.

(* ===================================================================== *)
(** * More vocabulary: texts, documents, listings, tokens                 *)
(* ===================================================================== *)

Module MoreProps.
Import PyStr PyLib Chunker Exceptions Models Runtime Props Authentication.

(** A visible ASCII character: ['!'] to ['~']. *)
Definition visible (c : char) : bool := ((33 <=? c) && (c <=? 126))%N.

(** A file that [upload_document] does not take: no name, an empty name,
    or an extension other than [.txt], [.pdf], [.docx]. *)
Definition unsupported (env : Env) (file : UploadFile) : Prop :=
  match f_filename file with
  | None => True
  | Some filename =>
      filename = []
      \/ ~ In (extension_of env filename) [lit ".txt"; lit ".pdf"; lit ".docx"]
  end.

(** The entry of a search result, if its payload has the keys ["doc_id"],
    ["chunk_text"] and ["chunk_index"]. *)
Definition hit_of (result : ScoredPoint) : option SearchHit :=
  match p_doc_id (sp_payload result), p_chunk_text (sp_payload result),
        p_chunk_index (sp_payload result) with
  | Some doc_id, Some chunk_text, Some chunk_index =>
      Some {| h_doc_id := doc_id;
              h_filename :=
                DocumentService.from_option (p_filename (sp_payload result))
                                            (lit "Unknown");
              h_chunk_text := chunk_text;
              h_score := sp_score result;
              h_chunk_index := chunk_index |}
  | _, _, _ => None
  end.

(** The first of the three keys that a payload does not have. *)
Definition missing_key (p : Payload) : option pystr :=
  match p_doc_id p, p_chunk_text p, p_chunk_index p with
  | None, _, _ => Some (lit "doc_id")
  | Some _, None, _ => Some (lit "chunk_text")
  | Some _, Some _, None => Some (lit "chunk_index")
  | Some _, Some _, Some _ => None
  end.

(** The first result that lacks a key, with the key. *)
Fixpoint first_missing_key (results : list ScoredPoint) : option pystr :=
  match results with
  | [] => None
  | result :: rest =>
      match missing_key (sp_payload result) with
      | Some k => Some k
      | None => first_missing_key rest
      end
  end.

(** A chunk of the document [doc_id] of [user_id]. *)
Definition chunk_of (doc_id user_id : pystr) (pt : PointStruct) : Prop :=
  p_doc_id (payload pt) = Some doc_id /\ p_user_id (payload pt) = Some user_id.

(** A call that writes nothing to the vector store. *)
Definition read_only (ev : event) : Prop :=
  match ev with
  | Upsert _ | Delete _ => False
  | _ => True
  end.

(** ** Upserts of points with distinct ids *)

Definition id_in (ids : list pystr) (q : PointStruct) : bool :=
  existsb (PyStr.eqb (id q)) ids.

(** The points that a listing for [user_id] looks at: the first 1000
    stored points with that user id. *)
Definition listed_points (user_id : pystr) (w : World) : list PointStruct :=
  firstn (Z.to_nat 1000)
         (filter (Qdrant.matches
                    (VectorRepository.unique_filter (Some user_id)))
                 (stored (collection w))).

(** The document id of a point, if it has one and it is not empty. *)
Definition doc_key (pt : PointStruct) : option pystr :=
  match p_doc_id (payload pt) with
  | Some d_id => if truthy d_id then Some d_id else None
  | None => None
  end.

(** A point as [upload_document] stores it: it carries the metadata of
    its document, with the document id of the point. *)
Definition self_described (pt : PointStruct) : Prop :=
  match p_doc_metadata (payload pt) with
  | Some doc_metadata => p_doc_id (payload pt) = Some (doc_id doc_metadata)
  | None => False
  end.

(** The user id of a bearer token: its ["sub"], if the token decodes. *)
Definition token_subject (aenv : AuthEnv) (credentials : pystr)
  : option pystr :=
  match jwt_decode aenv credentials with
  | Decoded payload => sub payload
  | _ => None
  end.

(** The users collection has a document with that id. *)
Definition registered (aenv : AuthEnv) (user_id : pystr) : bool :=
  match find_one_by_id aenv user_id with
  | Ok (Some _) => true
  | _ => false
  end.

(** A request with a bearer token asks the vector store for nothing but
    what the policy allows for the user of the token, and for nothing at
    all when the token names no user. *)
Definition scoped_request {A : Type} (env : Env) (aenv : AuthEnv)
    (credentials : pystr) (endpoint : DocumentController.CurrentUser -> M A)
    (w : World) : Prop :=
  let w' := snd (authenticated aenv credentials endpoint w) in
  match token_subject aenv credentials with
  | Some (c :: rest) => follows (policy env (c :: rest)) w w'
  | _ => w' = w
  end.

End MoreProps.

(* ===================================================================== *)
(** * Properties of the string builtins                                   *)
(* ===================================================================== *)

Module PyStrFacts.
Import PyStr Props.

Lemma no_adjacent_app_l c p q : no_adjacent c (p ++ q) -> no_adjacent c p.
Proof.
  induction p as [|x p IH]; simpl; [easy|].
  intros [H1 H2]. split; [|auto].
  destruct p as [|y p]; simpl in *; auto.
Qed.

Lemma no_adjacent_app_r c p q : no_adjacent c (p ++ q) -> no_adjacent c q.
Proof.
  induction p as [|x p IH]; simpl; [easy|].
  intros [_ H2]. auto.
Qed.

Lemma no_adjacent_nth c s :
  no_adjacent c s <->
  (forall i, ~ (nth_error s i = Some c /\ nth_error s (S i) = Some c)).
Proof.
  induction s as [|x t IH]; simpl.
  - split; [|easy]. intros _ i [H _]. destruct i; discriminate.
  - split.
    + intros [H1 H2] i [Hi Hj]. destruct i as [|i].
      * simpl in Hi. destruct t as [|y t]; [discriminate|].
        simpl in Hj. apply H1. split; congruence.
      * apply (proj1 IH H2 i). auto.
    + intros H. split.
      * destruct t as [|y t]; [easy|].
        intros [-> ->]. apply (H 0%nat). auto.
      * apply IH. intros i Hi. apply (H (S i)). exact Hi.
Qed.

(** ** [lstrip], [rstrip], [strip] *)

Lemma lstrip_suffix s : exists p, s = p ++ lstrip s.
Proof.
  induction s as [|c t [p Hp]]; simpl.
  - exists []. reflexivity.
  - destruct (isspace c).
    + exists (c :: p). simpl. f_equal. exact Hp.
    + exists []. reflexivity.
Qed.

Lemma lstrip_starts_clean s : starts_clean (lstrip s).
Proof.
  induction s as [|c t IH]; simpl; [exact I|].
  destruct (isspace c) eqn:E; [exact IH|exact E].
Qed.

Lemma lstrip_id s : starts_clean s -> lstrip s = s.
Proof.
  destruct s as [|c t]; simpl; [easy|]. intros ->. reflexivity.
Qed.

Lemma rstrip_prefix s : exists q, s = rstrip s ++ q.
Proof.
  unfold rstrip. destruct (lstrip_suffix (rev s)) as [p Hp].
  exists (rev p). rewrite <- rev_app_distr, <- Hp, rev_involutive. reflexivity.
Qed.

Lemma rstrip_ends_clean s : ends_clean (rstrip s).
Proof.
  unfold ends_clean, rstrip. rewrite rev_involutive. apply lstrip_starts_clean.
Qed.

Lemma rstrip_id s : ends_clean s -> rstrip s = s.
Proof.
  unfold ends_clean, rstrip. intros H. rewrite lstrip_id by exact H.
  apply rev_involutive.
Qed.

Lemma starts_clean_prefix p q : starts_clean (p ++ q) -> starts_clean p.
Proof. destruct p; simpl; auto. Qed.

Lemma strip_sub s : exists p q, s = p ++ strip s ++ q.
Proof.
  unfold strip. destruct (lstrip_suffix s) as [p Hp].
  destruct (rstrip_prefix (lstrip s)) as [q Hq].
  exists p, q. rewrite <- Hq. exact Hp.
Qed.

Lemma strip_starts_clean s : starts_clean (strip s).
Proof.
  unfold strip. destruct (rstrip_prefix (lstrip s)) as [q Hq].
  apply starts_clean_prefix with (q := q). rewrite <- Hq.
  apply lstrip_starts_clean.
Qed.

Lemma strip_ends_clean s : ends_clean (strip s).
Proof. apply rstrip_ends_clean. Qed.

Lemma strip_id s : starts_clean s -> ends_clean s -> strip s = s.
Proof.
  intros H1 H2. unfold strip. rewrite lstrip_id by exact H1.
  apply rstrip_id. exact H2.
Qed.

Lemma lstrip_all_space s : forallb isspace s = true -> lstrip s = [].
Proof.
  induction s as [|c t IH]; simpl; [easy|].
  intros H. apply andb_prop in H. destruct H as [-> H]. auto.
Qed.

(** A string of whitespace only, the empty one too, strips to nothing. *)
Lemma strip_all_space s : forallb isspace s = true -> strip s = [].
Proof.
  intros H. unfold strip. rewrite lstrip_all_space by exact H. reflexivity.
Qed.

Lemma lstrip_nil s : lstrip s = [] -> forallb isspace s = true.
Proof.
  induction s as [|c t IH]; simpl; [reflexivity|].
  destruct (isspace c); [exact IH|discriminate].
Qed.

(** [s.strip()] is empty exactly when [s] has whitespace only. *)
Lemma strip_nil_iff s : strip s = [] <-> forallb isspace s = true.
Proof.
  split; [|apply strip_all_space].
  unfold strip, rstrip. intros H. apply lstrip_nil.
  apply (f_equal (@rev char)) in H. rewrite rev_involutive in H. simpl in H.
  apply lstrip_nil in H. rewrite forallb_forall in H.
  pose proof (lstrip_starts_clean s) as Hc.
  destruct (lstrip s) as [|c t]; [reflexivity|]. simpl in Hc.
  rewrite (H c) in Hc; [discriminate|].
  apply in_rev. rewrite rev_involutive. left. reflexivity.
Qed.

(** ** [re.sub] on runs *)

Lemma flush_cases min repl run :
  flush min repl run = [] \/ flush min repl run = repl \/
  flush min repl run = run.
Proof.
  unfold flush. destruct run; [auto|].
  destruct (min <=? _)%nat; auto.
Qed.

(** Whatever holds of the input, of the pending run and of the
    replacement holds of the result. *)
Lemma re_sub_runs_Forall (P : char -> Prop) cls min repl s :
  Forall P repl -> Forall P s ->
  forall run, Forall P run -> Forall P (re_sub_runs cls min repl run s).
Proof.
  intros Hrepl Hs. induction Hs as [|c t Hc Ht IH]; intros run Hrun; simpl.
  - destruct (flush_cases min repl run) as [-> | [-> | ->]]; auto.
  - destruct (cls c).
    + apply IH. apply Forall_app. auto.
    + apply Forall_app. split.
      * destruct (flush_cases min repl run) as [-> | [-> | ->]]; auto.
      * constructor; auto.
Qed.

(** A string without a character of the class is left as it is. *)
Lemma re_sub_id cls min repl s :
  Forall (fun c => cls c = false) s -> re_sub cls min repl s = s.
Proof.
  unfold re_sub. induction 1 as [|c t Hc Ht IH]; simpl; [reflexivity|].
  rewrite Hc. simpl. f_equal. exact IH.
Qed.

(** With [min = 1] no character of the class is left, if the replacement
    has none. *)
Lemma re_sub_runs_1_class cls repl s :
  Forall (fun c => cls c = false) repl ->
  forall run,
    Forall (fun c => cls c = false) (re_sub_runs cls 1 repl run s).
Proof.
  intros Hrepl. induction s as [|c t IH]; intros run; simpl.
  - destruct run; simpl; auto.
  - destruct (cls c) eqn:E; [apply IH|].
    apply Forall_app. split.
    + destruct run; simpl; auto.
    + constructor; auto.
Qed.

Lemma squeeze_cons2 c x y t :
  squeeze c (x :: y :: t) =
  if ((x =? c) && (y =? c))%N then squeeze c (y :: t)
  else x :: squeeze c (y :: t).
Proof. reflexivity. Qed.

Lemma squeeze_cons_same c t : squeeze c (c :: c :: t) = squeeze c (c :: t).
Proof. rewrite squeeze_cons2, N.eqb_refl. reflexivity. Qed.

Lemma squeeze_cons_other c x t :
  x <> c -> squeeze c (x :: t) = x :: squeeze c t.
Proof.
  intros Hx. destruct t as [|y t]; [reflexivity|].
  rewrite squeeze_cons2. apply N.eqb_neq in Hx. rewrite Hx. reflexivity.
Qed.

Lemma squeeze_cons_then_other c x t :
  x <> c -> squeeze c (c :: x :: t) = c :: x :: squeeze c t.
Proof.
  intros Hx. rewrite squeeze_cons2, squeeze_cons_other by exact Hx.
  apply N.eqb_neq in Hx. rewrite Hx, andb_false_r. reflexivity.
Qed.

Lemma re_sub_runs_cons cls min repl run c t :
  re_sub_runs cls min repl run (c :: t) =
  if cls c then re_sub_runs cls min repl (run ++ [c]) t
  else flush min repl run ++ c :: re_sub_runs cls min repl [] t.
Proof. reflexivity. Qed.

Lemma re_sub_runs_squeeze (c : char) s : forall n,
  re_sub_runs (fun x => (x =? c)%N) 2 [c] (repeat c n) s =
  match n with
  | O => squeeze c s
  | S _ => squeeze c (c :: s)
  end.
Proof.
  induction s as [|x t IH]; intros n.
  - simpl. destruct n as [|[|n]]; reflexivity.
  - rewrite re_sub_runs_cons. destruct (N.eqb_spec x c) as [->|Hx].
    + rewrite <- repeat_cons. change (c :: repeat c n) with (repeat c (S n)).
      rewrite IH. destruct n; [reflexivity|].
      symmetry. apply squeeze_cons_same.
    + pose proof (IH 0%nat) as IH0. cbn [repeat] in IH0. rewrite IH0.
      destruct n as [|n].
      * simpl flush. simpl app. symmetry. apply squeeze_cons_other. exact Hx.
      * rewrite squeeze_cons_then_other by exact Hx.
        destruct n; reflexivity.
Qed.

Lemma re_sub_squeeze (c : char) s :
  re_sub (fun x => (x =? c)%N) 2 [c] s = squeeze c s.
Proof. exact (re_sub_runs_squeeze c s 0). Qed.

Lemma squeeze_head c s : hd_error (squeeze c s) = hd_error s.
Proof.
  induction s as [|x t IH]; [reflexivity|].
  destruct t as [|y t]; [reflexivity|].
  rewrite squeeze_cons2. destruct (N.eqb_spec x c) as [->|Hx]; simpl andb.
  - destruct (N.eqb_spec y c) as [->|Hy]; [|reflexivity].
    rewrite IH. reflexivity.
  - reflexivity.
Qed.

Lemma squeeze_Forall (P : char -> Prop) c s :
  Forall P s -> Forall P (squeeze c s).
Proof.
  induction 1 as [|x t Hx Ht IH]; [constructor|].
  destruct t as [|y t]; [simpl; auto|].
  rewrite squeeze_cons2. destruct ((x =? c) && (y =? c))%N; auto.
Qed.

Lemma no_adjacent_cons d x s :
  no_adjacent d (x :: s) <->
  ~ (x = d /\ hd_error s = Some d) /\ no_adjacent d s.
Proof.
  simpl. destruct s as [|y s]; simpl.
  - split; intros [_ H]; split; auto. intros [_ H']. discriminate.
  - split; intros [H1 H2]; split; auto.
    + intros [Hx Hy]. apply H1. split; congruence.
    + intros [Hx Hy]. apply H1. split; congruence.
Qed.

(** Squeezing [c] leaves a string without two neighbouring [c]. *)
Lemma squeeze_no_adjacent c s : no_adjacent c (squeeze c s).
Proof.
  induction s as [|x t IH]; [exact I|].
  destruct t as [|y t]; [simpl; auto|].
  rewrite squeeze_cons2. destruct (N.eqb_spec x c) as [->|Hx]; simpl andb.
  - destruct (N.eqb_spec y c) as [->|Hy]; [exact IH|].
    apply no_adjacent_cons. split; [|exact IH].
    rewrite squeeze_head. simpl. intros [_ H]. congruence.
  - apply no_adjacent_cons. split; [|exact IH]. intros [H _]. congruence.
Qed.

(** Squeezing [c] makes no two [d] neighbours that were not. *)
Lemma squeeze_keeps_no_adjacent c d s :
  no_adjacent d s -> no_adjacent d (squeeze c s).
Proof.
  induction s as [|x t IH]; [easy|].
  intros H. apply no_adjacent_cons in H. destruct H as [H1 H2].
  destruct t as [|y t]; [simpl; auto|].
  rewrite squeeze_cons2. destruct ((x =? c) && (y =? c))%N; [auto|].
  apply no_adjacent_cons. split; [|auto].
  rewrite squeeze_head. exact H1.
Qed.

Lemma squeeze_id c s : no_adjacent c s -> squeeze c s = s.
Proof.
  induction s as [|x t IH]; [reflexivity|].
  intros H. destruct t as [|y t]; [reflexivity|].
  destruct H as [H1 H2]. rewrite squeeze_cons2.
  destruct (N.eqb_spec x c) as [->|Hx]; simpl andb.
  - destruct (N.eqb_spec y c) as [->|Hy]; [exfalso; apply H1; auto|].
    simpl. f_equal. apply IH. exact H2.
  - simpl. f_equal. apply IH. exact H2.
Qed.

End PyStrFacts.

(* ===================================================================== *)
(** * clean_text                                                          *)
(* ===================================================================== *)

Module CleanTextFacts.
Import PyStr Chunker PyStrFacts Props.

Lemma not_printable_false c :
  not_printable c = false <-> ((32 <= c <= 126)%N \/ c = NEWLINE).
Proof.
  unfold not_printable. rewrite negb_false_iff, orb_true_iff, andb_true_iff.
  rewrite !N.leb_le, N.eqb_eq. tauto.
Qed.

Lemma replace_char_id old new s :
  Forall (fun c => c <> old) s -> replace_char old new s = s.
Proof.
  unfold replace_char. induction 1 as [|c t Hc Ht IH]; simpl; [reflexivity|].
  apply N.eqb_neq in Hc. rewrite Hc, IH. reflexivity.
Qed.

Lemma clean_text_clean text : clean (clean_text text).
Proof.
  unfold clean_text.
  set (t1 := replace_char NBSP SPACE text).
  set (t2 := re_sub not_printable 1 [SPACE] t1).
  assert (P2 : Forall (fun c => not_printable c = false) t2).
  { apply re_sub_runs_1_class. repeat constructor. }
  unfold is_space, is_newline. rewrite !re_sub_squeeze.
  set (t3 := squeeze SPACE t2).
  set (t4 := squeeze NEWLINE t3).
  assert (P4 : Forall (fun c => not_printable c = false) t4)
    by (apply squeeze_Forall, squeeze_Forall, P2).
  assert (S4 : no_adjacent SPACE t4)
    by (apply squeeze_keeps_no_adjacent, squeeze_no_adjacent).
  assert (N4 : no_adjacent NEWLINE t4) by apply squeeze_no_adjacent.
  destruct (strip_sub t4) as (p & q & E).
  rewrite E in P4, S4, N4.
  constructor.
  - apply Forall_app in P4. destruct P4 as [_ P4].
    apply Forall_app in P4. tauto.
  - eapply no_adjacent_app_l, no_adjacent_app_r, S4.
  - eapply no_adjacent_app_l, no_adjacent_app_r, N4.
  - apply strip_starts_clean.
  - apply strip_ends_clean.
Qed.

Lemma clean_text_id s : clean s -> clean_text s = s.
Proof.
  intros [P S N B E]. unfold clean_text.
  rewrite replace_char_id.
  2:{ eapply Forall_impl; [|exact P]. intros c Hc ->. discriminate. }
  rewrite re_sub_id with (cls := not_printable) by exact P.
  unfold is_space, is_newline. rewrite !re_sub_squeeze.
  rewrite (@squeeze_id _ _ S), (@squeeze_id _ _ N).
  apply strip_id; assumption.
Qed.

(** C9: [clean_text] is idempotent, and one pass leaves a text of
    printable ASCII characters and newlines only, with no two spaces in a
    row, no two newlines in a row, and no whitespace at its start or at
    its end. *)
Theorem clean_text_idempotent (t : pystr) :
  clean_text (clean_text t) = clean_text t
  /\ Forall (fun c => (32 <= c <= 126)%N \/ c = NEWLINE) (clean_text t)
  /\ (forall i, ~ (nth_error (clean_text t) i = Some SPACE
                   /\ nth_error (clean_text t) (S i) = Some SPACE))
  /\ (forall i, ~ (nth_error (clean_text t) i = Some NEWLINE
                   /\ nth_error (clean_text t) (S i) = Some NEWLINE))
  /\ (forall c, hd_error (clean_text t) = Some c -> isspace c = false)
  /\ (forall c, hd_error (rev (clean_text t)) = Some c -> isspace c = false).
Proof.
  pose proof (clean_text_clean t) as H.
  split; [apply clean_text_id, H|].
  destruct H as [P S N B E].
  split; [|split; [|split; [|split]]].
  - eapply Forall_impl; [|exact P]. intros c. apply not_printable_false.
  - apply no_adjacent_nth, S.
  - apply no_adjacent_nth, N.
  - intros c Hc. destruct (clean_text t); [discriminate|].
    injection Hc as <-. exact B.
  - intros c Hc. unfold ends_clean in E. destruct (rev (clean_text t)); [discriminate|].
    injection Hc as <-. exact E.
Qed.

End CleanTextFacts.

(* ===================================================================== *)
(** * chunker                                                             *)
(* ===================================================================== *)

Module ChunkerFacts.
Import PyStr Chunker PyStrFacts Props.

Local Open Scope Z_scope.

(** ** Slices *)

Lemma py_slice_nonneg {A : Type} (l : list A) (a b : Z) :
  0 <= a -> a <= b ->
  py_slice l a b = firstn (Z.to_nat (b - a)) (skipn (Z.to_nat a) l).
Proof.
  intros Ha Hb. unfold py_slice, slice_index, len.
  destruct (Z.ltb_spec a 0) as [?|_]; [lia|].
  destruct (Z.ltb_spec b 0) as [?|_]; [lia|].
  set (n := Z.of_nat (length l)).
  destruct (Z.le_gt_cases a n) as [Han|Han].
  - rewrite (Z.min_l a n) by lia.
    destruct (Z.le_gt_cases b n) as [Hbn|Hbn].
    + rewrite (Z.min_l b n) by lia. reflexivity.
    + rewrite (Z.min_r b n) by lia.
      rewrite !firstn_all2; [reflexivity| |]; rewrite length_skipn; lia.
  - rewrite (Z.min_r a n), (Z.min_r b n) by lia.
    replace (Z.to_nat n) with (length l) by (unfold n; lia).
    rewrite skipn_all, (skipn_all2 (n := Z.to_nat a)) by lia.
    rewrite !firstn_nil. reflexivity.
Qed.

Lemma slice_is_window seq size overlap (k : nat) :
  0 < size -> 0 <= overlap < size ->
  py_slice seq (Z.of_nat k * (size - overlap))
               (Z.of_nat k * (size - overlap) + size)
  = window seq size overlap k.
Proof.
  intros Hs Hv. unfold window.
  rewrite py_slice_nonneg by nia.
  f_equal; [f_equal; lia|].
  f_equal. rewrite Z2Nat.inj_mul by lia. rewrite Nat2Z.id. reflexivity.
Qed.

(** ** The loop *)

(** From the [k]-th window on, the loop appends the chunks of the windows
    [k], [k+1], ... and stops with the first one that reaches the end. *)
Lemma chunker_loop_windows seq size overlap :
  0 < size -> 0 <= overlap < size ->
  forall (fuel k : nat) (chunks : list pystr),
    Z.of_nat k * (size - overlap) < len seq ->
    len seq - Z.of_nat k * (size - overlap) < Z.of_nat fuel ->
    (forall j, (j < k)%nat -> Z.of_nat j * (size - overlap) + size < len seq) ->
    exists n : nat,
      (k < n)%nat
      /\ chunker_loop fuel seq size overlap
                      (Z.of_nat k * (size - overlap)) chunks
         = Some (chunks ++
                 map (fun j => join [SPACE] (window seq size overlap j))
                     (List.seq k (n - k)))
      /\ len seq <= Z.of_nat (n - 1) * (size - overlap) + size
      /\ (forall j, (j < n - 1)%nat ->
                    Z.of_nat j * (size - overlap) + size < len seq).
Proof.
  intros Hs Hv. induction fuel as [|fuel IH]; intros k chunks Hin Hfuel Hprev.
  - lia.
  - cbn [chunker_loop].
    destruct (Z.ltb_spec (Z.of_nat k * (size - overlap)) (len seq)) as [_|?];
      [|lia].
    unfold chunker_body. rewrite slice_is_window by assumption.
    destruct (Z.geb_spec (Z.of_nat k * (size - overlap) + size) (len seq))
      as [Hend|Hend].
    + exists (S k). split; [lia|].
      replace (S k - k)%nat with 1%nat by lia.
      replace (S k - 1)%nat with k by lia.
      split; [reflexivity|]. split; [lia|]. exact Hprev.
    + replace (Z.of_nat k * (size - overlap) + (size - overlap))
        with (Z.of_nat (S k) * (size - overlap)) by lia.
      destruct (IH (S k) (chunks ++ [join [SPACE] (window seq size overlap k)]))
        as (n & Hn & Hloop & Hlast & Hrest).
      * lia.
      * lia.
      * intros j Hj. destruct (Nat.eq_dec j k) as [->|]; [lia|].
        apply Hprev. lia.
      * exists n. split; [lia|]. split; [|split; assumption].
        rewrite Hloop. f_equal.
        replace (n - k)%nat with (S (n - S k)) by lia.
        cbn [List.seq map]. rewrite <- app_assoc. reflexivity.
Qed.

(** With a positive step the loop ends, wherever it starts. *)
Lemma chunker_loop_terminates seq size overlap :
  1 <= size - overlap ->
  forall (fuel : nat) (start : Z) (chunks : list pystr),
    len seq - start < Z.of_nat fuel -> (0 < fuel)%nat ->
    exists chunks',
      chunker_loop fuel seq size overlap start chunks = Some chunks'.
Proof.
  intros Hstep. induction fuel as [|fuel IH]; intros start chunks Hfuel Hpos.
  - lia.
  - cbn [chunker_loop].
    destruct (Z.ltb_spec start (len seq)) as [Hin|Hout]; [|eauto].
    unfold chunker_body.
    destruct (start + size >=? len seq); [eauto|].
    apply IH; lia.
Qed.

(** With a step that is not positive, a loop that does not stop in its
    first pass never stops. *)
Lemma chunker_loop_stuck seq size overlap :
  size - overlap <= 0 ->
  forall (fuel : nat) (start : Z) (chunks : list pystr),
    start <= 0 -> 0 < len seq -> start + size < len seq ->
    chunker_loop fuel seq size overlap start chunks = None.
Proof.
  intros Hstep. induction fuel as [|fuel IH]; intros start chunks H0 Hlen Hend.
  - reflexivity.
  - cbn [chunker_loop].
    destruct (Z.ltb_spec start (len seq)) as [_|?]; [|lia].
    unfold chunker_body.
    destruct (Z.geb_spec (start + size) (len seq)) as [?|_]; [lia|].
    apply IH; lia.
Qed.

(** One more pass than there are tokens is all the loop can need: if it
    has not ended by then, it does not end. *)
Lemma chunker_loop_never_ends seq size overlap :
  chunker_loop (S (length seq)) seq size overlap 0 [] = None ->
  forall fuel, chunker_loop fuel seq size overlap 0 [] = None.
Proof.
  intros Hnone fuel.
  destruct (Z.le_gt_cases 1 (size - overlap)) as [Hstep|Hstep].
  - destruct (@chunker_loop_terminates seq size overlap Hstep
                (S (length seq)) 0 [])
      as [c Hc]; [unfold len; lia|lia|congruence].
  - revert Hnone. cbn [chunker_loop].
    destruct (Z.ltb_spec 0 (len seq)) as [Hlen|_]; [|discriminate].
    unfold chunker_body.
    destruct (Z.geb_spec (0 + size) (len seq)) as [_|Hend]; [discriminate|].
    intros _. apply chunker_loop_stuck; lia.
Qed.

Lemma chunker_loop_more_fuel seq size overlap (fuel fuel' : nat) :
  (fuel <= fuel')%nat ->
  forall start chunks r,
    chunker_loop fuel seq size overlap start chunks = Some r ->
    chunker_loop fuel' seq size overlap start chunks = Some r.
Proof.
  revert fuel'. induction fuel as [|fuel IH]; intros fuel' Hle start chunks r.
  - discriminate.
  - destruct fuel' as [|fuel']; [lia|]. cbn [chunker_loop].
    destruct (start <? len seq); [|auto].
    destruct (chunker_body seq size overlap start chunks); [auto|].
    apply IH. lia.
Qed.

(** ** Tokens, [split] and [join] *)

Lemma split_from_tokens s : forall cur,
  Forall (fun c => isspace c = false) cur ->
  Forall is_token (split_from cur s).
Proof.
  induction s as [|c t IH]; intros cur Hcur; simpl.
  - destruct cur; constructor; [|constructor]. split; [discriminate|exact Hcur].
  - destruct (isspace c) eqn:E.
    + destruct cur as [|x cur].
      * apply IH. constructor.
      * constructor; [split; [discriminate|exact Hcur]|].
        apply IH. constructor.
    + apply IH. apply Forall_app. split; [exact Hcur|]. repeat constructor. exact E.
Qed.

Lemma split_tokens s : Forall is_token (split s).
Proof. apply split_from_tokens. constructor. Qed.

Lemma split_from_token x s : forall cur,
  Forall (fun c => isspace c = false) x ->
  split_from cur (x ++ s) = split_from (cur ++ x) s.
Proof.
  induction x as [|c x IH]; intros cur Hx; simpl.
  - rewrite app_nil_r. reflexivity.
  - inversion Hx as [|? ? Hc Hx']; subst. rewrite Hc.
    rewrite IH by exact Hx'. rewrite <- app_assoc. reflexivity.
Qed.

Lemma split_from_token_end x cur :
  Forall (fun c => isspace c = false) x ->
  split_from cur x = split_from (cur ++ x) [].
Proof.
  intros Hx. pose proof (split_from_token x [] cur Hx) as H.
  rewrite app_nil_r in H. exact H.
Qed.

(** Splitting the space-join of tokens gives the tokens back. *)
Lemma split_join w : Forall is_token w -> split (join [SPACE] w) = w.
Proof.
  unfold split. induction 1 as [|x t [Hne Hx] Ht IH]; [reflexivity|].
  destruct t as [|y t].
  - cbn [join]. rewrite split_from_token_end by exact Hx.
    simpl. destruct x; [congruence|reflexivity].
  - change (join [SPACE] (x :: y :: t))
      with (x ++ [SPACE] ++ join [SPACE] (y :: t)).
    rewrite split_from_token by exact Hx.
    cbn [app split_from]. change (isspace SPACE) with true. cbv iota.
    destruct x as [|c x]; [congruence|]. f_equal. exact IH.
Qed.

Lemma window_tokens seq size overlap k :
  Forall is_token seq -> Forall is_token (window seq size overlap k).
Proof.
  intros H. unfold window.
  set (a := (k * Z.to_nat (size - overlap))%nat).
  rewrite <- (firstn_skipn a seq) in H. apply Forall_app in H.
  destruct H as [_ H].
  rewrite <- (firstn_skipn (Z.to_nat size) (skipn a seq)) in H.
  apply Forall_app in H. tauto.
Qed.

Lemma window_nth seq size overlap k j :
  nth_error (window seq size overlap k) j =
  if (j <? Z.to_nat size)%nat
  then nth_error seq (k * Z.to_nat (size - overlap) + j)
  else None.
Proof.
  unfold window. rewrite nth_error_firstn, nth_error_skipn. reflexivity.
Qed.

(** ** Coverage and overlap *)

(** When the windows [0 .. n-1] are taken and the last reaches the end,
    every position lies in one of them. *)
Lemma windows_cover (length_seq : nat) size overlap (n i : nat) :
  0 < size -> 0 <= overlap < size ->
  (1 <= n)%nat ->
  Z.of_nat length_seq <= Z.of_nat (n - 1) * (size - overlap) + size ->
  (i < length_seq)%nat ->
  exists k, (k < n)%nat
            /\ (k * Z.to_nat (size - overlap) <= i
                < k * Z.to_nat (size - overlap) + Z.to_nat size)%nat.
Proof.
  intros Hs Hv Hn Hlast Hi.
  set (st := Z.to_nat (size - overlap)).
  assert (Hst : (1 <= st)%nat) by (unfold st; lia).
  assert (Est : Z.of_nat st = size - overlap) by (unfold st; lia).
  rewrite <- Est in Hlast.
  destruct (Nat.le_gt_cases (i / st) (n - 1)) as [Hq|Hq].
  - exists (i / st)%nat. split; [lia|].
    pose proof (Nat.div_mod_eq i st) as Hdm.
    pose proof (Nat.mod_upper_bound i st ltac:(lia)) as Hr.
    split; [nia|]. assert (Z.of_nat st <= size) by lia. nia.
  - exists (n - 1)%nat. split; [lia|].
    pose proof (Nat.div_mod_eq i st) as Hdm.
    split; [nia|]. nia.
Qed.

(** A window that does not reach the end is full, and the next one
    starts with its last [overlap] tokens. *)
Lemma windows_overlap seq size overlap (k : nat) :
  0 < size -> 0 <= overlap < size ->
  Z.of_nat k * (size - overlap) + size < len seq ->
  length (window seq size overlap k) = Z.to_nat size
  /\ firstn (Z.to_nat overlap) (window seq size overlap (S k))
     = skipn (Z.to_nat (size - overlap)) (window seq size overlap k)
  /\ length (firstn (Z.to_nat overlap) (window seq size overlap (S k)))
     = Z.to_nat overlap.
Proof.
  intros Hs Hv Hfull. unfold window, len in *.
  set (st := Z.to_nat (size - overlap)).
  assert (Est : Z.of_nat st = size - overlap) by (unfold st; lia).
  rewrite <- Est in Hfull.
  assert (Ha : (k * st + Z.to_nat size < length seq)%nat) by nia.
  split; [|split].
  - rewrite length_firstn, length_skipn. lia.
  - rewrite firstn_firstn, skipn_firstn_comm, skipn_skipn.
    replace (S k * st)%nat with (st + k * st)%nat by lia.
    f_equal. unfold st. lia.
  - rewrite firstn_firstn, length_firstn, length_skipn. unfold st in *. lia.
Qed.

(** C1: for every text, every size [s > 0] and every overlap [v] with
    [0 <= v < s], [chunker] returns (given one more pass of fuel than
    there are tokens) the chunks of the windows [0 .. n-1] over the tokens
    of the cleaned text: chunk [k] is the space-join of the tokens at
    positions [k*(s-v) .. k*(s-v)+s-1], cut at the end of the token list,
    and splits back into exactly those tokens; window [n-1] is the first
    that reaches the end (and there is no chunk when there is no token);
    hence every token occurs in a chunk, and two consecutive chunks share
    [v] tokens: the last [v] of one are the first [v] of the next. *)
Theorem chunker_sliding_window (text : pystr) (s v : Z) :
  0 < s -> 0 <= v < s ->
  let seq := split (clean_text text) in
  let chunk := fun k => join [SPACE] (window seq s v k) in
  exists n : nat,
    (forall fuel, (length seq < fuel)%nat ->
       chunker fuel text s v = Some (map chunk (List.seq 0 n)))
    /\ (seq = [] -> n = 0%nat)
    /\ (seq <> [] ->
        (1 <= n)%nat /\ len seq <= Z.of_nat (n - 1) * (s - v) + s)
    /\ (forall k, (k < n - 1)%nat -> Z.of_nat k * (s - v) + s < len seq)
    /\ (forall k j,
          nth_error (window seq s v k) j =
          if (j <? Z.to_nat s)%nat
          then nth_error seq (k * Z.to_nat (s - v) + j) else None)
    /\ (forall k, split (chunk k) = window seq s v k)
    /\ (forall i tok, nth_error seq i = Some tok ->
          exists k, (k < n)%nat /\ In tok (split (chunk k)))
    /\ (forall k, (S k < n)%nat ->
          length (window seq s v k) = Z.to_nat s
          /\ firstn (Z.to_nat v) (window seq s v (S k))
             = skipn (Z.to_nat (s - v)) (window seq s v k)
          /\ length (firstn (Z.to_nat v) (window seq s v (S k)))
             = Z.to_nat v).
Proof.
  intros Hs Hv seq chunk.
  assert (Hrun : forall fuel,
            chunker fuel text s v = chunker_loop fuel seq s v 0 [])
    by reflexivity.
  assert (Htok : Forall is_token seq) by apply split_tokens.
  clearbody seq.
  assert (Hsplit : forall k, split (chunk k) = window seq s v k).
  { intros k. apply split_join, window_tokens, Htok. }
  assert (Hnth : forall k j,
            nth_error (window seq s v k) j =
            if (j <? Z.to_nat s)%nat
            then nth_error seq (k * Z.to_nat (s - v) + j) else None)
    by (intros; apply window_nth).
  destruct (Nat.eq_dec (length seq) 0) as [Hlen|Hlen].
  - apply length_zero_iff_nil in Hlen. exists 0%nat.
    split; [|split; [|split; [|split; [|split; [|split; [|split]]]]]].
    + intros fuel Hfuel. rewrite Hrun, Hlen.
      destruct fuel; [simpl in Hfuel; lia|reflexivity].
    + reflexivity.
    + intros Hne. congruence.
    + intros k Hk. lia.
    + exact Hnth.
    + exact Hsplit.
    + intros i tok Hi. rewrite Hlen in Hi. destruct i; discriminate.
    + intros k Hk. lia.
  - destruct (@chunker_loop_windows seq s v Hs Hv (S (length seq)) 0 [])
      as (n & Hn & Hloop & Hlast & Hrest).
    + unfold len. lia.
    + unfold len. lia.
    + intros j Hj. lia.
    + exists n. cbn [Z.of_nat Z.mul app] in Hloop.
      rewrite Nat.sub_0_r in Hloop.
      split; [|split; [|split; [|split; [|split; [|split; [|split]]]]]].
      * intros fuel Hfuel. rewrite Hrun.
        apply chunker_loop_more_fuel with (fuel := S (length seq)); [lia|].
        exact Hloop.
      * intros Hnil. rewrite Hnil in Hlen. simpl in Hlen. lia.
      * intros Hne. split; [lia|exact Hlast].
      * exact Hrest.
      * exact Hnth.
      * exact Hsplit.
      * intros i tok Hi.
        assert (Hlt : (i < length seq)%nat)
          by (apply nth_error_Some; congruence).
        destruct (@windows_cover (length seq) s v n i Hs Hv) as (k & Hk & Hpos);
          [lia|exact Hlast|exact Hlt|].
        exists k. split; [exact Hk|]. rewrite Hsplit.
        apply nth_error_In with (n := (i - k * Z.to_nat (s - v))%nat).
        rewrite Hnth.
        destruct (Nat.ltb_spec (i - k * Z.to_nat (s - v)) (Z.to_nat s)); [|lia].
        rewrite <- Hi. f_equal. lia.
      * intros k Hk. apply windows_overlap; auto. apply Hrest. lia.
Qed.

(** C8: when the size is positive and the overlap is less than the size
    (it may be negative), [chunker] ends on every text, within one more
    pass than there are tokens: a pass of the loop body either takes the
    [break], the window having reached the end of the token list, or goes
    on from a start that is larger by [size - overlap > 0].  Without the
    precondition the loop need not end: with [size <= overlap] and more
    tokens than [size], no amount of fuel is enough. *)
Theorem chunker_terminates (text : pystr) (s v : Z) :
  0 < s -> v < s ->
  let seq := split (clean_text text) in
  (forall fuel, (length seq < fuel)%nat ->
     exists chunks, chunker fuel text s v = Some chunks)
  /\ (forall start chunks,
        0 <= start < len seq ->
        (len seq <= start + s
         /\ exists chunks', chunker_body seq s v start chunks = Break chunks')
        \/ (start + s < len seq
            /\ start < start + (s - v)
            /\ exists chunks',
                 chunker_body seq s v start chunks
                 = Continue (start + (s - v)) chunks'))
  /\ (forall s' v', s' <= v' -> s' < len seq -> seq <> [] ->
        forall fuel, chunker fuel text s' v' = None).
Proof.
  intros Hs Hv seq. split; [|split].
  - intros fuel Hfuel. unfold chunker. fold seq.
    apply chunker_loop_terminates; unfold len; lia.
  - intros start chunks Hstart. unfold chunker_body.
    destruct (Z.geb_spec (start + s) (len seq)) as [Hend|Hend].
    + left. split; [lia|eauto].
    + right. split; [lia|]. split; [lia|eauto].
  - intros s' v' Hsv Hlen Hne fuel. unfold chunker. fold seq.
    apply chunker_loop_stuck; try lia.
    destruct seq; [congruence|]. unfold len. simpl. lia.
Qed.

End ChunkerFacts.

(* ===================================================================== *)
(** * Reasoning about the monad                                           *)
(* ===================================================================== *)

Module Steps.
Import PyStr Exceptions Models Runtime Props.

Section Preorder.
Variable R : World -> World -> Prop.
Hypothesis R_refl : forall w, R w w.
Hypothesis R_trans : forall a b c, R a b -> R b c -> R a c.

Lemma steps_ret {A} (a : A) : steps R (ret a).
Proof. intros w. apply R_refl. Qed.

Lemma steps_raise {A} (e : exn) : steps R (raise (A := A) e).
Proof. intros w. apply R_refl. Qed.

Lemma steps_hang {A} : steps R (hang (A := A)).
Proof. intros w. apply R_refl. Qed.

Lemma steps_bind {A B} (m : M A) (k : A -> M B) :
  steps R m -> (forall a, steps R (k a)) -> steps R (bind m k).
Proof.
  intros Hm Hk w. unfold bind. specialize (Hm w).
  destruct (m w) as [[a|e|] w1]; simpl in *; auto.
  eapply R_trans; [exact Hm|apply Hk].
Qed.

Lemma steps_try_except {A} (m : M A) (handler : exn -> M A) :
  steps R m -> (forall e, steps R (handler e)) ->
  steps R (try_except m handler).
Proof.
  intros Hm Hh w. unfold try_except. specialize (Hm w).
  destruct (m w) as [[a|e|] w1]; simpl in *; auto.
  eapply R_trans; [exact Hm|apply Hh].
Qed.

Lemma steps_try_finally {A} (m : M A) (cleanup : M unit) :
  steps R m -> steps R cleanup -> steps R (try_finally m cleanup).
Proof.
  intros Hm Hc w. unfold try_finally. specialize (Hm w).
  destruct (m w) as [[a|e|] w1]; simpl in *; auto;
    specialize (Hc w1); destruct (cleanup w1) as [[[]|e'|] w2]; simpl in *;
    eapply R_trans; eauto.
Qed.

Lemma steps_lift_lib {A} (r : lib_result A) : steps R (lift_lib r).
Proof. destruct r; [apply steps_ret|apply steps_raise]. Qed.

Lemma steps_for_each {A} (l : list A) (body : A -> M unit) :
  (forall x, In x l -> steps R (body x)) -> steps R (for_each l body).
Proof.
  induction l as [|x t IH]; intros H; simpl.
  - apply steps_ret.
  - apply steps_bind; [apply H; left; reflexivity|].
    intros _. apply IH. intros y Hy. apply H. right. exact Hy.
Qed.

Lemma steps_get_collection : steps R get_collection.
Proof. intros w. apply R_refl. Qed.

Lemma steps_get_collection_ready : steps R get_collection_ready.
Proof. intros w. apply R_refl. Qed.
End Preorder.

Lemma replay_app evs1 evs2 c :
  replay (evs1 ++ evs2) c = replay evs2 (replay evs1 c).
Proof. apply fold_left_app. Qed.

Lemma follows_refl P w : follows P w w.
Proof. exists []. rewrite app_nil_r. auto. Qed.

Lemma follows_trans P a b c : follows P a b -> follows P b c -> follows P a c.
Proof.
  intros (e1 & L1 & F1 & C1) (e2 & L2 & F2 & C2). exists (e1 ++ e2).
  rewrite L2, L1, app_assoc, C2, C1, replay_app.
  split; [reflexivity|]. split; [|reflexivity]. apply Forall_app. auto.
Qed.

Lemma follows_weaken (P Q : event -> Prop) w w' :
  (forall ev, P ev -> Q ev) -> follows P w w' -> follows Q w w'.
Proof.
  intros H (evs & L & F & C). exists evs. split; [exact L|].
  split; [|exact C]. eapply Forall_impl; eauto.
Qed.

Lemma follows_emit P ev : P ev -> inert ev -> steps (follows P) (emit ev).
Proof.
  intros HP Hin w. exists [ev]. simpl. rewrite Hin. auto.
Qed.

Lemma follows_set_collection_ready P b :
  steps (follows P) (set_collection_ready b).
Proof. intros w. exists []. simpl. rewrite app_nil_r. auto. Qed.

(** ** The calls of the Qdrant client *)

Lemma follows_collection_exists P :
  P CollectionExists -> steps (follows P) Qdrant.collection_exists.
Proof.
  intros HP w. exists [CollectionExists]. simpl. auto.
Qed.

Lemma follows_create_collection P size :
  P (CreateCollection size) ->
  steps (follows P) (Qdrant.create_collection size).
Proof.
  intros HP w. exists [CreateCollection size].
  unfold Qdrant.create_collection, bind, emit, get_collection. simpl.
  destruct (collection w); simpl; auto.
Qed.

Lemma follows_create_payload_index P field_name :
  P (CreatePayloadIndex field_name) ->
  steps (follows P) (Qdrant.create_payload_index field_name).
Proof.
  intros HP w. exists [CreatePayloadIndex field_name].
  unfold Qdrant.create_payload_index, bind, emit, get_collection. simpl.
  destruct (collection w); simpl; auto.
Qed.

Lemma follows_upsert P pts :
  P (Upsert pts) -> steps (follows P) (Qdrant.upsert pts).
Proof.
  intros HP w. exists [Upsert pts].
  unfold Qdrant.upsert, bind, emit, get_collection. simpl.
  destruct (collection w) as [c|]; simpl; auto.
  destruct (forallb _ pts); simpl; auto.
Qed.

Lemma follows_query_points P env query query_filter limit :
  P (QueryPoints query query_filter limit) ->
  steps (follows P) (Qdrant.query_points env query query_filter limit).
Proof.
  intros HP w. exists [QueryPoints query query_filter limit].
  unfold Qdrant.query_points, bind, emit, get_collection. simpl.
  destruct (limit <=? 0)%Z; simpl; auto.
  destruct (collection w) as [c|]; simpl; auto.
  destruct (len query =? vectors_size c)%Z; simpl; auto.
Qed.

Lemma follows_scroll P scroll_filter limit :
  P (Scroll scroll_filter limit) ->
  steps (follows P) (Qdrant.scroll scroll_filter limit).
Proof.
  intros HP w. exists [Scroll scroll_filter limit].
  unfold Qdrant.scroll, bind, emit, get_collection. simpl.
  destruct (collection w) as [c|]; simpl; auto.
Qed.

Lemma follows_delete P points_selector :
  P (Delete points_selector) ->
  steps (follows P) (Qdrant.delete points_selector).
Proof.
  intros HP w. exists [Delete points_selector].
  unfold Qdrant.delete, bind, emit, get_collection. simpl.
  destruct (collection w) as [c|]; simpl; auto.
Qed.

(** ** The repository's belief about the collection *)

Lemma keeps_ok_refl w : keeps_ok w w.
Proof. intros H. exact H. Qed.

Lemma keeps_ok_trans a b c : keeps_ok a b -> keeps_ok b c -> keeps_ok a c.
Proof. unfold keeps_ok. auto. Qed.

(** A step that leaves the flag as it is and does not remove the
    collection keeps the belief right. *)
Lemma keeps_ok_of w w' :
  collection_ready w' = collection_ready w ->
  (collection w <> None -> collection w' <> None) ->
  keeps_ok w w'.
Proof. unfold keeps_ok, world_ok. intros -> H. auto. Qed.

Lemma keeps_ok_emit ev : steps keeps_ok (emit ev).
Proof. intros w. apply keeps_ok_of; simpl; auto. Qed.

Lemma keeps_ok_collection_exists : steps keeps_ok Qdrant.collection_exists.
Proof. intros w. apply keeps_ok_of; simpl; auto. Qed.

Lemma keeps_ok_upsert pts : steps keeps_ok (Qdrant.upsert pts).
Proof.
  intros w. unfold Qdrant.upsert, bind, emit, get_collection. simpl.
  destruct (collection w) as [c|] eqn:E; simpl;
    [destruct (forallb _ pts); simpl|];
    apply keeps_ok_of; simpl; rewrite ?E; auto; discriminate.
Qed.

Lemma keeps_ok_query_points env query query_filter limit :
  steps keeps_ok (Qdrant.query_points env query query_filter limit).
Proof.
  intros w. unfold Qdrant.query_points, bind, emit, get_collection. simpl.
  destruct (limit <=? 0)%Z; simpl; [apply keeps_ok_of; simpl; auto|].
  destruct (collection w) as [c|] eqn:E; simpl;
    [destruct (len query =? vectors_size c)%Z; simpl|];
    apply keeps_ok_of; simpl; rewrite ?E; auto.
Qed.

Lemma keeps_ok_scroll scroll_filter limit :
  steps keeps_ok (Qdrant.scroll scroll_filter limit).
Proof.
  intros w. unfold Qdrant.scroll, bind, emit, get_collection. simpl.
  destruct (collection w) as [c|] eqn:E; simpl;
    apply keeps_ok_of; simpl; rewrite ?E; auto.
Qed.

Lemma keeps_ok_delete points_selector :
  steps keeps_ok (Qdrant.delete points_selector).
Proof.
  intros w. unfold Qdrant.delete, bind, emit, get_collection. simpl.
  destruct (collection w) as [c|] eqn:E; simpl;
    apply keeps_ok_of; simpl; rewrite ?E; auto; discriminate.
Qed.

(** [_ensure_collection_exists] sets the flag only with the collection
    there. *)
Lemma keeps_ok_ensure env :
  steps keeps_ok (VectorRepository._ensure_collection_exists env).
Proof.
  intros [c ready l]. unfold keeps_ok, world_ok.
  destruct ready; [simpl; auto|].
  destruct c as [c|]; simpl; intros _ _; discriminate.
Qed.

End Steps.

(* ===================================================================== *)
(** * sorted, string equality, filters                                    *)
(* ===================================================================== *)

Module LibFacts.
Import PyStr PyLib Exceptions Models Runtime Props.

Lemma eqb_eq (a b : pystr) : PyStr.eqb a b = true <-> a = b.
Proof.
  revert b. induction a as [|x a IH]; intros [|y b]; simpl;
    try (split; [discriminate|congruence]); [tauto|].
  rewrite andb_true_iff, N.eqb_eq, IH. split.
  - intros [-> ->]. reflexivity.
  - intros H. injection H as -> ->. auto.
Qed.

Lemma eqb_refl (a : pystr) : PyStr.eqb a a = true.
Proof. apply eqb_eq. reflexivity. Qed.

Lemma str_in_In x l : DocumentService.str_in x l = true <-> In x l.
Proof.
  unfold DocumentService.str_in. rewrite existsb_exists. split.
  - intros (y & Hy & E). apply eqb_eq in E. subst. exact Hy.
  - intros H. exists x. split; [exact H|apply eqb_refl].
Qed.

Section Sort.
Variable A : Type.
Variable le : A -> A -> bool.

Lemma insert_by_perm x l : Permutation (insert_by le x l) (x :: l).
Proof.
  induction l as [|y t IH]; simpl; [reflexivity|].
  destruct (le x y); [reflexivity|].
  rewrite IH. apply perm_swap.
Qed.

Lemma sort_by_perm l : Permutation (sort_by le l) l.
Proof.
  induction l as [|x t IH]; simpl; [reflexivity|].
  rewrite insert_by_perm. constructor. exact IH.
Qed.

Lemma sort_by_In x l : In x (sort_by le l) <-> In x l.
Proof.
  split; apply Permutation_in; [|symmetry]; apply sort_by_perm.
Qed.
End Sort.

Section Sorted.
Variable A : Type.
Variable key : A -> Z.

Lemma insert_sorted x l :
  StronglySorted (key_le key) l ->
  StronglySorted (key_le key) (insert_by (fun a b => (key a <=? key b)%Z) x l).
Proof.
  induction 1 as [|y t Ht IH Hy]; simpl.
  - repeat constructor.
  - destruct (Z.leb_spec (key x) (key y)) as [Hxy|Hxy].
    + constructor; [constructor; assumption|].
      constructor; [exact Hxy|].
      eapply Forall_impl; [|exact Hy]. unfold key_le. intros z Hz. lia.
    + constructor; [exact IH|].
      eapply Permutation_Forall; [symmetry; apply insert_by_perm|].
      constructor; [unfold key_le; lia|exact Hy].
Qed.

Lemma sorted_sorted l : StronglySorted (key_le key) (sorted key l).
Proof.
  unfold sorted, sort_by. induction l as [|x t IH]; simpl.
  - constructor.
  - apply insert_sorted. exact IH.
Qed.

Lemma sorted_perm l : Permutation (sorted key l) l.
Proof. apply sort_by_perm. Qed.

Lemma sorted_keys l : StronglySorted Z.le (map key (sorted key l)).
Proof.
  pose proof (sorted_sorted l) as H.
  induction H as [|x t Ht IH Hx]; simpl; constructor; [exact IH|].
  apply Forall_map. exact Hx.
Qed.
End Sorted.

(** Two sorted lists of integers with the same elements are the same. *)
Lemma sorted_Z_unique (l1 : list Z) : forall l2,
  StronglySorted Z.le l1 -> StronglySorted Z.le l2 -> Permutation l1 l2 ->
  l1 = l2.
Proof.
  induction l1 as [|x t IH]; intros l2 H1 H2 Hp.
  - apply Permutation_nil in Hp. congruence.
  - destruct l2 as [|y u].
    + symmetry in Hp. apply Permutation_nil in Hp. discriminate.
    + inversion H1 as [|? ? Ht Hx]; subst.
      inversion H2 as [|? ? Hu Hy]; subst.
      assert (Exy : x = y).
      { rewrite Forall_forall in Hx, Hy.
        assert (Hxy : (y <= x)%Z).
        { destruct (Permutation_in x Hp (in_eq _ _)) as [->|Hin];
            [lia|apply Hy, Hin]. }
        assert (Hyx : (x <= y)%Z).
        { symmetry in Hp.
          destruct (Permutation_in y Hp (in_eq _ _)) as [->|Hin];
            [lia|apply Hx, Hin]. }
        lia. }
      subst y. f_equal. apply IH; [assumption|assumption|].
      eapply Permutation_cons_inv. exact Hp.
Qed.

(** The keys of the sorted list do not depend on the order the list came
    in. *)
Lemma sorted_keys_perm {A : Type} (key : A -> Z) (l1 l2 : list A) :
  Permutation l1 l2 ->
  map key (sorted key l1) = map key (sorted key l2).
Proof.
  intros Hp. apply sorted_Z_unique; try apply sorted_keys.
  apply Permutation_map.
  rewrite (sorted_perm _ key l1), (sorted_perm _ key l2). exact Hp.
Qed.

(** ** Filters *)

Lemma payload_get_doc_id p : Qdrant.payload_get p (lit "doc_id") = p_doc_id p.
Proof. reflexivity. Qed.

Lemma payload_get_user_id p :
  Qdrant.payload_get p (lit "user_id") = p_user_id p.
Proof. reflexivity. Qed.

(** A point that matches a filter with the owner condition of a user
    belongs to the user. *)
Lemma matches_owner f pt user_id :
  In (owner_condition user_id) (must f) ->
  Qdrant.matches (Some f) pt = true ->
  p_user_id (payload pt) = Some user_id.
Proof.
  intros Hin Hm. simpl in Hm. rewrite forallb_forall in Hm.
  specialize (Hm _ Hin). unfold Qdrant.condition_holds in Hm.
  cbn [key match_value owner_condition] in Hm.
  rewrite payload_get_user_id in Hm.
  destruct (p_user_id (payload pt)) as [v|]; [|discriminate].
  apply eqb_eq in Hm. congruence.
Qed.

Lemma matches_doc_filter doc_id user_id pt :
  Qdrant.matches (Some (VectorRepository.doc_filter doc_id user_id)) pt = true ->
  p_doc_id (payload pt) = Some doc_id.
Proof.
  intros Hm. simpl in Hm. rewrite forallb_forall in Hm.
  assert (Hin : In {| key := lit "doc_id"; match_value := doc_id |}
                   (must (VectorRepository.doc_filter doc_id user_id))).
  { unfold VectorRepository.doc_filter.
    destruct (VectorRepository.user_given user_id); simpl; auto. }
  specialize (Hm _ Hin). unfold Qdrant.condition_holds in Hm.
  cbn [key match_value] in Hm. rewrite payload_get_doc_id in Hm.
  destruct (p_doc_id (payload pt)) as [v|]; [|discriminate].
  apply eqb_eq in Hm. congruence.
Qed.

Lemma In_firstn {A : Type} (n : nat) (l : list A) (x : A) :
  In x (firstn n l) -> In x l.
Proof.
  intros H. rewrite <- (firstn_skipn n l). apply in_or_app. left. exact H.
Qed.

Lemma upsert_all_In q pts : forall l,
  In q (fold_left Qdrant.upsert_point pts l) -> In q l \/ In q pts.
Proof.
  induction pts as [|p pts IH]; intros l H; simpl in *; [auto|].
  apply IH in H. destruct H as [H|H]; [|auto].
  unfold Qdrant.upsert_point in H. apply in_app_or in H.
  destruct H as [H|[H|[]]]; [|auto].
  apply filter_In in H. tauto.
Qed.

(** An id that is in the store or among the points upserted is in the
    store afterwards. *)
Lemma upsert_point_ids l p q :
  In q l \/ q = p ->
  exists q', In q' (Qdrant.upsert_point l p) /\ id q' = id q.
Proof.
  unfold Qdrant.upsert_point. intros [Hq | ->].
  - destruct (PyStr.eqb (id q) (id p)) eqn:E.
    + exists p. split; [apply in_or_app; right; left; reflexivity|].
      apply eqb_eq in E. congruence.
    + exists q. split; [|reflexivity]. apply in_or_app. left.
      apply filter_In. rewrite E. auto.
  - exists p. split; [apply in_or_app; right; left; reflexivity|reflexivity].
Qed.

Lemma upsert_all_ids pts : forall l q,
  In q l \/ In q pts ->
  exists q', In q' (fold_left Qdrant.upsert_point pts l) /\ id q' = id q.
Proof.
  induction pts as [|p pts IH]; intros l q H; simpl.
  - destruct H as [H|[]]. exists q. auto.
  - destruct H as [H | [<- | H]].
    + destruct (upsert_point_ids l p q (or_introl H)) as (q1 & H1 & E1).
      destruct (IH _ q1 (or_introl H1)) as (q' & H' & E').
      exists q'. split; [exact H'|congruence].
    + destruct (upsert_point_ids l p p (or_intror eq_refl)) as (q1 & H1 & E1).
      destruct (IH _ q1 (or_introl H1)) as (q' & H' & E').
      exists q'. split; [exact H'|congruence].
    + apply IH. right. exact H.
Qed.

End LibFacts.

(* ===================================================================== *)
(** * What the repository and the service do to the store                 *)
(* ===================================================================== *)

Module Policy.
Import PyStr Exceptions Models Runtime Steps Props.

Ltac steps_pre :=
  first [ apply follows_refl
        | apply keeps_ok_refl
        | (intros; eapply follows_trans; eassumption)
        | (intros; eapply keeps_ok_trans; eassumption) ].

Ltac steps_step :=
  lazymatch goal with
  | |- steps _ (ret _) => apply steps_ret; steps_pre
  | |- steps _ (raise _) => apply steps_raise; steps_pre
  | |- steps _ hang => apply steps_hang; steps_pre
  | |- steps _ (lift_lib _) => apply steps_lift_lib; steps_pre
  | |- steps _ get_collection_ready =>
      apply steps_get_collection_ready; steps_pre
  | |- steps (follows _) (set_collection_ready _) =>
      apply follows_set_collection_ready
  | |- steps keeps_ok (emit _) => apply keeps_ok_emit
  | |- steps _ (bind _ _) => apply steps_bind; try steps_pre; [|intros ?]
  | |- steps _ (try_except _ _) =>
      apply steps_try_except; try steps_pre; [|intros ?]
  | |- steps _ (try_finally _ _) => apply steps_try_finally; try steps_pre
  | |- steps _ (if ?b then _ else _) => destruct b
  | |- steps _ (match ?x with _ => _ end) => destruct x
  end.

Ltac steps_go := repeat steps_step.

Lemma inert_local ev : local ev -> inert ev.
Proof. destruct ev; simpl; try easy; intros _ [c|]; reflexivity. Qed.

Section Repository.
Variable P : event -> Prop.
Variable env : Env.
Hypothesis P_structural : forall ev, structural env ev -> P ev.

Lemma follows_ensure :
  steps (follows P) (VectorRepository._ensure_collection_exists env).
Proof.
  unfold VectorRepository._ensure_collection_exists. steps_go.
  - apply follows_collection_exists. apply P_structural. exact I.
  - apply follows_create_collection. apply P_structural. reflexivity.
  - apply steps_for_each; try steps_pre. intros f _.
    apply follows_create_payload_index. apply P_structural. exact I.
Qed.

Lemma follows_save_points pts :
  P (Upsert pts) -> steps (follows P) (VectorRepository.save_points env pts).
Proof.
  intros HP. unfold VectorRepository.save_points. steps_go.
  - apply follows_ensure.
  - apply follows_upsert. exact HP.
Qed.

Lemma follows_search query top_k query_filter :
  P (QueryPoints query query_filter top_k) ->
  steps (follows P) (VectorRepository.search env query top_k query_filter).
Proof.
  intros HP. unfold VectorRepository.search. steps_go.
  - apply follows_ensure.
  - apply follows_query_points. exact HP.
Qed.

Lemma follows_get_points doc_id user_id :
  P (Scroll (Some (VectorRepository.doc_filter doc_id user_id)) 1000) ->
  steps (follows P) (VectorRepository.get_points_by_doc_id env doc_id user_id).
Proof.
  intros HP. unfold VectorRepository.get_points_by_doc_id. steps_go.
  - apply follows_ensure.
  - apply follows_scroll. exact HP.
Qed.

Lemma follows_delete_points f :
  P (Delete f) -> steps (follows P) (VectorRepository.delete_points env f).
Proof.
  intros HP. unfold VectorRepository.delete_points. steps_go.
  - apply follows_ensure.
  - apply follows_delete. exact HP.
Qed.

Lemma follows_delete_points_by_doc_id doc_id user_id :
  P (Delete (VectorRepository.doc_filter doc_id user_id)) ->
  steps (follows P)
        (VectorRepository.delete_points_by_doc_id env doc_id user_id).
Proof.
  intros HP. unfold VectorRepository.delete_points_by_doc_id. steps_go.
  - apply follows_ensure.
  - apply follows_delete_points. exact HP.
Qed.
End Repository.

(** ** The extractor, the embedding client and [_process_document] *)

Section Local.
Variable P : event -> Prop.
Variable env : Env.
Hypothesis P_local : forall ev, local ev -> P ev.

Lemma follows_local ev : local ev -> steps (follows P) (emit ev).
Proof.
  intros H. apply follows_emit; [apply P_local, H|apply inert_local, H].
Qed.

Lemma follows_load_document path content :
  steps (follows P) (Extractor.load_document env path content).
Proof.
  unfold Extractor.load_document, Extractor.extract_from_txt,
    Extractor.extract_from_pdf, Extractor.extract_from_docx.
  steps_go; apply follows_local; exact I.
Qed.

Lemma follows_embed_batch texts :
  steps (follows P) (EmbeddingClient.embed_batch env texts).
Proof.
  unfold EmbeddingClient.embed_batch. steps_go. apply follows_local. exact I.
Qed.

Lemma follows_embed text :
  steps (follows P) (EmbeddingClient.embed env text).
Proof.
  unfold EmbeddingClient.embed. steps_go. apply follows_local. exact I.
Qed.

Lemma follows_process_document file :
  steps (follows P) (DocumentService._process_document env file).
Proof.
  unfold DocumentService._process_document, DocumentService.run_chunker.
  steps_go;
    first [ apply follows_local; exact I
          | apply follows_load_document
          | apply follows_embed_batch ].
Qed.

Lemma follows_search_hits results :
  steps (follows P) (DocumentService.search_hits results).
Proof.
  induction results as [|result rest IH]; simpl;
    unfold DocumentService.subscript; steps_go; exact IH.
Qed.
End Local.

(** ** The points [upload_document] builds *)

Lemma enumerate_from_nth {A : Type} (l : list A) : forall i0 i,
  nth_error (enumerate_from i0 l) i =
  option_map (fun x => ((i0 + Z.of_nat i)%Z, x)) (nth_error l i).
Proof.
  induction l as [|x t IH]; intros i0 i.
  - destruct i; reflexivity.
  - destruct i as [|i]; simpl.
    + rewrite Z.add_0_r. reflexivity.
    + rewrite IH. destruct (nth_error t i); simpl; [|reflexivity].
      do 2 f_equal. lia.
Qed.

Lemma enumerate_length {A : Type} (l : list A) :
  length (enumerate l) = length l.
Proof.
  unfold enumerate. generalize 0%Z. induction l as [|x t IH]; intros i0;
    simpl; [reflexivity|]. rewrite IH. reflexivity.
Qed.

Lemma build_points_owned env doc_id user_id filename ext meta chunks_data i pt :
  nth_error
    (map (fun ic => DocumentService.make_point env doc_id user_id filename ext
                      meta (fst ic) (snd ic))
         (enumerate chunks_data)) i = Some pt ->
  exists text embedding,
    nth_error chunks_data i = Some (text, embedding)
    /\ pt = {| id := uuid5 env doc_id (str_of_int env (Z.of_nat i));
               vector := embedding;
               payload := VectorPayload doc_id user_id text (Z.of_nat i)
                            filename ext (created_at meta) meta |}.
Proof.
  rewrite nth_error_map. unfold enumerate. rewrite enumerate_from_nth.
  destruct (nth_error chunks_data i) as [[text embedding]|]; simpl;
    [|discriminate].
  intros H. injection H as <-. exists text, embedding.
  split; reflexivity.
Qed.

(** ** The service *)

Lemma local_policy env user_id ev : local ev -> policy env user_id ev.
Proof. destruct ev; simpl; easy. Qed.

Lemma structural_policy env user_id ev :
  structural env ev -> policy env user_id ev.
Proof. destruct ev; simpl; easy. Qed.

Lemma doc_filter_scoped doc_id user_id :
  user_id <> [] ->
  In (owner_condition user_id)
     (must (VectorRepository.doc_filter doc_id (Some user_id))).
Proof.
  intros H. unfold VectorRepository.doc_filter, VectorRepository.user_given.
  destruct user_id; [congruence|]. simpl. right. left. reflexivity.
Qed.

(** The points that [upload_document] builds are the points of the
    chunks. *)
Lemma points_are_owned env user_id filename ext chunks_data :
  owned_points env user_id filename ext chunks_data
    (map (fun ic =>
            DocumentService.make_point env (uuid4 env) user_id filename ext
              (metadata_of env user_id filename ext (len chunks_data))
              (fst ic) (snd ic))
         (enumerate chunks_data)).
Proof.
  intros i. rewrite nth_error_map. unfold enumerate.
  rewrite enumerate_from_nth.
  destruct (nth_error chunks_data i) as [[text embedding]|]; reflexivity.
Qed.

Lemma owned_points_owner env user_id filename ext chunks_data pts :
  owned_points env user_id filename ext chunks_data pts ->
  Forall (fun pt => p_user_id (payload pt) = Some user_id) pts.
Proof.
  intros H. rewrite Forall_forall. intros pt Hpt.
  apply In_nth_error in Hpt. destruct Hpt as [i Hi].
  rewrite H in Hi. destruct (nth_error chunks_data i); [|discriminate].
  injection Hi as <-. reflexivity.
Qed.

Lemma uploads_policy env file user_id w ev :
  uploads env file user_id w ev -> policy env user_id ev.
Proof.
  destruct ev; simpl; try easy.
  destruct (f_filename file); [|easy].
  destruct (fst (DocumentService._process_document env file w)); try easy.
  apply owned_points_owner.
Qed.

Lemma local_uploads env file user_id w ev :
  local ev -> uploads env file user_id w ev.
Proof. destruct ev; simpl; easy. Qed.

(** The calls of one upload. *)
Lemma follows_upload env file user_id w :
  follows (uploads env file user_id w) w
          (snd (DocumentService.upload_document env file user_id w)).
Proof.
  unfold DocumentService.upload_document.
  destruct (f_filename file) as [filename|] eqn:Ename; [|apply follows_refl].
  destruct (truthy filename); cbn [negb]; [|apply follows_refl].
  fold (extension_of env filename).
  destruct (DocumentService.str_in (extension_of env filename)
              DocumentService.supported_types);
    cbn [negb]; [|apply follows_refl].
  pose proof (@follows_process_document local env (fun ev H => H) file w)
    as Hloc.
  unfold try_except, bind.
  destruct (DocumentService._process_document env file w)
    as [[chunks_data|e|] w1] eqn:E1; cbn [snd] in Hloc.
  - fold (metadata_of env user_id filename (extension_of env filename)
                      (len chunks_data)).
    match goal with
    | |- context [VectorRepository.save_points env ?pts w1] =>
        set (points := pts);
        pose proof (@follows_save_points
                      (fun ev => structural env ev \/ ev = Upsert points)
                      env (fun ev H => or_introl H) points
                      (or_intror eq_refl) w1) as Hsave;
        destruct (VectorRepository.save_points env points w1)
          as [[[]|e|] w2]
    end; cbn [snd] in Hsave.
    all: assert (Hall : follows (uploads env file user_id w) w w2)
      by (eapply follows_trans;
          [eapply follows_weaken; [apply local_uploads|exact Hloc]
          |eapply follows_weaken; [|exact Hsave];
           intros ev [Hev| ->];
           [destruct ev; simpl in *; easy
           |simpl; rewrite Ename, E1; apply points_are_owned]]).
    + exact Hall.
    + destruct e as [[] ?|]; exact Hall.
    + exact Hall.
  - assert (Hall : follows (uploads env file user_id w) w w1)
      by (eapply follows_weaken; [apply local_uploads|exact Hloc]).
    destruct e as [[] ?|]; exact Hall.
  - eapply follows_weaken; [apply local_uploads|exact Hloc].
Qed.

Lemma follows_upload_document env file user_id :
  steps (follows (policy env user_id))
        (DocumentService.upload_document env file user_id).
Proof.
  intros w. eapply follows_weaken; [apply uploads_policy|].
  apply follows_upload.
Qed.

Lemma local_reads env user_id ev : local ev -> reads env user_id ev.
Proof. destruct ev; simpl; easy. Qed.

Lemma structural_reads env user_id ev :
  structural env ev -> reads env user_id ev.
Proof. destruct ev; simpl; easy. Qed.

Lemma reads_deletes env user_id ev :
  reads env user_id ev -> deletes env user_id ev.
Proof. destruct ev; simpl; easy. Qed.

Lemma deletes_policy env user_id ev :
  deletes env user_id ev -> policy env user_id ev.
Proof. destruct ev; simpl; easy. Qed.

Lemma follows_search_user_documents env query top_k user_id :
  steps (follows (reads env user_id))
        (DocumentService.search_user_documents env query top_k user_id).
Proof.
  unfold DocumentService.search_user_documents. steps_go.
  - apply follows_embed. apply local_reads.
  - apply follows_search; [apply structural_reads|].
    simpl. eexists. split; [reflexivity|]. left. reflexivity.
  - apply follows_search_hits.
Qed.

Lemma follows_get_user_document env doc_id user_id :
  user_id <> [] ->
  steps (follows (reads env user_id))
        (DocumentService.get_user_document env doc_id user_id).
Proof.
  intros Hu. unfold DocumentService.get_user_document. steps_go.
  apply follows_get_points; [apply structural_reads|].
  simpl. eexists. split; [reflexivity|]. apply doc_filter_scoped, Hu.
Qed.

Lemma follows_delete_user_document env doc_id user_id :
  user_id <> [] ->
  steps (follows (deletes env user_id))
        (DocumentService.delete_user_document env doc_id user_id).
Proof.
  intros Hu. unfold DocumentService.delete_user_document. steps_go.
  - apply follows_get_points;
      [intros ev Hev; apply reads_deletes, structural_reads, Hev|].
    simpl. eexists. split; [reflexivity|]. apply doc_filter_scoped, Hu.
  - apply follows_delete_points_by_doc_id;
      [intros ev Hev; apply reads_deletes, structural_reads, Hev|].
    simpl. apply doc_filter_scoped, Hu.
Qed.

Lemma truthy_nonempty (u : pystr) : truthy u = true -> u <> [].
Proof. destruct u; [discriminate|]. intros _. discriminate. Qed.

Lemma user_id_given (user : DocumentController.CurrentUser) :
  DocumentController.cu_user_id user <> [].
Proof. apply truthy_nonempty, DocumentController.cu_given. Qed.

(** ** Listing *)

Lemma steps_document_of_point R (R_refl : forall w, R w w) point :
  steps R (VectorRepository.document_of_point point).
Proof.
  intros w. unfold VectorRepository.document_of_point.
  destruct (p_doc_metadata (payload point)); [apply R_refl|].
  unfold bind, VectorRepository.getitem, ret, raise.
  destruct (p_doc_id (payload point)); [|apply R_refl].
  destruct (p_user_id (payload point)); [|apply R_refl].
  destruct (p_filename (payload point)); apply R_refl.
Qed.

Lemma document_of_point_world point w :
  snd (VectorRepository.document_of_point point w) = w.
Proof.
  symmetry. apply (steps_document_of_point eq (@eq_refl _) point w).
Qed.

Lemma documents_of_world points : forall w,
  snd (VectorRepository.documents_of points w) = w.
Proof.
  induction points as [|point rest IH]; intros w; [reflexivity|].
  cbn [VectorRepository.documents_of]. unfold bind.
  pose proof (document_of_point_world point w) as H1.
  destruct (VectorRepository.document_of_point point w) as [[d|e|] w1];
    simpl in H1; subst w1; try reflexivity.
  pose proof (IH w) as H2.
  destruct (VectorRepository.documents_of rest w) as [[ds|e|] w2];
    simpl in H2; subst w2; reflexivity.
Qed.

Lemma steps_documents_of R (R_refl : forall w, R w w) points :
  steps R (VectorRepository.documents_of points).
Proof. intros w. rewrite documents_of_world. apply R_refl. Qed.

Lemma follows_get_unique_documents P env user_id :
  (forall ev, structural env ev -> P ev) ->
  P (Scroll (VectorRepository.unique_filter user_id) 1000) ->
  steps (follows P) (VectorRepository.get_unique_documents env user_id).
Proof.
  intros HS HP. unfold VectorRepository.get_unique_documents. steps_go.
  - apply follows_ensure. exact HS.
  - apply follows_scroll. exact HP.
  - apply steps_documents_of. apply follows_refl.
Qed.

Lemma unique_filter_scoped (user_id : pystr) :
  user_id <> [] ->
  scoped user_id (VectorRepository.unique_filter (Some user_id)).
Proof.
  intros H. unfold VectorRepository.unique_filter, VectorRepository.user_given.
  destruct user_id; [congruence|]. simpl. eexists. split; [reflexivity|].
  left. reflexivity.
Qed.

Lemma follows_list_user_documents env (user_id : pystr) :
  user_id <> [] ->
  steps (follows (reads env user_id))
        (DocumentService.list_user_documents env user_id).
Proof.
  intros Hu. unfold DocumentService.list_user_documents. steps_go.
  apply follows_get_unique_documents; [apply structural_reads|].
  simpl. apply unique_filter_scoped, Hu.
Qed.

(** ** What the logged calls can do to the stored points *)

Lemma replay_cons ev evs c :
  replay (ev :: evs) c = replay evs (apply_event ev c).
Proof. reflexivity. Qed.

(** Lookups and searches leave the stored points as they are. *)
Lemma replay_reads env user_id evs : forall c,
  Forall (reads env user_id) evs -> stored (replay evs c) = stored c.
Proof.
  induction evs as [|ev evs IH]; intros c H; [reflexivity|].
  inversion H as [|? ? Hev Hevs]; subst. rewrite replay_cons, IH by exact Hevs.
  destruct ev, c; simpl in *; try reflexivity; contradiction.
Qed.

(** A deletion for a user removes points of that user only, and adds
    none. *)
Lemma replay_deletes env user_id evs : forall c,
  Forall (deletes env user_id) evs ->
  (forall pt, In pt (stored (replay evs c)) -> In pt (stored c))
  /\ (forall pt, In pt (stored c) ->
        In pt (stored (replay evs c))
        \/ p_user_id (payload pt) = Some user_id).
Proof.
  induction evs as [|ev evs IH]; intros c H; [simpl; auto|].
  inversion H as [|? ? Hev Hevs]; subst. rewrite replay_cons.
  destruct (IH (apply_event ev c) Hevs) as [IH1 IH2].
  assert (Hstep :
            (forall pt, In pt (stored (apply_event ev c)) -> In pt (stored c))
            /\ (forall pt, In pt (stored c) ->
                  In pt (stored (apply_event ev c))
                  \/ p_user_id (payload pt) = Some user_id)).
  { destruct ev, c as [c|]; cbn [apply_event stored points deletes] in *;
      try contradiction; auto.
    split.
    - intros pt Hpt. apply filter_In in Hpt. tauto.
    - intros pt Hpt.
      destruct (Qdrant.matches (Some points_selector) pt) eqn:Em.
      + right. eapply LibFacts.matches_owner; eauto.
      + left. apply filter_In. rewrite Em. auto. }
  destruct Hstep as [S1 S2]. split.
  - intros pt Hpt. auto.
  - intros pt Hpt. destruct (S2 pt Hpt) as [Hin|Hown]; [|auto].
    apply IH2. exact Hin.
Qed.

(** Whatever the service stores has the vector size of the collection,
    which is the configured one. *)
Lemma replay_policy_dims env user_id evs : forall c,
  Forall (policy env user_id) evs -> configured env c ->
  configured env (replay evs c)
  /\ (forall pt, In pt (stored (replay evs c)) ->
        In pt (stored c) \/ len (vector pt) = VECTOR_SIZE env).
Proof.
  induction evs as [|ev evs IH]; intros c H Hc; [simpl; auto|].
  inversion H as [|? ? Hev Hevs]; subst. rewrite replay_cons.
  assert (Hstep :
            configured env (apply_event ev c)
            /\ (forall pt, In pt (stored (apply_event ev c)) ->
                  In pt (stored c) \/ len (vector pt) = VECTOR_SIZE env)).
  { destruct ev, c as [c|]; simpl in *; auto.
    - destruct (forallb _ pts) eqn:Echeck; simpl; [|auto].
      split; [exact Hc|]. intros pt Hpt.
      apply LibFacts.upsert_all_In in Hpt. destruct Hpt as [Hpt|Hpt]; [auto|].
      right. rewrite forallb_forall in Echeck. specialize (Echeck _ Hpt).
      apply Z.eqb_eq in Echeck. congruence.
    - split; [exact Hc|]. intros pt Hpt. apply filter_In in Hpt. tauto. }
  destruct Hstep as [S1 S2].
  destruct (IH (apply_event ev c) Hevs S1) as [IH1 IH2].
  split; [exact IH1|]. intros pt Hpt.
  destruct (IH2 pt Hpt) as [Hin|Hlen]; [|auto]. apply S2. exact Hin.
Qed.

(** ** The belief about the collection stays right *)

Ltac keeps_leaf :=
  first [ apply keeps_ok_ensure | apply keeps_ok_upsert
        | apply keeps_ok_query_points | apply keeps_ok_scroll
        | apply keeps_ok_delete ].

Lemma keeps_ok_load_document env path content :
  steps keeps_ok (Extractor.load_document env path content).
Proof.
  unfold Extractor.load_document, Extractor.extract_from_txt,
    Extractor.extract_from_pdf, Extractor.extract_from_docx.
  steps_go.
Qed.

Lemma keeps_ok_process_document env file :
  steps keeps_ok (DocumentService._process_document env file).
Proof.
  unfold DocumentService._process_document, DocumentService.run_chunker,
    EmbeddingClient.embed_batch.
  steps_go. apply keeps_ok_load_document.
Qed.

Lemma keeps_ok_search_hits results :
  steps keeps_ok (DocumentService.search_hits results).
Proof.
  induction results as [|result rest IH]; simpl;
    unfold DocumentService.subscript; steps_go; exact IH.
Qed.

(** Every method of the service keeps [world_ok]: it holds in every world
    that the service reaches from one where it holds, such as a world
    where the repository object is new. *)
Lemma service_keeps_world_ok env user_id :
  (forall file,
     steps keeps_ok (DocumentService.upload_document env file user_id))
  /\ (forall doc_id,
        steps keeps_ok (DocumentService.get_user_document env doc_id user_id))
  /\ (forall doc_id,
        steps keeps_ok (DocumentService.delete_user_document env doc_id user_id))
  /\ (forall query top_k,
        steps keeps_ok
              (DocumentService.search_user_documents env query top_k user_id)).
Proof.
  split; [|split; [|split]].
  - intros file. unfold DocumentService.upload_document,
      VectorRepository.save_points.
    steps_go; first [keeps_leaf | apply keeps_ok_process_document].
  - intros doc_id. unfold DocumentService.get_user_document,
      VectorRepository.get_points_by_doc_id.
    steps_go; keeps_leaf.
  - intros doc_id. unfold DocumentService.delete_user_document,
      VectorRepository.get_points_by_doc_id,
      VectorRepository.delete_points_by_doc_id, VectorRepository.delete_points.
    steps_go; keeps_leaf.
  - intros query top_k. unfold DocumentService.search_user_documents,
      VectorRepository.search, EmbeddingClient.embed.
    steps_go; first [keeps_leaf | apply keeps_ok_search_hits].
Qed.

End Policy.


(* ===================================================================== *)
(** * The service and the endpoints: errors                               *)
(* ===================================================================== *)

Module ErrorFacts.
Import PyStr PyLib Exceptions Models Runtime Props PyStrFacts LibFacts Scenario.

(** C4: an upload without a filename (missing or empty), or whose
    lowercased extension is not [.txt], [.pdf] or [.docx], makes
    [DocumentService.upload_document] raise [FileTypeError] in the world it
    was called in: nothing was read, written or asked of the outside (the
    log is the same).  The endpoint answers with status 400. *)
Theorem upload_rejects_unsupported_type
    (env : Env) (file : UploadFile) (user : DocumentController.CurrentUser)
    (w : World) :
  (f_filename file = None
   \/ f_filename file = Some []
   \/ exists name,
        f_filename file = Some name
        /\ ~ In (str_lower env (snd (splitext (os_sep env) (os_altsep env) name)))
                [lit ".txt"; lit ".pdf"; lit ".docx"]) ->
  exists msg,
    DocumentService.upload_document env file
      (DocumentController.cu_user_id user) w
    = (Raise (Exn FileTypeError msg), w)
    /\ DocumentController.upload_document env file user w
       = (Raise (HTTPException 400 msg), w).
Proof.
  intros H.
  assert (Hs : exists msg,
             DocumentService.upload_document env file
               (DocumentController.cu_user_id user) w
             = (Raise (Exn FileTypeError msg), w)).
  { unfold DocumentService.upload_document.
    destruct H as [H | [H | (name & H & Hext)]]; rewrite H.
    - eexists. reflexivity.
    - eexists. reflexivity.
    - destruct name as [|c name]; [eexists; reflexivity|].
      cbn [truthy negb].
      destruct (DocumentService.str_in _ DocumentService.supported_types) eqn:E.
      + apply str_in_In in E. contradiction.
      + eexists. reflexivity. }
  destruct Hs as [msg Hs]. exists msg. split; [exact Hs|].
  unfold DocumentController.upload_document, try_except. rewrite Hs.
  reflexivity.
Qed.

(** C5: a query that is empty or has whitespace only makes
    [search_user_documents] raise [EmptyDocumentError] in the world it was
    called in: neither the embedder nor the vector store was called.  The
    endpoint answers with status 400. *)
Theorem search_rejects_empty_query
    (env : Env) (query : pystr) (top_k : Z)
    (user : DocumentController.CurrentUser) (w : World) :
  forallb isspace query = true ->
  DocumentService.search_user_documents env query top_k
    (DocumentController.cu_user_id user) w
  = (Raise (Exn EmptyDocumentError (lit "Query cannot be empty")), w)
  /\ DocumentController.search_documents env query top_k user w
     = (Raise (HTTPException 400 (lit "Query cannot be empty")), w).
Proof.
  intros H.
  assert (Hs : DocumentService.search_user_documents env query top_k
                 (DocumentController.cu_user_id user) w
               = (Raise (Exn EmptyDocumentError (lit "Query cannot be empty")), w)).
  { unfold DocumentService.search_user_documents.
    rewrite strip_all_space by exact H. reflexivity. }
  split; [exact Hs|].
  unfold DocumentController.search_documents, try_except, bind. rewrite Hs.
  reflexivity.
Qed.

(** Whatever [_process_document] raises is one of the five exceptions it
    re-raises. *)
Lemma process_document_raises env file w e w' :
  DocumentService._process_document env file w = (Raise e, w') ->
  exists c msg, e = Exn c msg /\ DocumentService.is_processing_error c = true.
Proof.
  unfold DocumentService._process_document, try_finally.
  match goal with
  | |- context [try_except ?m ?h w] =>
      assert (Hin : forall e1 w1, try_except m h w = (Raise e1, w1) ->
                exists c msg, e1 = Exn c msg
                              /\ DocumentService.is_processing_error c = true);
      [|destruct (try_except m h w) as [[a|e1|] w1] eqn:E]
  end.
  - intros e1 w1. unfold try_except at 1.
    match goal with
    | |- context [match ?m w with _ => _ end] =>
        destruct (m w) as [[a|e0|] w0]
    end; try discriminate.
    destruct e0 as [c msg|status detail].
    + destruct (DocumentService.is_processing_error c) eqn:Ec; unfold raise;
        intros H; injection H as <- _; eauto.
    + unfold raise. intros H. injection H as <- _. eauto.
  - destruct (f_filename file); [destruct (truthy _)|];
      unfold emit, ret; simpl; discriminate.
  - destruct (f_filename file); [destruct (truthy _)|];
      unfold emit, ret; simpl;
      intros H; injection H as <- _; eapply Hin; reflexivity.
  - discriminate.
Qed.

(** [upload_document] turns each of them into a
    [DocumentRepositoryError], for which the endpoint answers 500. *)
Lemma upload_document_wraps env file user name w c msg w' :
  f_filename file = Some name -> name <> [] ->
  In (str_lower env (snd (splitext (os_sep env) (os_altsep env) name)))
     [lit ".txt"; lit ".pdf"; lit ".docx"] ->
  DocumentService._process_document env file w = (Raise (Exn c msg), w') ->
  DocumentService.upload_document env file
    (DocumentController.cu_user_id user) w
  = (Raise (Exn DocumentRepositoryError
              (lit "Failed to upload document: " ++ msg)), w')
  /\ DocumentController.upload_document env file user w
     = (Raise (HTTPException 500
                 (lit "Failed to upload document: " ++ msg)), w').
Proof.
  intros Hname Hne Hext Hproc.
  assert (Hc : DocumentService.is_processing_error c = true).
  { destruct (process_document_raises _ _ _ _ _ Hproc) as (c' & msg' & E & Hc).
    injection E as -> _. exact Hc. }
  assert (Hs : DocumentService.upload_document env file
                 (DocumentController.cu_user_id user) w
               = (Raise (Exn DocumentRepositoryError
                           (lit "Failed to upload document: " ++ msg)), w')).
  { unfold DocumentService.upload_document. rewrite Hname.
    destruct name as [|ch name]; [congruence|]. cbn [truthy negb].
    apply str_in_In in Hext. unfold DocumentService.supported_types.
    rewrite Hext. cbn [negb]. unfold try_except, bind. rewrite Hproc.
    destruct c; try discriminate Hc; reflexivity. }
  split; [exact Hs|].
  unfold DocumentController.upload_document, try_except. rewrite Hs.
  reflexivity.
Qed.

(** So [upload_document] raises nothing but [FileTypeError],
    [VectorCollectionError], [PointError] and [DocumentRepositoryError]:
    the endpoint's handlers for [EmptyDocumentError], [ChunkingError],
    [EmbeddingError] and [FileProcessingError] never run. *)
Lemma upload_document_raises env file user_id w e w' :
  DocumentService.upload_document env file user_id w = (Raise e, w') ->
  exists c msg,
    e = Exn c msg
    /\ (c = FileTypeError \/ c = VectorCollectionError
        \/ c = PointError \/ c = DocumentRepositoryError).
Proof.
  unfold DocumentService.upload_document.
  destruct (f_filename file) as [filename|].
  2:{ unfold raise. intros H. injection H as <- _. eauto. }
  destruct (truthy filename); cbn [negb].
  2:{ unfold raise. intros H. injection H as <- _. eauto. }
  destruct (DocumentService.str_in _ _); cbn [negb].
  2:{ unfold raise. intros H. injection H as <- _. eauto. }
  unfold try_except.
  match goal with
  | |- context [match ?m w with _ => _ end] =>
      destruct (m w) as [[a|e0|] w0]
  end; try discriminate.
  destruct e0 as [[] msg|status detail]; unfold raise;
    intros H; injection H as <- _; eauto 7.
Qed.

(** C2, at an empty text file: [_process_document] raises
    [EmptyDocumentError], [upload_document] raises a
    [DocumentRepositoryError] that wraps it, and the endpoint answers 500
    and not the 400 it has for [EmptyDocumentError]. *)
Theorem upload_wraps_empty_document_error :
  let env := env0 3 3 4 1 in
  let msg := lit "Document appears to be empty or text could not be extracted" in
  exists w',
    DocumentService._process_document env empty_txt empty_world
    = (Raise (Exn EmptyDocumentError msg), w')
    /\ DocumentService.upload_document env empty_txt (lit "alice") empty_world
       = (Raise (Exn DocumentRepositoryError
                   (lit "Failed to upload document: " ++ msg)), w')
    /\ DocumentController.upload_document env empty_txt alice empty_world
       = (Raise (HTTPException 500
                   (lit "Failed to upload document: " ++ msg)), w')
    /\ DocumentController.status_code_of
         (fst (DocumentController.upload_document env empty_txt alice
                 empty_world))
       = Some 500%Z.
Proof.
  eexists. split; [|split; [|split]]; vm_compute; reflexivity.
Qed.

(** The same at a text file with a control character only, where it is a
    [ChunkingError] that is wrapped. *)
Lemma upload_wraps_chunking_error :
  let env := env0 3 3 4 1 in
  let msg := lit "No chunks could be created from the document" in
  exists w',
    DocumentService._process_document env control_txt empty_world
    = (Raise (Exn ChunkingError msg), w')
    /\ DocumentController.upload_document env control_txt alice empty_world
       = (Raise (HTTPException 500
                   (lit "Failed to upload document: " ++ msg)), w').
Proof.
  eexists. split; vm_compute; reflexivity.
Qed.

(** The sibling path: [delete_user_document] lets its
    [DocumentNotFoundError] through. *)
Lemma delete_lets_not_found_through :
  exists msg w',
    DocumentService.delete_user_document (env0 3 3 4 1) (lit "d9")
      (lit "alice") empty_world
    = (Raise (Exn DocumentNotFoundError msg), w').
Proof.
  eexists. eexists. vm_compute. reflexivity.
Qed.

End ErrorFacts.

(* ===================================================================== *)
(** * The service and the store                                           *)
(* ===================================================================== *)

Module StoreFacts.
Import PyStr PyLib Exceptions Models Runtime Props.
Import Steps LibFacts Policy Scenario.

(** ** What the calls return *)

(** In a world where the repository's belief is right, the collection is
    there after [_ensure_collection_exists], which returns. *)
Lemma ensure_value env w :
  world_ok w ->
  exists w1,
    VectorRepository._ensure_collection_exists env w = (Return tt, w1)
    /\ collection w1 <> None.
Proof.
  destruct w as [c ready l]. unfold world_ok. simpl. intros Hok.
  destruct ready.
  - eexists. split; [reflexivity|]. simpl. auto.
  - destruct c as [c|]; eexists; (split; [reflexivity|]); simpl; discriminate.
Qed.

Lemma scroll_value scroll_filter limit w c :
  collection w = Some c ->
  exists w',
    Qdrant.scroll scroll_filter limit w
    = (Return (firstn (Z.to_nat limit)
                      (filter (Qdrant.matches scroll_filter) (points c))), w').
Proof.
  intros Hc. unfold Qdrant.scroll, bind, emit, get_collection. simpl.
  rewrite Hc. eexists. reflexivity.
Qed.

Lemma ensure_stored env w r w1 :
  VectorRepository._ensure_collection_exists env w = (r, w1) ->
  stored (collection w1) = stored (collection w).
Proof.
  intros E.
  pose proof (@follows_ensure (reads env []) env
                (structural_reads env []) w) as (evs & _ & F & C).
  rewrite E in C. simpl in C. rewrite C.
  eapply replay_reads. exact F.
Qed.

(** [get_points_by_doc_id] returns the payloads of the first 1000 stored
    points that match the filter. *)
Lemma get_points_value env doc_id user_id w :
  world_ok w ->
  exists w',
    VectorRepository.get_points_by_doc_id env doc_id user_id w
    = (Return
         (map payload
              (firstn 1000
                 (filter (Qdrant.matches
                            (Some (VectorRepository.doc_filter doc_id user_id)))
                         (stored (collection w))))), w').
Proof.
  intros Hok. destruct (ensure_value env w Hok) as (w1 & E1 & Hc1).
  pose proof (ensure_stored _ _ _ _ E1) as Hst.
  destruct (collection w1) as [c1|] eqn:Ec1; [|congruence].
  destruct (scroll_value (Some (VectorRepository.doc_filter doc_id user_id))
                         1000 w1 c1 Ec1) as (w2 & E2).
  unfold VectorRepository.get_points_by_doc_id, bind, try_except.
  rewrite E1. unfold bind in E2 |- *. simpl in Hst. rewrite <- Hst.
  change (Z.to_nat 1000) with 1000%nat in E2.
  rewrite E2. eexists. reflexivity.
Qed.

(** What [search] returns are stored points that match the filter. *)
Lemma search_value env query top_k query_filter w res w' :
  VectorRepository.search env query top_k query_filter w = (Return res, w') ->
  forall sp, In sp res ->
    exists pt, In pt (stored (collection w))
               /\ Qdrant.matches query_filter pt = true
               /\ sp_payload sp = payload pt.
Proof.
  unfold VectorRepository.search, bind.
  destruct (VectorRepository._ensure_collection_exists env w)
    as [[[]|e|] w1] eqn:E1; try discriminate.
  pose proof (ensure_stored _ _ _ _ E1) as Hst. rewrite <- Hst.
  unfold try_except, Qdrant.query_points, bind, emit, get_collection. simpl.
  destruct (top_k <=? 0)%Z; simpl; [discriminate|].
  destruct (collection w1) as [c1|]; [|discriminate].
  destruct (len query =? vectors_size c1)%Z; [|discriminate].
  intros H sp Hsp. injection H as <- _.
  apply In_firstn in Hsp. apply sort_by_In in Hsp.
  apply in_map_iff in Hsp. destruct Hsp as (pt & <- & Hpt).
  apply filter_In in Hpt. exists pt. simpl. tauto.
Qed.

(** Each entry [search_hits] returns comes from one of the results. *)
Lemma search_hits_value results : forall w hits w',
  DocumentService.search_hits results w = (Return hits, w') ->
  forall h, In h hits ->
    exists sp, In sp results
               /\ p_doc_id (sp_payload sp) = Some (h_doc_id h)
               /\ p_chunk_text (sp_payload sp) = Some (h_chunk_text h)
               /\ p_chunk_index (sp_payload sp) = Some (h_chunk_index h).
Proof.
  induction results as [|result rest IH]; intros w hits w'; simpl.
  - unfold ret. intros H. injection H as <- _. intros h [].
  - unfold bind, DocumentService.subscript.
    destruct (p_doc_id (sp_payload result)) as [d|] eqn:Ed; [|discriminate].
    destruct (p_chunk_text (sp_payload result)) as [t|] eqn:Et; [|discriminate].
    destruct (p_chunk_index (sp_payload result)) as [i|] eqn:Ei; [|discriminate].
    unfold ret at 1 2 3.
    destruct (DocumentService.search_hits rest w) as [[hits'|e|] w1] eqn:E;
      try discriminate.
    unfold ret. intros H. injection H as <- _. intros h [<-|Hh].
    + exists result. simpl. auto.
    + destruct (IH _ _ _ E h Hh) as (sp & Hsp & Hrest).
      exists sp. split; [right; exact Hsp|exact Hrest].
Qed.

Lemma filter_none {A : Type} (f : A -> bool) (l : list A) :
  (forall x, In x l -> f x = false) -> filter f l = [].
Proof.
  induction l as [|x t IH]; intros H; simpl; [reflexivity|].
  rewrite (H x (or_introl eq_refl)). apply IH. intros y Hy. apply H. right.
  exact Hy.
Qed.

(** [load_document] gives the same in every world. *)
Lemma load_document_fst env path content w1 w2 :
  fst (Extractor.load_document env path content w1)
  = fst (Extractor.load_document env path content w2).
Proof.
  unfold Extractor.load_document, bind, emit. cbn [fst snd].
  repeat match goal with
         | |- context [if ?b then _ else _] => destruct b
         end;
    unfold Extractor.extract_from_txt, Extractor.extract_from_pdf,
      Extractor.extract_from_docx, try_except, bind, lift_lib, ret, raise;
    try destruct (read_utf8 env content);
    try destruct (read_latin1 env content);
    try destruct (pdf_pages env content);
    try destruct (docx_paragraphs env content); reflexivity.
Qed.

Lemma process_document_value env file w chunks_data w1 :
  DocumentService._process_document env file w = (Return chunks_data, w1) ->
  chunks_of_file env file w chunks_data.
Proof.
  unfold DocumentService._process_document, chunks_of_file.
  destruct (f_filename file) as [filename|].
  2:{ unfold try_finally, try_except, bind, raise, ret. simpl. discriminate. }
  set (path := temp_prefix env
               ++ snd (splitext (os_sep env) (os_altsep env) filename)).
  intros H. cbv zeta.
  unfold try_finally in H.
  match type of H with
  | context [try_except ?m ?h w] =>
      assert (E : exists w2, try_except m h w = (Return chunks_data, w2))
  end.
  { match goal with
    | |- context [try_except ?m ?h w] =>
        destruct (try_except m h w) as [[cd|e|] w2]
    end;
      destruct (truthy path); unfold emit, ret in H; simpl in H;
      try discriminate H; injection H as -> _; eauto. }
  clear H. destruct E as [w2 E].
  unfold try_except at 1 in E.
  match type of E with
  | context [match ?m w with _ => _ end] =>
      destruct (m w) as [[cd|e|] w3] eqn:E'; try discriminate
  end.
  2:{ destruct e as [c msg|]; [destruct (DocumentService.is_processing_error c)|];
      discriminate. }
  injection E as -> ->.
  unfold bind at 1 2 3 in E'. unfold ret at 1, emit at 1 2 in E'.
  cbn beta iota in E'.
  set (w0 := {| collection := _ |}) in E'.
  unfold bind at 1 in E'. unfold try_except at 1 in E'.
  rewrite (load_document_fst env path (f_content file) w w0).
  destruct (Extractor.load_document env path (f_content file) w0)
    as [[text|e|] w4]; cbn [fst].
  2:{ destruct e as [[] ?|]; discriminate. }
  2:{ discriminate. }
  destruct (truthy (strip text)); [|discriminate]. cbn [negb] in E'.
  unfold bind at 1 in E'. unfold try_except at 1 in E'.
  unfold DocumentService.run_chunker in E'.
  destruct (Chunker.chunker _ text (CHUNK_SIZE env) (OVERLAP env))
    as [chunks|]; [|discriminate].
  unfold ret at 1 in E'.
  destruct chunks as [|c0 chunks0] eqn:Ec; [discriminate|]. rewrite <- Ec in *.
  clear Ec c0 chunks0.
  destruct (filter (fun chunk => truthy (strip chunk)) chunks)
    as [|t0 texts0] eqn:Et; [discriminate|].
  rewrite <- Et in *. clear Et t0 texts0.
  unfold bind at 1 in E'. unfold try_except at 1 in E'.
  unfold EmbeddingClient.embed_batch, bind, emit in E'. cbn beta iota in E'.
  destruct (encode_batch env _) as [embeddings|msg]; [|discriminate].
  unfold lift_lib, ret in E'. injection E' as <- _. reflexivity.
Qed.

(** What [scroll] returns are stored points that match the filter. *)
Lemma scroll_returned scroll_filter limit w pts w' :
  Qdrant.scroll scroll_filter limit w = (Return pts, w') ->
  forall pt, In pt pts ->
    In pt (stored (collection w)) /\ Qdrant.matches scroll_filter pt = true.
Proof.
  unfold Qdrant.scroll, bind, emit, get_collection. simpl.
  destruct (collection w) as [c|]; [|discriminate].
  unfold ret. intros H pt Hpt. injection H as <- _.
  apply In_firstn in Hpt. apply filter_In in Hpt. exact Hpt.
Qed.

(** What [get_points_by_doc_id] returns are payloads of stored points that
    match the filter. *)
Lemma get_points_returned env doc_id user_id w chunks w' :
  VectorRepository.get_points_by_doc_id env doc_id user_id w
  = (Return chunks, w') ->
  forall chunk, In chunk chunks ->
    exists pt, In pt (stored (collection w))
               /\ Qdrant.matches
                    (Some (VectorRepository.doc_filter doc_id user_id)) pt = true
               /\ payload pt = chunk.
Proof.
  unfold VectorRepository.get_points_by_doc_id, bind.
  destruct (VectorRepository._ensure_collection_exists env w)
    as [[[]|e|] w1] eqn:E1; try discriminate.
  pose proof (ensure_stored _ _ _ _ E1) as Hst. rewrite <- Hst.
  unfold try_except, bind.
  destruct (Qdrant.scroll _ 1000 w1) as [[pts|e|] w2] eqn:E2;
    try discriminate.
  unfold ret. intros H chunk Hin. injection H as <- _.
  apply in_map_iff in Hin. destruct Hin as (pt & <- & Hpt).
  destruct (scroll_returned _ _ _ _ _ E2 pt Hpt) as [H1 H2].
  exists pt. auto.
Qed.

(** The chunks [get_user_document] returns are chunks of the document
    asked for, of the user asked for. *)
Lemma get_user_document_chunks env doc_id (user_id : pystr) w d w' :
  user_id <> [] ->
  DocumentService.get_user_document env doc_id user_id w = (Return d, w') ->
  forall chunk, In chunk (d_chunks d) ->
    exists pt, In pt (stored (collection w))
               /\ payload pt = chunk
               /\ p_doc_id chunk = Some doc_id
               /\ p_user_id chunk = Some user_id.
Proof.
  intros Hu. unfold DocumentService.get_user_document, try_except, bind.
  destruct (VectorRepository.get_points_by_doc_id env doc_id (Some user_id) w)
    as [[chunks|e|] w1] eqn:E.
  - intros H chunk Hin.
    assert (Hin' : In chunk chunks).
    { destruct chunks as [|first rest]; [discriminate H|].
      unfold ret in H. injection H as <- _. cbn [d_chunks] in Hin.
      eapply Permutation_in; [apply sorted_perm|exact Hin]. }
    clear H Hin. rename Hin' into Hin.
    destruct (get_points_returned _ _ _ _ _ _ E chunk Hin)
      as (pt & Hpt & Hm & <-).
    exists pt. split; [exact Hpt|]. split; [reflexivity|]. split.
    + eapply matches_doc_filter. exact Hm.
    + eapply matches_owner; [|exact Hm]. apply doc_filter_scoped, Hu.
  - destruct e as [[] ?|]; discriminate.
  - discriminate.
Qed.

(** The points that [doc_id_map] keeps are points that were scrolled. *)
Lemma doc_id_map_from all_points : forall doc_id_map kv,
  In kv (fold_left VectorRepository.doc_id_map_step all_points doc_id_map) ->
  In kv doc_id_map
  \/ (In (snd kv) all_points /\ p_doc_id (payload (snd kv)) = Some (fst kv)).
Proof.
  induction all_points as [|point rest IH]; intros doc_id_map kv; simpl;
    [auto|].
  intros H. apply IH in H. destruct H as [H|[H1 H2]]; [|auto].
  unfold VectorRepository.doc_id_map_step in H.
  destruct (p_doc_id (payload point)) as [d_id|] eqn:Ed; [|auto].
  destruct (truthy d_id && negb _); [|auto].
  apply in_app_or in H. destruct H as [H|[<-|[]]]; [auto|].
  right. simpl. auto.
Qed.

(** Each document [documents_of] returns is the document of one of the
    points. *)
Lemma documents_of_from points : forall w documents w',
  VectorRepository.documents_of points w = (Return documents, w') ->
  forall doc, In doc documents ->
    exists point, In point points
                  /\ VectorRepository.document_of_point point w
                     = (Return doc, w).
Proof.
  induction points as [|point rest IH]; intros w documents w'.
  - simpl. unfold ret. intros H. injection H as <- _. intros doc [].
  - cbn [VectorRepository.documents_of]. unfold bind.
    pose proof (document_of_point_world point w) as H1.
    destruct (VectorRepository.document_of_point point w)
      as [[d|e|] w1] eqn:E1; simpl in H1; subst w1; try discriminate.
    destruct (VectorRepository.documents_of rest w)
      as [[ds|e|] w2] eqn:E2; try discriminate.
    unfold ret. intros H doc Hin. injection H as <- _.
    destruct Hin as [<-|Hin].
    + exists point. split; [left; reflexivity|exact E1].
    + destruct (IH _ _ _ E2 doc Hin) as (pt & Hpt & Hd).
      exists pt. split; [right; exact Hpt|exact Hd].
Qed.

(** Each document [list_user_documents] returns is the document of a
    stored point of the user. *)
Lemma list_user_documents_from env (user_id : pystr) w documents w' :
  user_id <> [] ->
  DocumentService.list_user_documents env user_id w = (Return documents, w') ->
  forall doc, In doc documents ->
    exists pt w1, In pt (stored (collection w))
                  /\ p_user_id (payload pt) = Some user_id
                  /\ VectorRepository.document_of_point pt w1
                     = (Return doc, w1).
Proof.
  intros Hu. unfold DocumentService.list_user_documents, try_except.
  destruct (VectorRepository.get_unique_documents env (Some user_id) w)
    as [[docs|e|] w0] eqn:E.
  2:{ destruct e as [[] ?|]; discriminate. }
  2:{ discriminate. }
  intros H doc Hin. injection H as <- <-.
  unfold VectorRepository.get_unique_documents, bind in E.
  destruct (VectorRepository._ensure_collection_exists env w)
    as [[[]|e|] w1] eqn:E1; try discriminate.
  pose proof (ensure_stored _ _ _ _ E1) as Hst. rewrite <- Hst.
  unfold try_except, bind in E.
  destruct (Qdrant.scroll _ 1000 w1) as [[all_points|e|] w2] eqn:E2;
    try discriminate.
  match type of E with
  | context [VectorRepository.documents_of ?pts ?w2] =>
      destruct (VectorRepository.documents_of pts w2)
        as [[ds|e|] w3] eqn:E3; try discriminate;
      pose proof (documents_of_from pts w2 ds w3 E3) as Hfrom
  end.
  injection E as -> _.
  destruct (Hfrom doc Hin) as (pt & Hpt & Hd).
  apply in_map_iff in Hpt. destruct Hpt as (kv & <- & Hkv).
  apply doc_id_map_from in Hkv. destruct Hkv as [[]|[Hkv _]].
  destruct (scroll_returned _ _ _ _ _ E2 _ Hkv) as [Hs Hm].
  eexists. eexists. split; [exact Hs|]. split; [|exact Hd].
  destruct (unique_filter_scoped user_id Hu) as (f & Ef & Hf).
  rewrite Ef in Hm. eapply matches_owner; eassumption.
Qed.

(** ** Deletion *)

(** C6, as amended: in a world where the repository's belief about the
    collection is right (the collection is there whenever the repository
    has marked it ready), when no stored chunk has both the document id
    and the id of the requesting user, [delete_user_document] raises
    [DocumentNotFoundError]; no deletion was issued, the stored points are
    the same, and the endpoint answers with status 404. *)
Theorem delete_unowned_document_not_found
    (env : Env) (doc_id : pystr) (user : DocumentController.CurrentUser)
    (w : World) :
  world_ok w ->
  (forall pt, In pt (stored (collection w)) ->
     ~ (p_doc_id (payload pt) = Some doc_id
        /\ p_user_id (payload pt) = Some (DocumentController.cu_user_id user))) ->
  let msg := lit "Document " ++ doc_id ++ lit " not found" in
  exists w',
    DocumentService.delete_user_document env doc_id
      (DocumentController.cu_user_id user) w
    = (Raise (Exn DocumentNotFoundError msg), w')
    /\ DocumentController.delete_document env doc_id user w
       = (Raise (HTTPException 404 msg), w')
    /\ (exists evs, log w' = log w ++ evs
                    /\ forall f, ~ In (Delete f) evs)
    /\ stored (collection w') = stored (collection w).
Proof.
  intros Hok Hnone msg. pose proof (user_id_given user) as Hu.
  set (uid := DocumentController.cu_user_id user) in *.
  destruct (get_points_value env doc_id (Some uid) w Hok) as (w' & E).
  rewrite filter_none in E.
  2:{ intros pt Hpt. destruct (Qdrant.matches _ pt) eqn:Em; [|reflexivity].
      exfalso. apply (Hnone pt Hpt). split.
      - eapply matches_doc_filter. exact Em.
      - eapply matches_owner; [|exact Em]. apply doc_filter_scoped, Hu. }
  simpl in E.
  assert (Hs : DocumentService.delete_user_document env doc_id uid w
               = (Raise (Exn DocumentNotFoundError msg), w')).
  { unfold DocumentService.delete_user_document, try_except, bind.
    rewrite E. reflexivity. }
  exists w'. split; [exact Hs|]. split.
  - unfold DocumentController.delete_document, try_except. fold uid.
    rewrite Hs. reflexivity.
  - pose proof (@follows_get_points (reads env uid) env
                  (structural_reads env uid) doc_id (Some uid)) as Hf.
    specialize (Hf ltac:(simpl; eexists; split;
                         [reflexivity|apply doc_filter_scoped, Hu]) w).
    rewrite E in Hf. simpl in Hf. destruct Hf as (evs & L & F & C).
    split.
    + exists evs. split; [exact L|]. intros f Hin.
      rewrite Forall_forall in F. apply (F _ Hin).
    + rewrite C. eapply replay_reads. exact F.
Qed.

(** ** Scoping by user *)

(** C3: the user id of a request is the one that the authentication
    dependency hands out ([CurrentUser]).  For it:
    - an upload asks the store for nothing but an upsert of the points of
      the chunks that [_process_document] returned for the file
      ([uploads], [owned_points]): one point per chunk, in the order of
      the chunks, the payload of point [i] holding the user id, the
      generated document id, the index [i], the text of chunk [i], the
      name and the lowercased extension of the file, and the metadata of
      the document; the chunks are those of [chunker] on the text of the
      file ([chunks_of_file]);
    - every search, lookup and listing is issued with a filter on the
      user id, changes nothing in the store, and returns only chunks (or
      documents of chunks) of that user;
    - every deletion is issued with a filter on the user id, and a point
      that is gone afterwards was that user's. *)
Theorem service_scopes_by_user
    (env : Env) (user : DocumentController.CurrentUser) :
  let user_id := DocumentController.cu_user_id user in
  (forall file w,
     follows (uploads env file user_id w) w
             (snd (DocumentService.upload_document env file user_id w)))
  /\ (forall file w chunks_data w1,
        DocumentService._process_document env file w
        = (Return chunks_data, w1) ->
        chunks_of_file env file w chunks_data)
  /\ (forall query top_k,
        steps (follows (reads env user_id))
              (DocumentService.search_user_documents env query top_k user_id))
  /\ (forall query top_k w hits w',
        DocumentService.search_user_documents env query top_k user_id w
        = (Return hits, w') ->
        forall h, In h hits ->
          exists pt, In pt (stored (collection w))
                     /\ p_user_id (payload pt) = Some user_id
                     /\ p_doc_id (payload pt) = Some (h_doc_id h)
                     /\ p_chunk_text (payload pt) = Some (h_chunk_text h)
                     /\ p_chunk_index (payload pt) = Some (h_chunk_index h))
  /\ (forall doc_id,
        steps (follows (reads env user_id))
              (DocumentService.get_user_document env doc_id user_id))
  /\ (forall doc_id w d w',
        DocumentService.get_user_document env doc_id user_id w
        = (Return d, w') ->
        forall chunk, In chunk (d_chunks d) ->
          exists pt, In pt (stored (collection w))
                     /\ payload pt = chunk
                     /\ p_doc_id chunk = Some doc_id
                     /\ p_user_id chunk = Some user_id)
  /\ steps (follows (reads env user_id))
           (DocumentService.list_user_documents env user_id)
  /\ (forall w documents w',
        DocumentService.list_user_documents env user_id w
        = (Return documents, w') ->
        forall doc, In doc documents ->
          exists pt w1, In pt (stored (collection w))
                        /\ p_user_id (payload pt) = Some user_id
                        /\ VectorRepository.document_of_point pt w1
                           = (Return doc, w1))
  /\ (forall w w',
        follows (reads env user_id) w w' ->
        stored (collection w') = stored (collection w))
  /\ (forall doc_id,
        steps (follows (deletes env user_id))
              (DocumentService.delete_user_document env doc_id user_id)
        /\ forall w pt,
             In pt (stored (collection w)) ->
             In pt (stored (collection
                      (snd (DocumentService.delete_user_document
                              env doc_id user_id w))))
             \/ p_user_id (payload pt) = Some user_id).
Proof.
  intros user_id. pose proof (user_id_given user) as Hu. fold user_id in Hu.
  split; [intros file w; apply follows_upload|].
  split; [intros file w chunks_data w1; apply process_document_value|].
  split; [intros query top_k; apply follows_search_user_documents|].
  split.
  { intros query top_k w hits w'.
    unfold DocumentService.search_user_documents.
    destruct (truthy (strip query)); [|discriminate]. cbn [negb].
    unfold try_except, bind.
    destruct (EmbeddingClient.embed env query w) as [[qe|e|] w1] eqn:E1.
    2:{ destruct e as [[] ?|]; discriminate. }
    2:{ discriminate. }
    assert (Hw1 : collection w1 = collection w).
    { unfold EmbeddingClient.embed, bind, emit in E1. simpl in E1.
      destruct (encode env query); simpl in E1; injection E1 as _ <-;
        reflexivity. }
    destruct (VectorRepository.search env qe top_k
                (Some (DocumentService.user_filter user_id)) w1)
      as [[res|e|] w2] eqn:E2.
    2:{ destruct e as [[] ?|]; discriminate. }
    2:{ discriminate. }
    destruct (DocumentService.search_hits res w2) as [[hs|e|] w3] eqn:E3.
    2:{ destruct e as [[] ?|]; discriminate. }
    2:{ discriminate. }
    intros H h Hh. injection H as <- _.
    destruct (search_hits_value _ _ _ _ E3 h Hh) as (sp & Hsp & Hd & Ht & Hi).
    destruct (search_value _ _ _ _ _ _ _ E2 sp Hsp) as (pt & Hpt & Hm & Hp).
    exists pt. rewrite Hw1 in Hpt. rewrite <- Hp.
    split; [exact Hpt|]. split; [|auto].
    rewrite Hp. eapply matches_owner; [|exact Hm]. left. reflexivity. }
  split; [intros doc_id; apply follows_get_user_document, Hu|].
  split; [intros doc_id w d w'; apply get_user_document_chunks, Hu|].
  split; [apply follows_list_user_documents, Hu|].
  split; [intros w documents w'; apply list_user_documents_from, Hu|].
  split.
  { intros w w' (evs & _ & F & C). rewrite C. eapply replay_reads. exact F. }
  intros doc_id. split.
  - apply follows_delete_user_document. exact Hu.
  - intros w pt Hpt.
    destruct (follows_delete_user_document env doc_id user_id Hu w)
      as (evs & _ & F & C).
    rewrite C. eapply replay_deletes; eauto.
Qed.

(** ** Vector sizes *)

(** When [save_points] returns, the collection was there, every point
    passed the store's check of its vector length, and the points are
    upserted. *)
Lemma save_points_value env pts w w' :
  VectorRepository.save_points env pts w = (Return tt, w') ->
  exists w1 c,
    VectorRepository._ensure_collection_exists env w = (Return tt, w1)
    /\ collection w1 = Some c
    /\ forallb (fun pt => (len (vector pt) =? vectors_size c)%Z) pts = true
    /\ collection w'
       = Some {| vectors_size := vectors_size c;
                 points := fold_left Qdrant.upsert_point pts (points c) |}.
Proof.
  unfold VectorRepository.save_points, bind.
  destruct (VectorRepository._ensure_collection_exists env w)
    as [[[]|e|] w1] eqn:E1; try discriminate.
  unfold try_except, Qdrant.upsert, bind, emit, get_collection. simpl.
  destruct (collection w1) as [c|] eqn:Ec; [|discriminate].
  destruct (forallb _ pts) eqn:Echeck; [|discriminate].
  unfold put_collection. simpl. intros H. injection H as <-.
  exists w1, c. auto.
Qed.

(** When [upload_document] returns, [_process_document] returned the
    chunks with their embeddings, and [save_points] stored their points. *)
Lemma upload_value env file user_id w r w' :
  DocumentService.upload_document env file user_id w = (Return r, w') ->
  exists filename chunks_data w1 pts,
    f_filename file = Some filename
    /\ DocumentService._process_document env file w = (Return chunks_data, w1)
    /\ VectorRepository.save_points env pts w1 = (Return tt, w')
    /\ u_chunks_count r = len chunks_data
    /\ length pts = length chunks_data
    /\ forall i pt, nth_error pts i = Some pt ->
         exists text, nth_error chunks_data i = Some (text, vector pt).
Proof.
  unfold DocumentService.upload_document.
  destruct (f_filename file) as [filename|]; [|discriminate].
  destruct (truthy filename); [|discriminate]. cbn [negb].
  destruct (DocumentService.str_in _ _); [|discriminate]. cbn [negb].
  unfold try_except, bind.
  destruct (DocumentService._process_document env file w)
    as [[chunks_data|e|] w1] eqn:E1.
  2:{ destruct e as [[] ?|]; discriminate. }
  2:{ discriminate. }
  intros Hret.
  match type of Hret with
  | context [VectorRepository.save_points env ?pts w1] =>
      destruct (VectorRepository.save_points env pts w1)
        as [[[]|e|] w2] eqn:E2; [exists filename, chunks_data, w1, pts | |]
  end.
  - unfold ret in Hret. injection Hret as <- <-. cbn [u_chunks_count].
    split; [reflexivity|]. split; [reflexivity|]. split; [exact E2|].
    split; [reflexivity|]. split; [rewrite length_map; apply enumerate_length|].
    intros i pt Hpt. apply build_points_owned in Hpt.
    destruct Hpt as (text & embedding & Hi & ->). exists text. exact Hi.
  - destruct e as [[] ?|]; discriminate.
  - discriminate.
Qed.

(** C7: when the collection, if it is already there, has the configured
    vector size [VECTOR_SIZE] (as a collection that the repository created
    has), then after [upload_document] it still has, and every point that
    the upload stored has a vector of [VECTOR_SIZE] components: the store
    takes no other.  When the upload returns, the collection is there,
    and each chunk has its point in it: stored under the point's id, with
    the chunk's embedding as its vector, of [VECTOR_SIZE] components. *)
Theorem stored_vectors_have_collection_size
    (env : Env) (file : UploadFile) (user_id : pystr) (w : World) :
  configured env (collection w) ->
  let run := DocumentService.upload_document env file user_id w in
  configured env (collection (snd run))
  /\ (forall pt, In pt (stored (collection (snd run))) ->
        In pt (stored (collection w)) \/ len (vector pt) = VECTOR_SIZE env)
  /\ (forall r, fst run = Return r ->
        exists c' pts,
          collection (snd run) = Some c'
          /\ vectors_size c' = VECTOR_SIZE env
          /\ len pts = u_chunks_count r
          /\ forall pt, In pt pts ->
               len (vector pt) = VECTOR_SIZE env
               /\ exists pt', In pt' (points c') /\ id pt' = id pt).
Proof.
  intros Hc run.
  destruct (follows_upload_document env file user_id w) as (evs & _ & F & C).
  fold run in C.
  destruct (replay_policy_dims env user_id evs _ F Hc) as [Hc' Hnew].
  rewrite <- C in Hc', Hnew.
  split; [exact Hc'|]. split; [exact Hnew|].
  intros r Hr. destruct run as [r0 w'] eqn:Erun. simpl in Hr. subst r0.
  cbn [snd] in *.
  destruct (upload_value _ _ _ _ _ _ Erun)
    as (filename & chunks_data & w1 & pts & _ & _ & Hsave & Hcount & Hlen & _).
  destruct (save_points_value _ _ _ _ Hsave) as (w2 & c & _ & Hc2 & Hcheck & Hw').
  rewrite Hw' in Hc'. cbn [configured vectors_size] in Hc'.
  eexists. exists pts. split; [exact Hw'|]. cbn [vectors_size points].
  split; [exact Hc'|]. split; [unfold len; rewrite Hlen, Hcount; reflexivity|].
  intros pt Hpt. split.
  - rewrite forallb_forall in Hcheck. specialize (Hcheck _ Hpt).
    apply Z.eqb_eq in Hcheck. congruence.
  - apply upsert_all_ids. right. exact Hpt.
Qed.

(** ** Retrieval *)

(** C10: when [get_user_document] returns, the chunks it returns are the
    chunks the vector store returned, in some order, and that order is
    nondecreasing in [chunk_index] (0 where a chunk has none), whatever
    the order the store returned them in: had the store returned them in
    another order, the indices of the result would be the same. *)
Theorem get_user_document_sorted
    (env : Env) (doc_id user_id : pystr) (w : World)
    (d : DocumentWithChunks) (w' : World) :
  DocumentService.get_user_document env doc_id user_id w = (Return d, w') ->
  exists chunks,
    VectorRepository.get_points_by_doc_id env doc_id (Some user_id) w
    = (Return chunks, w')
    /\ Permutation (d_chunks d) chunks
    /\ StronglySorted (key_le DocumentService.chunk_index_key) (d_chunks d)
    /\ (forall i j a b,
          (i <= j)%nat ->
          nth_error (d_chunks d) i = Some a ->
          nth_error (d_chunks d) j = Some b ->
          (DocumentService.from_option (p_chunk_index a) 0
           <= DocumentService.from_option (p_chunk_index b) 0)%Z)
    /\ (forall chunks',
          Permutation chunks chunks' ->
          map DocumentService.chunk_index_key
              (sorted DocumentService.chunk_index_key chunks')
          = map DocumentService.chunk_index_key (d_chunks d)).
Proof.
  unfold DocumentService.get_user_document, try_except, bind.
  destruct (VectorRepository.get_points_by_doc_id env doc_id (Some user_id) w)
    as [[chunks|e|] w1].
  - destruct chunks as [|first rest]; [discriminate|].
    unfold ret. intros H. injection H as <- <-. cbn [d_chunks].
    change (insert_by
              (fun a b : Payload =>
                 (DocumentService.chunk_index_key a
                  <=? DocumentService.chunk_index_key b)%Z)
              first (sorted DocumentService.chunk_index_key rest))
      with (sorted DocumentService.chunk_index_key (first :: rest)).
    exists (first :: rest). split; [reflexivity|].
    split; [apply sorted_perm|].
    pose proof (sorted_sorted _ DocumentService.chunk_index_key (first :: rest))
      as Hs.
    split; [exact Hs|].
    split; [|intros chunks' Hp; symmetry; apply sorted_keys_perm, Hp].
    intros i j a b Hij Ha Hb.
    destruct (Nat.eq_dec i j) as [->|Hne].
    + assert (a = b) by congruence. subst. lia.
    + assert (Hlt : (i < j)%nat) by lia. clear Hij Hne.
      revert i j Hlt Ha Hb.
      induction Hs as [|x t Ht IH Hx]; intros i j Hlt Ha Hb.
      * destruct i; discriminate.
      * destruct j as [|j]; [lia|]. destruct i as [|i]; simpl in Ha, Hb.
        -- injection Ha as <-. rewrite Forall_forall in Hx.
           apply (Hx b). eapply nth_error_In. exact Hb.
        -- apply (IH i j); [lia|assumption|assumption].
  - destruct e as [[] ?|]; discriminate.
  - discriminate.
Qed.

End StoreFacts.

(* ===================================================================== *)
(** * The authentication dependency                                       *)
(* ===================================================================== *)

Module AuthFacts.
Import PyStr PyLib Exceptions Models Runtime Props.
Import Steps LibFacts Policy Authentication.

Ltac auth_cases aenv credentials :=
  unfold get_current_user_bearer, try_except, bind, decode_access_token,
    get_user_by_id, find_by_id, try_except, bind, lift_lib,
    DocumentService.subscript, ret, raise;
  destruct (jwt_decode aenv credentials) as [[[[|? ?]|] ?]| | |?];
  cbn [sub email];
  repeat match goal with
         | |- context [match find_one_by_id ?a ?u with _ => _ end] =>
             destruct (find_one_by_id a u) as [[?|]|?]
         | |- context [match ud_email ?d with _ => _ end] =>
             destruct (ud_email d)
         | |- context [match validate_email ?a ?x with _ => _ end] =>
             destruct (validate_email a x)
         end.

(** The dependency asks nothing of the vector store and changes nothing
    in it. *)
Lemma get_current_user_bearer_world aenv credentials w :
  snd (get_current_user_bearer aenv credentials w) = w.
Proof. auth_cases aenv credentials; reflexivity. Qed.

(** What it raises is an [HTTPException] with status 401 or 500. *)
Lemma get_current_user_bearer_raises aenv credentials w e w' :
  get_current_user_bearer aenv credentials w = (Raise e, w') ->
  exists detail,
    e = HTTPException 401 detail \/ e = HTTPException 500 detail.
Proof.
  auth_cases aenv credentials; intros H; try discriminate H;
    injection H as <- _; eexists; (left; reflexivity) || (right; reflexivity).
Qed.

(** A token without a user id, or with the empty string as user id, is
    answered with 401: the endpoint is not called. *)
Lemma get_current_user_bearer_no_user_id aenv credentials payload w :
  jwt_decode aenv credentials = Decoded payload ->
  sub payload = None \/ sub payload = Some [] ->
  get_current_user_bearer aenv credentials w
  = (Raise (HTTPException 401 (lit "Invalid token payload")), w).
Proof.
  intros E H. unfold get_current_user_bearer, try_except, bind,
    decode_access_token. rewrite E. unfold ret.
  destruct H as [-> | ->]; reflexivity.
Qed.

(** When it returns, the token was decoded, the user id is the ["sub"] of
    the token, and the users collection has a document for it. *)
Lemma get_current_user_bearer_returns aenv credentials w user w' :
  get_current_user_bearer aenv credentials w = (Return user, w') ->
  exists payload document,
    jwt_decode aenv credentials = Decoded payload
    /\ sub payload = Some (DocumentController.cu_user_id user)
    /\ email payload = DocumentController.cu_email user
    /\ find_one_by_id aenv (DocumentController.cu_user_id user)
       = Ok (Some document).
Proof.
  unfold get_current_user_bearer, try_except, bind, decode_access_token,
    get_user_by_id, find_by_id, try_except, bind, lift_lib,
    DocumentService.subscript, ret, raise.
  destruct (jwt_decode aenv credentials) as [[[[|c rest]|] mail]| | |msg];
    cbn [sub email]; try discriminate.
  destruct (find_one_by_id aenv (c :: rest)) as [[doc|]|msg] eqn:Efind;
    try discriminate.
  destruct (ud_email doc) as [address|]; try discriminate.
  destruct (validate_email aenv address) as [address'|msg]; try discriminate.
  intros H. injection H as <- _. eexists. exists doc.
  split; [reflexivity|]. cbn. auto.
Qed.

(** Every deletion that a request to the delete endpoint causes is issued
    with a filter on a user id that is not empty, the one of the token. *)
Lemma authenticated_delete_scoped env aenv credentials doc_id w :
  exists evs,
    log (snd (authenticated aenv credentials
                (DocumentController.delete_document env doc_id) w))
    = log w ++ evs
    /\ forall f, In (Delete f) evs ->
         exists payload user_id,
           jwt_decode aenv credentials = Decoded payload
           /\ sub payload = Some user_id /\ user_id <> []
           /\ In (owner_condition user_id) (must f).
Proof.
  unfold authenticated, bind.
  pose proof (get_current_user_bearer_world aenv credentials w) as Hw.
  destruct (get_current_user_bearer aenv credentials w)
    as [[user|e|] w0] eqn:E; cbn [snd] in Hw; subst w0.
  2,3: exists []; rewrite app_nil_r; split; [reflexivity|intros f []].
  destruct (get_current_user_bearer_returns _ _ _ _ _ E)
    as (payload & document & Hd & Hs & _).
  pose proof (user_id_given user) as Hu.
  assert (Hf : follows (deletes env (DocumentController.cu_user_id user)) w
                 (snd (DocumentController.delete_document env doc_id user w))).
  { unfold DocumentController.delete_document, try_except.
    pose proof (follows_delete_user_document env doc_id _ Hu w) as Hf.
    destruct (DocumentService.delete_user_document env doc_id
                (DocumentController.cu_user_id user) w) as [[r|e|] w1];
      cbn [snd] in Hf |- *; [exact Hf| |exact Hf].
    destruct e as [[] ?|]; exact Hf. }
  destruct Hf as (evs & L & F & _). exists evs. split; [exact L|].
  intros f Hin. rewrite Forall_forall in F. specialize (F _ Hin).
  exists payload, (DocumentController.cu_user_id user). auto.
Qed.

End AuthFacts.

(* ===================================================================== *)
(** * Texts: what clean_text and chunker keep                             *)
(* ===================================================================== *)

Module TextFacts.
Import PyStr Chunker PyStrFacts CleanTextFacts ChunkerFacts Props MoreProps.

Lemma visible_iff c : visible c = true <-> (33 <= c <= 126)%N.
Proof.
  unfold visible. rewrite andb_true_iff, !N.leb_le. tauto.
Qed.

Lemma visible_not_space c : visible c = true -> isspace c = false.
Proof.
  rewrite visible_iff. unfold isspace. intros [H1 H2].
  repeat match goal with
         | |- context [(?a <=? ?b)%N] =>
             first [ replace (a <=? b)%N with true
                       by (symmetry; apply N.leb_le; lia)
                   | replace (a <=? b)%N with false
                       by (symmetry; apply N.leb_gt; lia) ]
         | |- context [(?a =? ?b)%N] =>
             replace (a =? b)%N with false
               by (symmetry; apply N.eqb_neq; lia)
         end.
  reflexivity.
Qed.

Lemma printable_visible c :
  not_printable c = false -> negb (isspace c) = visible c.
Proof.
  rewrite not_printable_false. unfold NEWLINE. intros [[H1 H2]| ->].
  - destruct (N.eq_dec c 32) as [->|Hne]; [reflexivity|].
    assert (Hv : visible c = true) by (apply visible_iff; lia).
    rewrite Hv, (visible_not_space c Hv). reflexivity.
  - reflexivity.
Qed.

Lemma filter_visible_lstrip s : filter visible (lstrip s) = filter visible s.
Proof.
  induction s as [|c t IH]; [reflexivity|]. cbn [lstrip].
  destruct (isspace c) eqn:E; [|reflexivity].
  rewrite IH. cbn [filter].
  destruct (visible c) eqn:V; [|reflexivity].
  apply visible_not_space in V. congruence.
Qed.

Lemma filter_visible_strip s : filter visible (strip s) = filter visible s.
Proof.
  unfold strip, rstrip.
  rewrite filter_rev, filter_visible_lstrip, filter_rev, rev_involutive.
  apply filter_visible_lstrip.
Qed.

Lemma filter_none_of {A : Type} (f : A -> bool) (l : list A) :
  Forall (fun x => f x = false) l -> filter f l = [].
Proof.
  induction 1 as [|x t Hx _ IH]; simpl; [reflexivity|]. rewrite Hx. exact IH.
Qed.

Lemma filter_visible_flush min repl run :
  filter visible repl = [] -> filter visible run = [] ->
  filter visible (flush min repl run) = [].
Proof.
  intros Hr Hrun.
  destruct (flush_cases min repl run) as [-> | [-> | ->]];
    [reflexivity | exact Hr | exact Hrun].
Qed.

Lemma filter_visible_re_sub_runs cls min repl s :
  (forall c, cls c = true -> visible c = false) ->
  filter visible repl = [] ->
  forall run, filter visible run = [] ->
    filter visible (re_sub_runs cls min repl run s) = filter visible s.
Proof.
  intros Hcls Hrepl. induction s as [|c t IH]; intros run Hrun.
  - simpl. apply filter_visible_flush; assumption.
  - rewrite re_sub_runs_cons. destruct (cls c) eqn:E.
    + rewrite IH.
      * cbn [filter]. rewrite (Hcls c E). reflexivity.
      * rewrite filter_app, Hrun. cbn [filter]. rewrite (Hcls c E). reflexivity.
    + rewrite filter_app, filter_visible_flush by assumption.
      cbn [app filter]. rewrite IH by reflexivity. reflexivity.
Qed.

Lemma filter_visible_replace_char s :
  filter visible (replace_char NBSP SPACE s) = filter visible s.
Proof.
  unfold replace_char. induction s as [|c t IH]; [reflexivity|].
  cbn [map filter]. rewrite IH.
  destruct (N.eqb_spec c NBSP) as [->|]; reflexivity.
Qed.

Lemma filter_visible_clean_text text :
  filter visible (clean_text text) = filter visible text.
Proof.
  unfold clean_text, re_sub.
  rewrite filter_visible_strip.
  rewrite filter_visible_re_sub_runs; [| |reflexivity|reflexivity].
  2:{ intros c. unfold is_newline, visible, NEWLINE.
      intros H. apply N.eqb_eq in H. subst c. reflexivity. }
  rewrite filter_visible_re_sub_runs; [| |reflexivity|reflexivity].
  2:{ intros c. unfold is_space, visible, SPACE.
      intros H. apply N.eqb_eq in H. subst c. reflexivity. }
  rewrite filter_visible_re_sub_runs; [| |reflexivity|reflexivity].
  2:{ intros c. unfold not_printable, visible, NEWLINE.
      rewrite negb_true_iff, orb_false_iff, andb_false_iff, !N.leb_gt, N.eqb_neq.
      intros [H1 H2].
      destruct (N.leb_spec 33 c), (N.leb_spec c 126); simpl; try reflexivity; lia. }
  apply filter_visible_replace_char.
Qed.

Lemma concat_split_from s : forall cur,
  concat (split_from cur s) = cur ++ filter (fun c => negb (isspace c)) s.
Proof.
  induction s as [|c t IH]; intros cur.
  - destruct cur; simpl; [reflexivity|]. rewrite !app_nil_r. reflexivity.
  - cbn [split_from filter]. destruct (isspace c); cbn [negb].
    + destruct cur as [|x cur]; [apply IH|].
      cbn [concat]. rewrite IH. reflexivity.
    + rewrite IH, <- app_assoc. reflexivity.
Qed.

Lemma concat_split s :
  concat (split s) = filter (fun c => negb (isspace c)) s.
Proof. apply (concat_split_from s []). Qed.

Lemma filter_ext_Forall {A : Type} (f g : A -> bool) (l : list A) :
  Forall (fun x => f x = g x) l -> filter f l = filter g l.
Proof.
  induction 1 as [|x t Hx _ IH]; simpl; [reflexivity|]. rewrite Hx, IH.
  reflexivity.
Qed.

Lemma tokens_of_clean_text text :
  concat (split (clean_text text)) = filter visible text.
Proof.
  rewrite concat_split, <- filter_visible_clean_text.
  apply filter_ext_Forall.
  pose proof (clean_printable _ (clean_text_clean text)) as H.
  eapply Forall_impl; [|exact H]. intros c. apply printable_visible.
Qed.


(** ** The loop of [chunker] *)

Local Open Scope Z_scope.

Lemma chunker_loop_extends seq size overlap : forall fuel start chunks r,
  chunker_loop fuel seq size overlap start chunks = Some r ->
  exists extra, r = chunks ++ extra /\ (start < len seq -> extra <> []).
Proof.
  induction fuel as [|fuel IH]; intros start chunks r; [discriminate|].
  cbn [chunker_loop]. destruct (Z.ltb_spec start (len seq)) as [Hlt|Hge].
  - unfold chunker_body. destruct (_ >=? _).
    + intros H. injection H as <-. eexists. split; [reflexivity|].
      intros _. discriminate.
    + intros H. apply IH in H. destruct H as (extra & -> & _).
      rewrite <- app_assoc. eexists. split; [reflexivity|].
      intros _. discriminate.
  - intros H. injection H as <-. exists []. rewrite app_nil_r.
    split; [reflexivity|]. lia.
Qed.

Lemma filter_nil_Forall {A : Type} (f : A -> bool) (l : list A) :
  filter f l = [] <-> Forall (fun x => f x = false) l.
Proof.
  split; [|apply filter_none_of].
  induction l as [|x t IH]; [constructor|]. simpl.
  destruct (f x) eqn:E; [discriminate|]. intros H. constructor; auto.
Qed.

Lemma concat_tokens_nil (w : list pystr) :
  Forall is_token w -> concat w = [] -> w = [].
Proof.
  intros H. destruct H as [|x t [Hx _] _]; [reflexivity|].
  simpl. destruct x; [congruence|discriminate].
Qed.

Lemma split_nil_iff text :
  split (clean_text text) = [] <-> Forall (fun c => visible c = false) text.
Proof.
  rewrite <- filter_nil_Forall, <- tokens_of_clean_text. split.
  - intros ->. reflexivity.
  - apply concat_tokens_nil, split_tokens.
Qed.

(** What [chunker] returns, when it returns: the windows 0 to [n - 1],
    where window [n - 1] is the first to reach the end. *)
Lemma chunker_shape fuel text s v chunks :
  0 < s -> 0 <= v < s ->
  chunker fuel text s v = Some chunks ->
  let seq := split (clean_text text) in
  exists n : nat,
    chunks = map (fun k => join [SPACE] (window seq s v k)) (List.seq 0 n)
    /\ (seq = [] -> n = 0%nat)
    /\ (seq <> [] ->
        (1 <= n)%nat /\ len seq <= Z.of_nat (n - 1) * (s - v) + s)
    /\ (forall k, (k < n - 1)%nat -> Z.of_nat k * (s - v) + s < len seq).
Proof.
  intros Hs Hv Hrun seq. unfold chunker in Hrun. fold seq in Hrun.
  destruct seq as [|tok rest] eqn:Eseq.
  - exists 0%nat. destruct fuel; [discriminate|]. simpl in Hrun.
    injection Hrun as <-. split; [reflexivity|]. split; [reflexivity|].
    split; [congruence|]. intros k Hk. lia.
  - rewrite <- Eseq in *. assert (Hlen : 0 < len seq).
    { rewrite Eseq. unfold len. simpl. lia. }
    clear Eseq tok rest.
    pose proof (chunker_loop_more_fuel seq s v fuel (fuel + S (length seq))
                  ltac:(lia) 0 [] chunks Hrun) as Hrun'.
    destruct (chunker_loop_windows seq s v Hs Hv (fuel + S (length seq)) 0 [])
      as (n & Hn & E & Hend & Hbefore).
    + simpl. exact Hlen.
    + unfold len. lia.
    + intros j Hj. lia.
    + exists n. change (Z.of_nat 0 * (s - v)) with 0 in E.
      rewrite E in Hrun'. injection Hrun' as <-.
      rewrite Nat.sub_0_r. split; [reflexivity|].
      split; [intros ->; unfold len in Hlen; simpl in Hlen; lia|].
      split; [intros _; split; [lia|exact Hend]|exact Hbefore].
Qed.

(** ** Putting the text together again *)

Lemma firstn_plus {A : Type} (a b : nat) (l : list A) :
  firstn (a + b) l = firstn a l ++ firstn b (skipn a l).
Proof.
  revert l. induction a as [|a IH]; intros l; [reflexivity|].
  destruct l as [|x l]; simpl.
  - rewrite firstn_nil. reflexivity.
  - rewrite IH. reflexivity.
Qed.

Lemma windows_reassemble (seq : list pystr) s v (m : nat) :
  0 < s -> 0 <= v < s ->
  window seq s v 0
  ++ concat (map (fun k => skipn (Z.to_nat v) (window seq s v k))
                 (List.seq 1 m))
  = firstn (m * Z.to_nat (s - v) + Z.to_nat s) seq.
Proof.
  intros Hs Hv. unfold window.
  set (S' := Z.to_nat s). set (V := Z.to_nat v). set (D := Z.to_nat (s - v)).
  assert (HD : (D + V = S')%nat) by (unfold D, V, S'; lia).
  induction m as [|m IH].
  - simpl. rewrite app_nil_r. reflexivity.
  - rewrite seq_S, map_app, concat_app, app_assoc, IH.
    cbn [map concat]. rewrite app_nil_r.
    rewrite skipn_firstn_comm, skipn_skipn.
    replace (S' - V)%nat with D by lia.
    replace (V + (1 + m) * D)%nat with (m * D + S')%nat by lia.
    rewrite <- firstn_plus. f_equal. lia.
Qed.

(** ** The chunks *)

Lemma tokens_visible text :
  Forall (Forall (fun c => visible c = true)) (split (clean_text text)).
Proof.
  rewrite Forall_forall. intros tok Htok. rewrite Forall_forall. intros c Hc.
  assert (Hin : In c (concat (split (clean_text text))))
    by (apply in_concat; eauto).
  rewrite tokens_of_clean_text in Hin. apply filter_In in Hin. tauto.
Qed.

Lemma join_Forall (P : char -> Prop) sep (w : list pystr) :
  Forall P sep -> Forall (Forall P) w -> Forall P (join sep w).
Proof.
  intros Hsep. induction 1 as [|x t Hx Ht IH]; [constructor|].
  cbn [join]. destruct t as [|y t]; [exact Hx|].
  apply Forall_app. split; [exact Hx|]. apply Forall_app. split; assumption.
Qed.

Lemma join_cons sep x (t : list pystr) :
  join sep (x :: t) =
  match t with [] => x | _ :: _ => x ++ sep ++ join sep t end.
Proof. reflexivity. Qed.

Lemma join_nonempty sep (w : list pystr) :
  Forall is_token w -> w <> [] -> join sep w <> [].
Proof.
  intros H Hne. destruct H as [|x t [Hx _] _]; [congruence|].
  rewrite join_cons. destruct x; [congruence|]. destruct t; discriminate.
Qed.

Lemma starts_clean_app p q : p <> [] -> starts_clean p -> starts_clean (p ++ q).
Proof. destruct p; [congruence|]. intros _ H. exact H. Qed.

Lemma token_starts_clean x : is_token x -> x <> [] /\ starts_clean x.
Proof.
  intros [Hne H]. split; [exact Hne|]. destruct H; [exact I|]. assumption.
Qed.

Lemma token_ends_clean x : is_token x -> rev x <> [] /\ ends_clean x.
Proof.
  intros [Hne H]. unfold ends_clean. split.
  - intros E. apply (f_equal (@rev _)) in E. rewrite rev_involutive in E.
    exact (Hne E).
  - apply Forall_rev in H. destruct H; [exact I|]. assumption.
Qed.

Lemma join_starts_clean sep (w : list pystr) :
  Forall is_token w -> starts_clean (join sep w).
Proof.
  intros H. destruct H as [|x t Hx _]; [exact I|].
  rewrite join_cons. apply token_starts_clean in Hx. destruct Hx as [Hne Hx].
  destruct t; [exact Hx|]. apply starts_clean_app; assumption.
Qed.

Lemma join_ends_clean sep (w : list pystr) :
  Forall is_token w -> ends_clean (join sep w).
Proof.
  induction 1 as [|x t Hx Ht IH]; [exact I|].
  rewrite join_cons. destruct t as [|y t].
  - apply token_ends_clean, Hx.
  - unfold ends_clean in *. rewrite !rev_app_distr, <- app_assoc.
    apply starts_clean_app; [|exact IH].
    intros E. apply (f_equal (@rev _)) in E. rewrite rev_involutive in E.
    revert E. apply join_nonempty; [exact Ht|discriminate].
Qed.

Lemma In_skipn {A : Type} (n : nat) (l : list A) (x : A) :
  In x (skipn n l) -> In x l.
Proof.
  revert l. induction n as [|n IH]; intros l; [auto|].
  destruct l; simpl; auto.
Qed.

Lemma window_length (seq : list pystr) s v k :
  (length (window seq s v k) <= Z.to_nat s)%nat.
Proof. unfold window. apply firstn_le_length. Qed.

Lemma window_nonempty (seq : list pystr) s v (k : nat) :
  0 < s -> Z.of_nat k * (s - v) < len seq -> 0 <= v < s ->
  window seq s v k <> [].
Proof.
  intros Hs Hk Hv E. apply (f_equal (@length _)) in E. unfold window in E.
  rewrite length_firstn, length_skipn in E. simpl in E. unfold len in Hk.
  assert (Z.of_nat (k * Z.to_nat (s - v)) = Z.of_nat k * (s - v)) by lia.
  lia.
Qed.

(** A chunk that [chunker] returns is the join of the tokens of a window
    that is not empty. *)
Lemma chunker_chunk fuel text s v chunks chunk :
  0 < s -> 0 <= v < s ->
  chunker fuel text s v = Some chunks -> In chunk chunks ->
  exists w, chunk = join [SPACE] w /\ w <> [] /\ Forall is_token w
            /\ (length w <= Z.to_nat s)%nat
            /\ Forall (Forall (fun c => visible c = true)) w.
Proof.
  intros Hs Hv Hrun Hin.
  destruct (chunker_shape _ _ _ _ _ Hs Hv Hrun) as (n & -> & H0 & H1 & Hbefore).
  apply in_map_iff in Hin. destruct Hin as (k & <- & Hk).
  apply in_seq in Hk. set (seq := split (clean_text text)) in *.
  exists (window seq s v k). split; [reflexivity|].
  assert (Hne : seq <> []) by (intros E; specialize (H0 E); lia).
  destruct (H1 Hne) as [Hn Hend].
  split; [|split; [|split]].
  - apply window_nonempty; try assumption.
    destruct (Nat.eq_dec k 0) as [->|Hk0].
    + destruct seq; [congruence|]. unfold len. simpl. lia.
    + specialize (Hbefore (k - 1)%nat ltac:(lia)).
      replace (Z.of_nat k) with (Z.of_nat (k - 1) + 1) by lia. lia.
  - apply window_tokens, split_tokens.
  - apply window_length.
  - unfold window. rewrite Forall_forall. intros tok Htok.
    apply LibFacts.In_firstn in Htok.
    pose proof (tokens_visible text) as Hv'. rewrite Forall_forall in Hv'.
    apply Hv'. eapply In_skipn. exact Htok.
Qed.


(** The loop, started at 0 with no chunk, returns no chunk exactly for
    the empty token list. *)
Lemma chunker_loop_nil (fuel : nat) (seq : list pystr) (size overlap : Z) :
  (0 < fuel)%nat ->
  (chunker_loop fuel seq size overlap 0 [] = Some [] <-> seq = []).
Proof.
  intros Hfuel. split.
  - intros H. apply chunker_loop_extends in H.
    destruct H as (extra & E & Hne). destruct seq as [|tok rest];
      [reflexivity|].
    exfalso. apply Hne; [unfold len; simpl; lia|].
    destruct extra; [reflexivity|discriminate E].
  - intros ->. destruct fuel; [lia|]. reflexivity.
Qed.

(** ** The properties *)

(** X1: [clean_text] neither drops, adds nor reorders a visible ASCII
    character (['!'] to ['~']): the visible characters of the cleaned text
    are those of the text, and so are the characters of the tokens that
    [chunker] splits it into, read one after the other. *)
Theorem clean_text_keeps_visible_characters (text : pystr) :
  filter visible (clean_text text) = filter visible text
  /\ concat (split (clean_text text)) = filter visible text.
Proof.
  split; [apply filter_visible_clean_text|apply tokens_of_clean_text].
Qed.

(** X2: whatever the size and the overlap, [chunker] returns the empty
    list exactly for the texts without a visible ASCII character; for any
    other text the list it returns has a chunk. *)
Theorem chunker_returns_no_chunk_iff
    (fuel : nat) (text : pystr) (size overlap : Z) :
  (0 < fuel)%nat ->
  (chunker fuel text size overlap = Some []
   <-> Forall (fun c => visible c = false) text).
Proof.
  intros Hfuel. rewrite <- split_nil_iff. unfold chunker.
  apply chunker_loop_nil, Hfuel.
Qed.

(** X3: the token list of the text can be put together again from the
    chunks: the tokens of the first chunk, followed by the tokens of every
    later chunk without its first [overlap] ones. *)
Theorem chunks_reassemble
    (fuel : nat) (text : pystr) (size overlap : Z) (chunks : list pystr) :
  0 < size -> 0 <= overlap < size ->
  chunker fuel text size overlap = Some chunks ->
  match map split chunks with
  | [] => split (clean_text text) = []
  | first :: rest =>
      first ++ concat (map (skipn (Z.to_nat overlap)) rest)
      = split (clean_text text)
  end.
Proof.
  intros Hs Hv Hrun.
  destruct (chunker_shape _ _ _ _ _ Hs Hv Hrun) as (n & -> & H0 & H1 & _).
  set (seq := split (clean_text text)) in *.
  rewrite map_map.
  rewrite (map_ext _ (window seq size overlap)).
  2:{ intros k. apply split_join, window_tokens, split_tokens. }
  destruct n as [|m]; [simpl|].
  - destruct seq as [|tok rest]; [reflexivity|].
    assert (Hne : tok :: rest <> []) by discriminate.
    destruct (H1 Hne). lia.
  - cbn [List.seq map]. rewrite map_map.
    rewrite windows_reassemble by assumption.
    apply firstn_all2.
    destruct seq as [|tok rest] eqn:Eseq; [apply Nat.le_0_l|].
    rewrite <- Eseq in *.
    assert (Hne : seq <> []) by (rewrite Eseq; discriminate).
    destruct (H1 Hne) as [_ Hend]. unfold len in Hend.
    replace (S m - 1)%nat with m in Hend by lia.
    assert (Z.of_nat (m * Z.to_nat (size - overlap))
            = Z.of_nat m * (size - overlap))
      by (rewrite Nat2Z.inj_mul, Z2Nat.id; lia).
    lia.
Qed.

(** X4: every chunk that [chunker] returns is made of one to [size]
    tokens with one space between them: it is not blank, it has no
    whitespace at its ends, and it holds nothing but visible ASCII
    characters and single spaces (no newline). *)
Theorem chunks_are_joined_tokens
    (fuel : nat) (text : pystr) (size overlap : Z)
    (chunks : list pystr) (chunk : pystr) :
  0 < size -> 0 <= overlap < size ->
  chunker fuel text size overlap = Some chunks -> In chunk chunks ->
  chunk = join [SPACE] (split chunk)
  /\ (1 <= length (split chunk) <= Z.to_nat size)%nat
  /\ strip chunk = chunk
  /\ truthy (strip chunk) = true
  /\ Forall (fun c => visible c = true \/ c = SPACE) chunk.
Proof.
  intros Hs Hv Hrun Hin.
  destruct (chunker_chunk _ _ _ _ _ _ Hs Hv Hrun Hin)
    as (w & -> & Hne & Htok & Hlen & Hvis).
  rewrite (split_join w Htok).
  assert (Hstrip : strip (join [SPACE] w) = join [SPACE] w)
    by (apply strip_id; [apply join_starts_clean|apply join_ends_clean];
        exact Htok).
  split; [reflexivity|]. split.
  { split; [|exact Hlen]. destruct w; [congruence|simpl; lia]. }
  split; [exact Hstrip|]. split.
  { rewrite Hstrip. pose proof (join_nonempty [SPACE] w Htok Hne) as Hj.
    destruct (join [SPACE] w); [congruence|reflexivity]. }
  apply join_Forall.
  - constructor; [right; reflexivity|constructor].
  - eapply Forall_impl; [|exact Hvis]. intros tok Ht.
    eapply Forall_impl; [|exact Ht]. intros c Hc. left. exact Hc.
Qed.

(** X5: the number of chunks: none for a text without tokens, and for [n]
    tokens one chunk and one more for every [size - overlap] tokens, or
    part of so many, beyond the first [size]. *)
Theorem chunker_number_of_chunks
    (fuel : nat) (text : pystr) (size overlap : Z) (chunks : list pystr) :
  0 < size -> 0 <= overlap < size ->
  chunker fuel text size overlap = Some chunks ->
  let tokens := len (split (clean_text text)) in
  len chunks
  = if tokens =? 0 then 0
    else 1 + Z.max 0 ((tokens - overlap - 1) / (size - overlap)).
Proof.
  intros Hs Hv Hrun tokens.
  destruct (chunker_shape _ _ _ _ _ Hs Hv Hrun) as (n & -> & H0 & H1 & Hbefore).
  unfold tokens. set (seq := split (clean_text text)) in *.
  unfold len at 1. rewrite length_map, length_seq.
  destruct seq as [|tok rest] eqn:Eseq.
  - rewrite (H0 eq_refl). reflexivity.
  - rewrite <- Eseq in *.
    assert (Hne : seq <> []) by (rewrite Eseq; discriminate).
    destruct (H1 Hne) as [Hn Hend].
    assert (Hpos : 0 < len seq) by (rewrite Eseq; unfold len; simpl; lia).
    destruct (Z.eqb_spec (len seq) 0) as [E0|_]; [lia|].
    set (d := size - overlap) in *. assert (Hd : 0 < d) by (unfold d; lia).
    set (L := len seq) in *.
    destruct (Nat.eq_dec n 1) as [->|Hn1].
    + simpl in Hend.
      assert ((L - overlap - 1) / d <= 0).
      { apply Z.lt_succ_r. apply Z.div_lt_upper_bound; unfold d; lia. }
      lia.
    + specialize (Hbefore (n - 2)%nat ltac:(lia)).
      assert (E : (L - overlap - 1) / d = Z.of_nat (n - 1)).
      { symmetry.
        apply Z.div_unique with (r := L - overlap - 1 - d * Z.of_nat (n - 1)).
        - left. replace (Z.of_nat (n - 1)) with (Z.of_nat (n - 2) + 1) by lia.
          fold L in Hbefore. unfold d in *. nia.
        - lia. }
      rewrite E. lia.
Qed.

End TextFacts.

(* ===================================================================== *)
(** * The extractor and the processing of an upload                       *)
(* ===================================================================== *)

Module PipelineFacts.
Import PyStr PyLib Exceptions Models Runtime Props.
Import Steps LibFacts Policy StoreFacts ErrorFacts.

(** ** The extractor *)

Lemma eqb_false (a b : pystr) : PyStr.eqb a b = false <-> a <> b.
Proof.
  rewrite <- eqb_eq. destruct (PyStr.eqb a b); split; congruence.
Qed.

Lemma load_document_raises env file_path content w e w' :
  Extractor.load_document env file_path content w = (Raise e, w') ->
  let ext := extension_of env file_path in
  (In ext [lit ".txt"; lit ".pdf"; lit ".docx"] ->
   exists msg, e = Exn FileProcessingError msg)
  /\ (~ In ext [lit ".txt"; lit ".pdf"; lit ".docx"] ->
      e = Exn FileTypeError (lit "Unsupported file type: " ++ ext)).
Proof.
  unfold Extractor.load_document, bind, emit, extension_of. cbn [fst snd].
  set (ext := str_lower env _).
  destruct (PyStr.eqb ext (lit ".txt")) eqn:E1;
    [|destruct (PyStr.eqb ext (lit ".pdf")) eqn:E2;
      [|destruct (PyStr.eqb ext (lit ".docx")) eqn:E3]].
  4:{ unfold raise. intros H. injection H as <- _.
      apply eqb_false in E1, E2, E3. split; [|reflexivity].
      intros [H|[H|[H|[]]]]; congruence. }
  all: unfold Extractor.extract_from_txt, Extractor.extract_from_pdf,
         Extractor.extract_from_docx, try_except, bind, lift_lib, ret, raise;
       try destruct (read_utf8 env content);
       try destruct (read_latin1 env content);
       try destruct (pdf_pages env content);
       try destruct (docx_paragraphs env content);
       intros H; try discriminate H; injection H as <- _;
       (split; [intros _; eexists; reflexivity|]);
       intros Hn; exfalso; apply Hn;
       first [ apply eqb_eq in E1 | apply eqb_eq in E2 | apply eqb_eq in E3 ];
       simpl; auto.
Qed.

Lemma load_document_raises_class env file_path content w e w' :
  Extractor.load_document env file_path content w = (Raise e, w') ->
  exists c msg, e = Exn c msg /\ (c = FileProcessingError \/ c = FileTypeError).
Proof.
  intros H. destruct (load_document_raises _ _ _ _ _ _ H) as [H1 H2].
  destruct (in_dec (list_eq_dec N.eq_dec) (extension_of env file_path)
              [lit ".txt"; lit ".pdf"; lit ".docx"]) as [Hin|Hout].
  - destruct (H1 Hin) as [msg ->]. eauto.
  - rewrite (H2 Hout). eauto.
Qed.

(** X6: [load_document] raises nothing but [FileTypeError], and that
    exactly for a path whose lowercased extension is not [.txt], [.pdf] or
    [.docx], and [FileProcessingError], for every failure of an extractor;
    it never raises the [ValueError] that [_process_document] has a
    handler for. *)
Theorem load_document_errors
    (env : Env) (file_path : pystr) (content : list byte) (w : World)
    (e : exn) (w' : World) :
  Extractor.load_document env file_path content w = (Raise e, w') ->
  let ext := extension_of env file_path in
  (In ext [lit ".txt"; lit ".pdf"; lit ".docx"] ->
   exists msg, e = Exn FileProcessingError msg)
  /\ (~ In ext [lit ".txt"; lit ".pdf"; lit ".docx"] ->
      e = Exn FileTypeError (lit "Unsupported file type: " ++ ext))
  /\ (forall msg, e <> Exn ValueError msg).
Proof.
  intros H ext. destruct (load_document_raises _ _ _ _ _ _ H) as [H1 H2].
  split; [exact H1|]. split; [exact H2|].
  destruct (load_document_raises_class _ _ _ _ _ _ H) as (c & m & -> & [->| ->]);
    intros msg; discriminate.
Qed.

(** X7: when the extractor fails on the temporary copy of the upload,
    whatever the failure, [_process_document] raises a
    [FileProcessingError] whose text is that of the failure behind
    "Failed to extract text from document: ": also for the
    [FileTypeError] of [load_document], which is not a [ValueError]. *)
Theorem process_document_wraps_extraction_errors
    (env : Env) (file : UploadFile) (filename : pystr) (w : World) (e : exn) :
  f_filename file = Some filename ->
  fst (Extractor.load_document env
         (temp_prefix env
          ++ snd (splitext (os_sep env) (os_altsep env) filename))
         (f_content file) w) = Raise e ->
  fst (DocumentService._process_document env file w)
  = Raise (Exn FileProcessingError
             (lit "Failed to extract text from document: " ++ str_of e)).
Proof.
  intros Hname Hload. unfold DocumentService._process_document.
  rewrite Hname.
  set (path := temp_prefix env
               ++ snd (splitext (os_sep env) (os_altsep env) filename)) in *.
  unfold try_finally, try_except at 1.
  unfold bind at 1 2 3. unfold ret at 1, emit at 1 2. cbn beta iota.
  set (w0 := {| collection := _ |}).
  unfold bind at 1. unfold try_except at 1.
  rewrite (load_document_fst env path (f_content file) w w0) in Hload.
  destruct (Extractor.load_document env path (f_content file) w0)
    as [[text|e0|] w4] eqn:E; cbn [fst] in Hload; try discriminate Hload.
  injection Hload as ->.
  destruct (load_document_raises_class _ _ _ _ _ _ E)
    as (c & msg & -> & [->| ->]);
    destruct (truthy path); reflexivity.
Qed.

End PipelineFacts.

(* ===================================================================== *)
(** * The text of an upload                                               *)
(* ===================================================================== *)

Module ProcessFacts.
Import PyStr PyLib Chunker Exceptions Models Runtime Props MoreProps.
Import PyStrFacts CleanTextFacts ChunkerFacts TextFacts.
Import Steps LibFacts Policy StoreFacts ErrorFacts.

Local Open Scope Z_scope.

(** The filter on blank chunks keeps every chunk of [chunker]. *)
Lemma chunks_not_blank fuel text s v chunks :
  0 < s -> 0 <= v < s ->
  chunker fuel text s v = Some chunks ->
  filter (fun chunk => truthy (strip chunk)) chunks = chunks.
Proof.
  intros Hs Hv Hrun. apply forallb_filter_id, forallb_forall.
  intros chunk Hin.
  destruct (chunker_chunk _ _ _ _ _ _ Hs Hv Hrun Hin)
    as (w & -> & Hne & Htok & _ & _).
  rewrite strip_id
    by (apply join_starts_clean || apply join_ends_clean; exact Htok).
  pose proof (join_nonempty [SPACE] w Htok Hne) as Hj.
  destruct (join [SPACE] w); [congruence|reflexivity].
Qed.

(** The outcome of [_process_document] on a file whose text the
    extractor returns. *)
Lemma process_document_text env file filename w text :
  f_filename file = Some filename ->
  fst (Extractor.load_document env
         (temp_prefix env
          ++ snd (splitext (os_sep env) (os_altsep env) filename))
         (f_content file) w) = Return text ->
  fst (DocumentService._process_document env file w)
  = if negb (truthy (strip text))
    then Raise (Exn EmptyDocumentError
                  (lit "Document appears to be empty or text could not be extracted"))
    else
      match chunker (S (length (split (clean_text text)))) text
                    (CHUNK_SIZE env) (OVERLAP env) with
      | None => Hang
      | Some [] =>
          Raise (Exn ChunkingError
                   (lit "No chunks could be created from the document"))
      | Some chunks =>
          match filter (fun chunk => truthy (strip chunk)) chunks with
          | [] => Raise (Exn EmptyDocumentError
                           (lit "No valid text chunks found in document"))
          | chunk_texts =>
              match encode_batch env chunk_texts with
              | Ok embeddings => Return (combine chunk_texts embeddings)
              | Fails msg =>
                  Raise (Exn EmbeddingError
                           (lit "Failed to generate embeddings: " ++ msg))
              end
          end
      end.
Proof.
  intros Hname Hload.
  unfold DocumentService._process_document. rewrite Hname.
  set (path := temp_prefix env
               ++ snd (splitext (os_sep env) (os_altsep env) filename)) in *.
  unfold try_finally, try_except at 1.
  unfold bind at 1 2 3. unfold ret at 1, emit at 1 2. cbn beta iota.
  set (w0 := {| collection := _ |}).
  unfold bind at 1. unfold try_except at 1.
  rewrite (load_document_fst env path (f_content file) w w0) in Hload.
  destruct (Extractor.load_document env path (f_content file) w0)
    as [[text'|e0|] w4] eqn:E; cbn [fst] in Hload; try discriminate Hload.
  injection Hload as ->.
  destruct (truthy (strip text)) eqn:Eblank; cbn [negb].
  2:{ unfold raise. cbn. destruct (truthy path); reflexivity. }
  unfold bind at 1. unfold try_except at 1.
  unfold DocumentService.run_chunker.
  destruct (chunker _ text (CHUNK_SIZE env) (OVERLAP env)) as [chunks|].
  2:{ reflexivity. }
  unfold ret at 1.
  destruct chunks as [|c0 chunks0] eqn:Ec.
  { unfold raise. cbn. destruct (truthy path); reflexivity. }
  cbv iota. rewrite <- Ec.
  destruct (filter (fun chunk => truthy (strip chunk)) chunks)
    as [|t0 texts0] eqn:Et.
  { unfold raise. cbn. destruct (truthy path); reflexivity. }
  rewrite <- Et.
  unfold bind at 1. unfold try_except at 1.
  unfold EmbeddingClient.embed_batch, bind, emit. cbn beta iota.
  destruct (encode_batch env _) as [embeddings|msg];
    unfold lift_lib, ret, raise; cbn; destruct (truthy path); reflexivity.
Qed.

(** X8: what [_process_document] does with the text of the upload, for a
    chunk size and an overlap with [0 <= overlap < size].  A blank text
    is an [EmptyDocumentError]; a text that is not blank and has no
    visible ASCII character (letters with accents only, say) is the
    [ChunkingError] "No chunks could be created from the document"; for
    every other text the chunker ends with at least one chunk, every
    chunk is sent to the embedding model (the filter on blank chunks
    removes none, so "No valid text chunks found in document" is never
    raised), and the result pairs the chunks with the embeddings that
    came back, or is the [EmbeddingError] of the model's failure. *)
Theorem process_document_by_text
    (env : Env) (file : UploadFile) (filename : pystr) (w : World)
    (text : pystr) :
  f_filename file = Some filename ->
  fst (Extractor.load_document env
         (temp_prefix env
          ++ snd (splitext (os_sep env) (os_altsep env) filename))
         (f_content file) w) = Return text ->
  0 < CHUNK_SIZE env -> 0 <= OVERLAP env < CHUNK_SIZE env ->
  let r := fst (DocumentService._process_document env file w) in
  if negb (truthy (strip text))
  then r = Raise (Exn EmptyDocumentError
                    (lit "Document appears to be empty or text could not be extracted"))
  else
    match chunker (S (length (split (clean_text text)))) text
                  (CHUNK_SIZE env) (OVERLAP env) with
    | None => False
    | Some [] =>
        Forall (fun c => visible c = false) text
        /\ r = Raise (Exn ChunkingError
                        (lit "No chunks could be created from the document"))
    | Some chunks =>
        ~ Forall (fun c => visible c = false) text
        /\ r = match encode_batch env chunks with
               | Ok embeddings => Return (combine chunks embeddings)
               | Fails msg =>
                   Raise (Exn EmbeddingError
                            (lit "Failed to generate embeddings: " ++ msg))
               end
    end.
Proof.
  intros Hname Hload Hs Hv r. subst r.
  rewrite (process_document_text _ _ _ _ _ Hname Hload).
  destruct (negb (truthy (strip text))); [reflexivity|].
  set (fuel := S (length (split (clean_text text)))).
  destruct (chunker_loop_terminates (split (clean_text text))
              (CHUNK_SIZE env) (OVERLAP env) ltac:(lia)
              fuel 0 []) as [chunks Hrun].
  1,2: unfold fuel, len; lia.
  change (chunker fuel text (CHUNK_SIZE env) (OVERLAP env) = Some chunks)
    in Hrun.
  assert (Hnil : chunker fuel text (CHUNK_SIZE env) (OVERLAP env) = Some []
                 <-> Forall (fun c => visible c = false) text).
  { rewrite <- split_nil_iff. unfold chunker.
    apply chunker_loop_nil. unfold fuel. lia. }
  pose proof (chunks_not_blank _ _ _ _ _ Hs Hv Hrun) as Hkeep.
  rewrite Hrun. destruct chunks as [|c0 chunks0].
  { split; [apply Hnil; exact Hrun|reflexivity]. }
  split.
  { intros Hall. apply Hnil in Hall. rewrite Hrun in Hall.
    discriminate Hall. }
  rewrite Hkeep. reflexivity.
Qed.

End ProcessFacts.

(* ===================================================================== *)
(** * Documents: upload, lookup, deletion, search                         *)
(* ===================================================================== *)

Module DocumentFacts.
Import PyStr PyLib Exceptions Models Runtime Props MoreProps.
Import Steps LibFacts Policy StoreFacts ErrorFacts.

(** ** Uploads *)

Lemma upload_unsupported env file user_id w :
  unsupported env file ->
  exists msg,
    DocumentService.upload_document env file user_id w
    = (Raise (Exn FileTypeError msg), w).
Proof.
  unfold unsupported, DocumentService.upload_document.
  destruct (f_filename file) as [filename|]; [|eexists; reflexivity].
  destruct filename as [|c name]; [eexists; reflexivity|].
  intros [H|H]; [discriminate|]. cbn [truthy negb].
  fold (extension_of env (c :: name)).
  destruct (DocumentService.str_in _ DocumentService.supported_types) eqn:E.
  - apply str_in_In in E. contradiction.
  - eexists. reflexivity.
Qed.

Lemma upload_supported_raises env file user_id w e w' :
  ~ unsupported env file ->
  DocumentService.upload_document env file user_id w = (Raise e, w') ->
  exists c msg,
    e = Exn c msg
    /\ (c = VectorCollectionError \/ c = PointError
        \/ c = DocumentRepositoryError).
Proof.
  unfold unsupported, DocumentService.upload_document.
  destruct (f_filename file) as [filename|]; [|tauto].
  destruct filename as [|ch name]; [tauto|]. cbn [truthy negb].
  fold (extension_of env (ch :: name)).
  destruct (DocumentService.str_in _ DocumentService.supported_types) eqn:E.
  2:{ intros H. exfalso. apply H. right. intros Hin.
      apply str_in_In in Hin. unfold DocumentService.supported_types in E.
      congruence. }
  intros _. cbn [negb]. unfold try_except.
  match goal with
  | |- context [match ?m w with _ => _ end] =>
      destruct (m w) as [[a|e0|] w0]
  end; try discriminate.
  destruct e0 as [[] msg|status detail]; unfold raise;
    intros H; injection H as <- _; eauto 7.
Qed.

(** X9: the upload endpoint answers 400 exactly for a file that is not
    taken (no name, or an extension other than [.txt], [.pdf], [.docx]):
    every other failure of an upload, also an empty document, is answered
    with 500.  It answers with no other status than 200, 400 and 500, and
    lets no exception through that is not an [HTTPException]. *)
Theorem upload_answers_400_iff_unsupported
    (env : Env) (file : UploadFile) (user : DocumentController.CurrentUser)
    (w : World) :
  let r := fst (DocumentController.upload_document env file user w) in
  (DocumentController.status_code_of r = Some 400%Z <-> unsupported env file)
  /\ (forall status,
        DocumentController.status_code_of r = Some status ->
        In status [200; 400; 500]%Z)
  /\ (forall e, r = Raise e -> exists status detail,
                                 e = HTTPException status detail).
Proof.
  intros r.
  assert (Hcases :
            (unsupported env file /\ exists msg, r = Raise (HTTPException 400 msg))
            \/ (~ unsupported env file
                /\ ((exists a, r = Return a) \/ r = Hang
                    \/ exists msg, r = Raise (HTTPException 500 msg)))).
  { unfold r, DocumentController.upload_document, try_except.
    assert (Hdec : unsupported env file \/ ~ unsupported env file).
    { unfold unsupported. destruct (f_filename file) as [[|c n]|]; auto.
      destruct (in_dec (list_eq_dec N.eq_dec) (extension_of env (c :: n))
                  [lit ".txt"; lit ".pdf"; lit ".docx"]); [right|left; auto].
      intros [H|H]; [discriminate|contradiction]. }
    destruct Hdec as [Hu|Hs].
    - left. split; [exact Hu|].
      destruct (upload_unsupported env file
                  (DocumentController.cu_user_id user) w Hu) as [msg ->].
      eexists. reflexivity.
    - right. split; [exact Hs|].
      pose proof (upload_supported_raises env file
                    (DocumentController.cu_user_id user) w) as Hr.
      destruct (DocumentService.upload_document env file
                  (DocumentController.cu_user_id user) w) as [[a|e|] w0].
      + left. eexists. reflexivity.
      + right. right.
        destruct (Hr e w0 Hs eq_refl) as (c & msg & -> & [->|[->| ->]]);
          eexists; reflexivity.
      + right. left. reflexivity. }
  destruct Hcases as [[Hu [msg ->]]|[Hs [[a ->]|[->|[msg ->]]]]]; cbn.
  all: split; [split; [intros H; try discriminate H; try exact Hu
                      |intros H; try reflexivity; contradiction]|].
  all: split; [intros status H; try discriminate H; injection H as <-;
               simpl; auto
              |intros e H; try discriminate H; injection H as <-; eauto].
Qed.


(** ** Lookup and deletion *)

Lemma replay_read_only evs : forall c,
  Forall read_only evs -> stored (replay evs c) = stored c.
Proof.
  induction evs as [|ev evs IH]; intros c H; [reflexivity|].
  inversion H as [|? ? Hev Hevs]; subst. rewrite replay_cons, IH by exact Hevs.
  destruct ev, c as [c|]; simpl in *; try reflexivity; contradiction.
Qed.

Lemma get_points_stored env doc_id user_id w :
  stored (collection
            (snd (VectorRepository.get_points_by_doc_id env doc_id user_id w)))
  = stored (collection w).
Proof.
  destruct (@follows_get_points read_only env
              ltac:(intros ev; destruct ev; simpl; easy)
              doc_id user_id I w) as (evs & _ & F & C).
  rewrite C. apply replay_read_only, F.
Qed.

Lemma matches_chunk_of doc_id (user_id : pystr) pt :
  user_id <> [] ->
  (Qdrant.matches (Some (VectorRepository.doc_filter doc_id (Some user_id))) pt
   = true
   <-> chunk_of doc_id user_id pt).
Proof.
  intros Hu. unfold chunk_of. split.
  - intros Hm. split; [eapply matches_doc_filter; exact Hm|].
    eapply matches_owner; [|exact Hm]. apply doc_filter_scoped, Hu.
  - intros [Hd Hown]. unfold VectorRepository.doc_filter,
      VectorRepository.user_given.
    destruct user_id as [|c u]; [congruence|]. cbn [truthy Qdrant.matches must].
    cbn [app forallb]. unfold Qdrant.condition_holds. cbn [key match_value].
    rewrite payload_get_doc_id, payload_get_user_id, Hd, Hown, !eqb_refl.
    reflexivity.
Qed.

Lemma filter_filter_negb {A : Type} (f : A -> bool) (l : list A) :
  filter f (filter (fun x => negb (f x)) l) = [].
Proof.
  apply filter_none. intros x Hx. apply filter_In in Hx.
  destruct Hx as [_ Hx]. destruct (f x); [discriminate|reflexivity].
Qed.

(** X10: in a world where the repository's belief about the collection is
    right, when no stored chunk has both the document id and the id of
    the requesting user, [get_user_document] raises
    [DocumentNotFoundError] and the endpoint answers 404: the document of
    another user cannot be told from one that is not there.  Nothing is
    written to the store. *)
Theorem get_unowned_document_not_found
    (env : Env) (doc_id : pystr) (user : DocumentController.CurrentUser)
    (w : World) :
  world_ok w ->
  (forall pt, In pt (stored (collection w)) ->
     ~ chunk_of doc_id (DocumentController.cu_user_id user) pt) ->
  let msg := lit "Document " ++ doc_id ++ lit " not found" in
  exists w',
    DocumentService.get_user_document env doc_id
      (DocumentController.cu_user_id user) w
    = (Raise (Exn DocumentNotFoundError msg), w')
    /\ DocumentController.get_document env doc_id user w
       = (Raise (HTTPException 404 msg), w')
    /\ stored (collection w') = stored (collection w).
Proof.
  intros Hok Hnone msg. pose proof (user_id_given user) as Hu.
  set (uid := DocumentController.cu_user_id user) in *.
  destruct (get_points_value env doc_id (Some uid) w Hok) as (w' & E).
  rewrite filter_none in E.
  2:{ intros pt Hpt. destruct (Qdrant.matches _ pt) eqn:Em; [|reflexivity].
      exfalso. apply (Hnone pt Hpt). apply matches_chunk_of; assumption. }
  simpl in E.
  assert (Hs : DocumentService.get_user_document env doc_id uid w
               = (Raise (Exn DocumentNotFoundError msg), w')).
  { unfold DocumentService.get_user_document, try_except, bind.
    rewrite E. reflexivity. }
  exists w'. split; [exact Hs|]. split.
  - unfold DocumentController.get_document, try_except, bind. fold uid.
    rewrite Hs. reflexivity.
  - pose proof (follows_get_user_document env doc_id uid Hu w) as Hf.
    rewrite Hs in Hf. cbn [snd] in Hf. destruct Hf as (evs & _ & F & C).
    rewrite C. eapply replay_reads. exact F.
Qed.

(** What a deletion by document id that returns leaves in the store. *)
Lemma delete_points_by_doc_id_value env doc_id user_id w w' :
  VectorRepository.delete_points_by_doc_id env doc_id user_id w
  = (Return tt, w') ->
  collection w' <> None
  /\ stored (collection w')
     = filter (fun pt => negb (Qdrant.matches
                 (Some (VectorRepository.doc_filter doc_id user_id)) pt))
              (stored (collection w)).
Proof.
  unfold VectorRepository.delete_points_by_doc_id, bind.
  destruct (VectorRepository._ensure_collection_exists env w)
    as [[[]|e|] w1] eqn:E1; try discriminate.
  rewrite <- (ensure_stored _ _ _ _ E1).
  unfold try_except at 1, VectorRepository.delete_points, bind.
  destruct (VectorRepository._ensure_collection_exists env w1)
    as [[[]|e|] w2] eqn:E2; try discriminate.
  rewrite <- (ensure_stored _ _ _ _ E2).
  unfold try_except, Qdrant.delete, bind, emit, get_collection, put_collection.
  cbn [fst snd collection].
  destruct (collection w2) as [c|]; [|discriminate].
  intros H. injection H as <-. cbn. split; [discriminate|reflexivity].
Qed.

Lemma delete_user_document_value env doc_id user_id w msg w' :
  DocumentService.delete_user_document env doc_id user_id w = (Return msg, w') ->
  collection w' <> None
  /\ stored (collection w')
     = filter (fun pt => negb (Qdrant.matches
                 (Some (VectorRepository.doc_filter doc_id (Some user_id))) pt))
              (stored (collection w))
  /\ exists pt, In pt (stored (collection w))
                /\ Qdrant.matches
                     (Some (VectorRepository.doc_filter doc_id (Some user_id)))
                     pt = true.
Proof.
  unfold DocumentService.delete_user_document, try_except, bind.
  destruct (VectorRepository.get_points_by_doc_id env doc_id (Some user_id) w)
    as [[chunks|e|] w1] eqn:E1.
  2:{ destruct e as [[] ?|]; discriminate. }
  2:{ discriminate. }
  assert (Hst : stored (collection w1) = stored (collection w)).
  { pose proof (get_points_stored env doc_id (Some user_id) w) as Hst.
    rewrite E1 in Hst. exact Hst. }
  intros H.
  assert (Hne : chunks <> []) by (intros ->; discriminate H).
  destruct chunks as [|chunk rest]; [congruence|].
  destruct (VectorRepository.delete_points_by_doc_id env doc_id
              (Some user_id) w1) as [[[]|e|] w2] eqn:E2.
  2:{ destruct e as [[] ?|]; discriminate. }
  2:{ discriminate. }
  unfold ret in H. injection H as _ <-.
  destruct (delete_points_by_doc_id_value _ _ _ _ _ E2) as [Hc Hs].
  rewrite Hst in Hs. split; [exact Hc|]. split; [exact Hs|].
  destruct (get_points_returned _ _ _ _ _ _ E1 chunk (or_introl eq_refl))
    as (pt & Hpt & Hm & _).
  exists pt. auto.
Qed.

(** X11: a deletion that returns has removed the chunks of that document
    of that user, all of them (the lookup before it fetches 1000 at most,
    the deletion has no such bound), and nothing else: the other points
    are left in their order.  There was such a chunk. *)
Theorem delete_removes_the_document
    (env : Env) (doc_id : pystr) (user : DocumentController.CurrentUser)
    (w : World) (msg : pystr) (w' : World) :
  let user_id := DocumentController.cu_user_id user in
  let selected :=
    Qdrant.matches (Some (VectorRepository.doc_filter doc_id (Some user_id))) in
  DocumentService.delete_user_document env doc_id user_id w = (Return msg, w') ->
  stored (collection w')
  = filter (fun pt => negb (selected pt)) (stored (collection w))
  /\ (forall pt, selected pt = true <-> chunk_of doc_id user_id pt)
  /\ (forall pt, In pt (stored (collection w')) <->
                   In pt (stored (collection w))
                   /\ ~ chunk_of doc_id user_id pt)
  /\ (exists pt, In pt (stored (collection w)) /\ chunk_of doc_id user_id pt)
  /\ msg = lit "Document " ++ doc_id ++ lit " deleted successfully".
Proof.
  intros user_id selected H. pose proof (user_id_given user) as Hu.
  fold user_id in Hu.
  destruct (delete_user_document_value _ _ _ _ _ _ H) as (_ & Hs & pt & Hpt & Hm).
  split; [exact Hs|].
  split; [intros q; apply matches_chunk_of, Hu|].
  split; [|split].
  - intros q. rewrite Hs, filter_In, negb_true_iff.
    rewrite <- (matches_chunk_of doc_id user_id q Hu). fold (selected q).
    destruct (selected q); split; intros [H1 H2]; split;
      congruence || auto.
  - exists pt. split; [exact Hpt|]. apply matches_chunk_of; assumption.
  - unfold DocumentService.delete_user_document, try_except, bind in H.
    destruct (VectorRepository.get_points_by_doc_id env doc_id
                (Some user_id) w) as [[[|c r]|e|] w1]; try discriminate H.
    + destruct (VectorRepository.delete_points_by_doc_id env doc_id
                  (Some user_id) w1) as [[[]|e|] w2]; try discriminate H.
      * unfold ret in H. injection H as <- _. reflexivity.
      * destruct e as [[] ?|]; discriminate H.
    + destruct e as [[] ?|]; discriminate H.
Qed.

(** X12: after a deletion that returned, the document is gone for its
    user: looking it up raises [DocumentNotFoundError], and so does
    deleting it once more, which the endpoint answers with 404. *)
Theorem delete_then_not_found
    (env : Env) (doc_id : pystr) (user : DocumentController.CurrentUser)
    (w : World) (msg : pystr) (w' : World) :
  let user_id := DocumentController.cu_user_id user in
  DocumentService.delete_user_document env doc_id user_id w = (Return msg, w') ->
  let gone := lit "Document " ++ doc_id ++ lit " not found" in
  (exists w'', DocumentService.get_user_document env doc_id user_id w'
               = (Raise (Exn DocumentNotFoundError gone), w''))
  /\ (exists w'', DocumentService.delete_user_document env doc_id user_id w'
                  = (Raise (Exn DocumentNotFoundError gone), w'')
                  /\ DocumentController.delete_document env doc_id user w'
                     = (Raise (HTTPException 404 gone), w'')
                  /\ stored (collection w'') = stored (collection w')).
Proof.
  intros user_id H gone.
  destruct (delete_user_document_value _ _ _ _ _ _ H) as (Hc & Hs & _).
  assert (Hok : world_ok w') by (intros _; exact Hc).
  destruct (get_points_value env doc_id (Some user_id) w' Hok) as (w'' & E).
  rewrite Hs, filter_filter_negb in E. simpl in E.
  split.
  - exists w''. unfold DocumentService.get_user_document, try_except, bind.
    rewrite E. reflexivity.
  - exists w''.
    assert (Hd : DocumentService.delete_user_document env doc_id user_id w'
                 = (Raise (Exn DocumentNotFoundError gone), w'')).
    { unfold DocumentService.delete_user_document, try_except, bind.
      rewrite E. reflexivity. }
    split; [exact Hd|]. split.
    + unfold DocumentController.delete_document, try_except.
      fold user_id. rewrite Hd. reflexivity.
    + pose proof (get_points_stored env doc_id (Some user_id) w') as Hst.
      rewrite E in Hst. exact Hst.
Qed.


(** ** Search results *)

Lemma search_hits_complete results : forall w,
  first_missing_key results = None ->
  DocumentService.search_hits results w
  = (Return (flat_map (fun r => match hit_of r with
                                | Some h => [h]
                                | None => []
                                end) results), w).
Proof.
  induction results as [|result rest IH]; intros w; [reflexivity|].
  cbn [first_missing_key DocumentService.search_hits flat_map].
  unfold missing_key, hit_of, bind, DocumentService.subscript.
  destruct (p_doc_id (sp_payload result)); [|discriminate].
  destruct (p_chunk_text (sp_payload result)); [|discriminate].
  destruct (p_chunk_index (sp_payload result)); [|discriminate].
  intros H. unfold ret at 1 2 3. rewrite (IH w H). reflexivity.
Qed.

Lemma search_hits_incomplete results : forall w k,
  first_missing_key results = Some k ->
  DocumentService.search_hits results w
  = (Raise (Exn KeyError (lit "'" ++ k ++ lit "'")), w).
Proof.
  induction results as [|result rest IH]; intros w k; [discriminate|].
  cbn [first_missing_key DocumentService.search_hits].
  unfold missing_key, bind, DocumentService.subscript.
  destruct (p_doc_id (sp_payload result));
    [|intros H; injection H as <-; reflexivity].
  destruct (p_chunk_text (sp_payload result));
    [|intros H; injection H as <-; reflexivity].
  destruct (p_chunk_index (sp_payload result));
    [|intros H; injection H as <-; reflexivity].
  intros H. unfold ret at 1 2 3. rewrite (IH w k H). reflexivity.
Qed.

(** X13: the list of a search is made of all the results or of none.
    When every result has the keys ["doc_id"], ["chunk_text"] and
    ["chunk_index"], each gives its entry, in the order of the results,
    with "Unknown" for a missing file name; when one lacks a key, the
    [KeyError] of the first missing key ends the search, which
    [search_user_documents] raises as a [DocumentRepositoryError]. *)
Theorem search_hits_all_or_none (results : list ScoredPoint) (w : World) :
  match first_missing_key results with
  | None =>
      exists hits,
        DocumentService.search_hits results w = (Return hits, w)
        /\ map Some hits = map hit_of results
  | Some k =>
      DocumentService.search_hits results w
      = (Raise (Exn KeyError (lit "'" ++ k ++ lit "'")), w)
      /\ In k [lit "doc_id"; lit "chunk_text"; lit "chunk_index"]
      /\ forall env query top_k user_id w0 query_embedding w1,
           truthy (strip query) = true ->
           EmbeddingClient.embed env query w0 = (Return query_embedding, w1) ->
           VectorRepository.search env query_embedding top_k
             (Some (DocumentService.user_filter user_id)) w1
           = (Return results, w) ->
           DocumentService.search_user_documents env query top_k user_id w0
           = (Raise (Exn DocumentRepositoryError
                       (lit "Failed to search documents: "
                        ++ lit "'" ++ k ++ lit "'")), w)
  end.
Proof.
  destruct (first_missing_key results) as [k|] eqn:E.
  - split; [apply search_hits_incomplete, E|]. split.
    + clear w. induction results as [|result rest IH]; [discriminate|].
      cbn [first_missing_key] in E. unfold missing_key in E.
      destruct (p_doc_id (sp_payload result));
        [|injection E as <-; simpl; auto].
      destruct (p_chunk_text (sp_payload result));
        [|injection E as <-; simpl; auto].
      destruct (p_chunk_index (sp_payload result));
        [|injection E as <-; simpl; auto].
      apply IH, E.
    + intros env query top_k user_id w0 qe w1 Hq He Hs.
      unfold DocumentService.search_user_documents. rewrite Hq. cbn [negb].
      unfold try_except, bind. rewrite He, Hs.
      rewrite (search_hits_incomplete results w k E). reflexivity.
  - eexists. split; [apply search_hits_complete, E|].
    clear w. induction results as [|result rest IH]; [reflexivity|].
    cbn [first_missing_key] in E. unfold missing_key in E.
    cbn [flat_map map]. unfold hit_of at 1 3.
    destruct (p_doc_id (sp_payload result)); [|discriminate].
    destruct (p_chunk_text (sp_payload result)); [|discriminate].
    destruct (p_chunk_index (sp_payload result)); [|discriminate].
    cbn [app map]. f_equal. apply IH, E.
Qed.

(** ** The collection *)

(** X14: [initialize_collection] does what [_ensure_collection_exists]
    does, and that is done once.  In a world where the repository's
    belief is right it returns; afterwards the collection is there and
    marked ready, a collection that was there is the same, one that was
    not is empty and has the vector size [VECTOR_SIZE]; and a second call
    asks nothing of the vector store. *)
Theorem initialize_collection_once (env : Env) (w : World) :
  world_ok w ->
  VectorRepository.initialize_collection env w
  = VectorRepository._ensure_collection_exists env w
  /\ exists w1,
       VectorRepository.initialize_collection env w = (Return tt, w1)
       /\ collection_ready w1 = true
       /\ collection w1
          = Some (match collection w with
                  | Some c => c
                  | None => {| vectors_size := VECTOR_SIZE env; points := [] |}
                  end)
       /\ VectorRepository.initialize_collection env w1 = (Return tt, w1).
Proof.
  intros Hok. destruct w as [c ready l]. unfold world_ok in Hok. simpl in Hok.
  destruct ready.
  - split; [reflexivity|]. eexists. split; [reflexivity|].
    destruct c as [c|]; [|exfalso; apply Hok; reflexivity].
    repeat split; reflexivity.
  - destruct c as [c|]; (split; [reflexivity|]); eexists;
      (split; [reflexivity|]); repeat split; reflexivity.
Qed.

End DocumentFacts.

(* ===================================================================== *)
(** * Upload and read back                                                *)
(* ===================================================================== *)

Module RoundTrip.
Import PyStr PyLib Exceptions Models Runtime Props MoreProps.
Import Steps LibFacts Policy StoreFacts ErrorFacts.

Lemma replay_local evs : forall c, Forall local evs -> replay evs c = c.
Proof.
  induction evs as [|ev evs IH]; intros c H; [reflexivity|].
  inversion H as [|? ? Hev Hevs]; subst.
  rewrite replay_cons, (inert_local ev Hev). apply IH, Hevs.
Qed.

Lemma process_document_collection env file w :
  collection (snd (DocumentService._process_document env file w))
  = collection w.
Proof.
  destruct (@follows_process_document local env (fun ev H => H) file w)
    as (evs & _ & F & C).
  rewrite C. apply replay_local, F.
Qed.

(** When [upload_document] returns: what was processed, what was saved,
    and what is returned. *)
Lemma upload_returns env file user_id w r w' :
  DocumentService.upload_document env file user_id w = (Return r, w') ->
  exists filename chunks_data w1 pts,
    f_filename file = Some filename
    /\ DocumentService._process_document env file w = (Return chunks_data, w1)
    /\ owned_points env user_id filename (extension_of env filename)
                    chunks_data pts
    /\ VectorRepository.save_points env pts w1 = (Return tt, w')
    /\ r = {| u_doc_id := uuid4 env;
              u_filename := filename;
              u_file_type := extension_of env filename;
              u_chunks_count := len chunks_data;
              u_message := lit "Document uploaded successfully" |}.
Proof.
  unfold DocumentService.upload_document.
  destruct (f_filename file) as [filename|]; [|discriminate].
  destruct (truthy filename); [|discriminate]. cbn [negb].
  fold (extension_of env filename).
  destruct (DocumentService.str_in _ _); [|discriminate]. cbn [negb].
  unfold try_except, bind.
  destruct (DocumentService._process_document env file w)
    as [[chunks_data|e|] w1] eqn:E1.
  2:{ destruct e as [[] ?|]; discriminate. }
  2:{ discriminate. }
  fold (metadata_of env user_id filename (extension_of env filename)
                    (len chunks_data)).
  intros Hret.
  match type of Hret with
  | context [VectorRepository.save_points env ?pts w1] =>
      destruct (VectorRepository.save_points env pts w1)
        as [[[]|e|] w2] eqn:E2; [exists filename, chunks_data, w1, pts | |]
  end.
  - unfold ret in Hret. injection Hret as <- <-.
    split; [reflexivity|]. split; [reflexivity|].
    split; [apply points_are_owned|]. split; [exact E2|reflexivity].
  - destruct e as [[] ?|]; discriminate.
  - discriminate.
Qed.

Lemma upsert_all_distinct pts : forall l,
  NoDup (map id pts) ->
  fold_left Qdrant.upsert_point pts l
  = filter (fun q => negb (id_in (map id pts) q)) l ++ pts.
Proof.
  induction pts as [|p ps IH]; intros l Hnd.
  - simpl. rewrite app_nil_r. symmetry. apply forallb_filter_id.
    apply forallb_forall. intros q _. reflexivity.
  - inversion Hnd as [|? ? Hp Hps]; subst. cbn [fold_left].
    rewrite IH by exact Hps. unfold Qdrant.upsert_point.
    rewrite filter_app. cbn [filter].
    assert (Hkeep : id_in (map id ps) p = false).
    { unfold id_in. apply not_true_iff_false. intros H.
      apply existsb_exists in H. destruct H as (x & Hx & E).
      apply eqb_eq in E. rewrite E in Hp. contradiction. }
    rewrite Hkeep. cbn [negb]. rewrite <- app_assoc. cbn [app]. f_equal.
    clear. induction l as [|q l IH]; [reflexivity|]. cbn [filter map id_in existsb].
    unfold id_in in *. cbn [map existsb].
    destruct (PyStr.eqb (id q) (id p)); cbn [negb orb filter].
    + exact IH.
    + destruct (existsb (PyStr.eqb (id q)) (map id ps)); cbn [negb];
        rewrite IH; reflexivity.
Qed.

(** ** Sorting a list that is in order *)

Lemma sorted_in_order {A : Type} (key : A -> Z) (l : list A) :
  StronglySorted (key_le key) l -> sorted key l = l.
Proof.
  unfold sorted. induction 1 as [|x t Ht IH Hx]; [reflexivity|].
  cbn [sort_by fold_right]. fold (sort_by (fun a b => (key a <=? key b)%Z) t).
  rewrite IH. destruct t as [|y t]; [reflexivity|]. cbn [insert_by].
  inversion Hx as [|? ? Hxy _]; subst. unfold key_le in Hxy.
  apply Z.leb_le in Hxy. rewrite Hxy. reflexivity.
Qed.

Lemma strongly_sorted_nth {A : Type} (R : A -> A -> Prop) (l : list A) :
  (forall i j a b, (i < j)%nat -> nth_error l i = Some a ->
                   nth_error l j = Some b -> R a b) ->
  StronglySorted R l.
Proof.
  induction l as [|x t IH]; intros H; constructor.
  - apply IH. intros i j a b Hij Ha Hb. apply (H (S i) (S j)); auto. lia.
  - rewrite Forall_forall. intros y Hy. apply In_nth_error in Hy.
    destruct Hy as [j Hj]. apply (H 0%nat (S j)); auto. lia.
Qed.


Lemma owned_points_length env user_id filename ext chunks_data pts :
  owned_points env user_id filename ext chunks_data pts ->
  length pts = length chunks_data.
Proof.
  intros H.
  destruct (Nat.lt_trichotomy (length pts) (length chunks_data))
    as [Hlt|[Heq|Hgt]]; [|exact Heq|].
  - specialize (H (length pts)).
    rewrite (proj2 (nth_error_None pts (length pts)) (Nat.le_refl _)) in H.
    destruct (nth_error chunks_data (length pts)) eqn:E; [discriminate|].
    apply nth_error_None in E. lia.
  - specialize (H (length chunks_data)).
    rewrite (proj2 (nth_error_None chunks_data _) (Nat.le_refl _)) in H.
    apply nth_error_None in H. lia.
Qed.

Lemma owned_points_nth env user_id filename ext chunks_data pts i pt :
  owned_points env user_id filename ext chunks_data pts ->
  nth_error pts i = Some pt ->
  exists chunk,
    nth_error chunks_data i = Some chunk
    /\ pt = chunk_point env user_id filename ext (len chunks_data) i chunk.
Proof.
  intros H Hi. rewrite H in Hi.
  destruct (nth_error chunks_data i) as [chunk|]; [|discriminate].
  injection Hi as <-. eauto.
Qed.

(** X15: what is uploaded is what is read back.  After an upload that
    returned, with a document id that was not in the store, point ids
    that differ from chunk to chunk, and between 1 and 1000 chunks,
    [get_user_document] for the returned document id and the same user
    returns the metadata of the upload and the payloads of its chunks, in
    the order of the chunks; and the endpoint answers with the document
    id, the name, the extension and the number of chunks that the upload
    answered with. *)
Theorem upload_then_get
    (env : Env) (file : UploadFile) (user : DocumentController.CurrentUser)
    (w : World) (r : UploadResult) (w' : World) :
  let user_id := DocumentController.cu_user_id user in
  let point_id := fun i : nat =>
    uuid5 env (uuid4 env) (str_of_int env (Z.of_nat i)) in
  DocumentService.upload_document env file user_id w = (Return r, w') ->
  (forall pt, In pt (stored (collection w)) ->
     p_doc_id (payload pt) <> Some (uuid4 env)) ->
  (forall i j, (Z.of_nat i < u_chunks_count r)%Z ->
               (Z.of_nat j < u_chunks_count r)%Z ->
               point_id i = point_id j -> i = j) ->
  (0 < u_chunks_count r <= 1000)%Z ->
  exists d w'',
    DocumentService.get_user_document env (u_doc_id r) user_id w'
    = (Return d, w'')
    /\ d_metadata d
       = metadata_of env user_id (u_filename r) (u_file_type r)
                     (u_chunks_count r)
    /\ len (d_chunks d) = u_chunks_count r
    /\ match fst (DocumentService._process_document env file w) with
       | Return chunks_data =>
           forall i,
             nth_error (d_chunks d) i
             = option_map
                 (fun chunk =>
                    payload (chunk_point env user_id (u_filename r)
                               (u_file_type r) (u_chunks_count r) i chunk))
                 (nth_error chunks_data i)
       | _ => False
       end
    /\ DocumentController.get_document env (u_doc_id r) user w'
       = (Return {| r_id := u_doc_id r;
                    r_doc_id := u_doc_id r;
                    r_filename := u_filename r;
                    r_file_type := Some (u_file_type r);
                    r_chunks_count := u_chunks_count r;
                    r_created_at := utc_now env;
                    r_user_id := user_id |}, w'').
Proof.
  intros user_id point_id Hup Hfresh Hinj Hcount.
  pose proof (user_id_given user) as Hu. fold user_id in Hu.
  destruct (upload_returns _ _ _ _ _ _ Hup)
    as (filename & chunks_data & w1 & pts & Hname & Hproc & Hown & Hsave & ->).
  cbn [u_doc_id u_filename u_file_type u_chunks_count] in *.
  set (ext := extension_of env filename) in *.
  pose proof (owned_points_length _ _ _ _ _ _ Hown) as Hlen.
  destruct (save_points_value _ _ _ _ Hsave) as (w2 & c & Hens & Hc & _ & Hw').
  assert (Hold : points c = stored (collection w)).
  { pose proof (ensure_stored _ _ _ _ Hens) as H1. rewrite Hc in H1.
    pose proof (process_document_collection env file w) as H2.
    rewrite Hproc in H2. cbn [snd] in H2. rewrite <- H2. exact H1. }
  (* the points have distinct ids *)
  assert (Hnd : NoDup (map id pts)).
  { apply NoDup_nth_error. intros i j Hi E.
    rewrite length_map in Hi. rewrite !nth_error_map in E.
    destruct (nth_error pts i) as [pi|] eqn:Ei;
      [|apply nth_error_None in Ei; lia].
    destruct (nth_error pts j) as [pj|] eqn:Ej; [|discriminate E].
    assert (Hj : (j < length pts)%nat)
      by (apply nth_error_Some; congruence).
    destruct (owned_points_nth _ _ _ _ _ _ _ _ Hown Ei) as (ci & _ & ->).
    destruct (owned_points_nth _ _ _ _ _ _ _ _ Hown Ej) as (cj & _ & ->).
    cbn [option_map chunk_point id] in E. injection E as E.
    apply Hinj; [unfold len; lia|unfold len; lia|exact E]. }
  (* the store after the upload *)
  assert (Hst : stored (collection w')
                = filter (fun q => negb (id_in (map id pts) q))
                         (stored (collection w)) ++ pts).
  { rewrite Hw'. cbn [stored points]. rewrite Hold.
    apply upsert_all_distinct, Hnd. }
  assert (Hok : world_ok w') by (intros _; rewrite Hw'; discriminate).
  set (doc_filter := VectorRepository.doc_filter (uuid4 env) (Some user_id)).
  assert (Hsel : filter (Qdrant.matches (Some doc_filter))
                        (stored (collection w')) = pts).
  { rewrite Hst, filter_app. rewrite filter_none.
    2:{ intros q Hq. apply filter_In in Hq. destruct Hq as [Hq _].
        destruct (Qdrant.matches (Some doc_filter) q) eqn:Em; [|reflexivity].
        apply matches_doc_filter in Em. exfalso. exact (Hfresh q Hq Em). }
    cbn [app]. apply forallb_filter_id. apply forallb_forall.
    intros q Hq. apply In_nth_error in Hq. destruct Hq as [i Hi].
    destruct (owned_points_nth _ _ _ _ _ _ _ _ Hown Hi) as (ci & _ & ->).
    unfold doc_filter, VectorRepository.doc_filter, VectorRepository.user_given.
    destruct user_id as [|ch u]; [congruence|].
    cbn [truthy Qdrant.matches must app forallb].
    unfold Qdrant.condition_holds. cbn [key match_value].
    rewrite payload_get_doc_id, payload_get_user_id.
    cbn [chunk_point payload p_doc_id p_user_id]. rewrite !eqb_refl.
    reflexivity. }
  destruct (get_points_value env (uuid4 env) (Some user_id) w' Hok)
    as (w'' & Eget).
  fold doc_filter in Eget. rewrite Hsel in Eget.
  rewrite firstn_all2 in Eget by (unfold len in Hcount; lia).
  (* the chunks are in order *)
  assert (Hsorted : sorted DocumentService.chunk_index_key (map payload pts)
                    = map payload pts).
  { apply sorted_in_order, strongly_sorted_nth.
    intros i j a b Hij Ha Hb. rewrite nth_error_map in Ha, Hb.
    destruct (nth_error pts i) as [pi|] eqn:Ei; [|discriminate Ha].
    destruct (nth_error pts j) as [pj|] eqn:Ej; [|discriminate Hb].
    destruct (owned_points_nth _ _ _ _ _ _ _ _ Hown Ei) as (ci & _ & ->).
    destruct (owned_points_nth _ _ _ _ _ _ _ _ Hown Ej) as (cj & _ & ->).
    cbn in Ha, Hb. injection Ha as <-. injection Hb as <-.
    unfold key_le, DocumentService.chunk_index_key. cbn. lia. }
  destruct pts as [|p0 ps];
    [unfold len in Hcount; simpl in Hlen; lia|].
  destruct (owned_points_nth _ _ _ _ _ _ 0%nat p0 Hown eq_refl)
    as (c0 & _ & Ep0).
  assert (Hget : DocumentService.get_user_document env (uuid4 env) user_id w'
                 = (Return {| d_metadata :=
                                metadata_of env user_id filename ext
                                            (len chunks_data);
                              d_chunks := map payload (p0 :: ps) |}, w'')).
  { unfold DocumentService.get_user_document, try_except, bind.
    rewrite Eget. cbn [map].
    change (payload p0 :: map payload ps) with (map payload (p0 :: ps)).
    rewrite Hsorted. rewrite Ep0. reflexivity. }
  eexists. exists w''. split; [exact Hget|]. cbn [d_metadata d_chunks].
  split; [reflexivity|].
  split; [unfold len; rewrite length_map, Hlen; reflexivity|].
  split.
  { rewrite Hproc. cbn [fst]. intros i. rewrite nth_error_map, Hown.
    destruct (nth_error chunks_data i); reflexivity. }
  unfold DocumentController.get_document, try_except, bind.
  fold user_id. rewrite Hget. cbn [d_metadata d_chunks].
  unfold DocumentController.document_response.
  assert (Hn : (len (map payload (p0 :: ps)) <? 0)%Z = false)
    by (apply Z.ltb_ge; unfold len; lia).
  rewrite Hn. unfold ret. repeat f_equal.
  unfold len. rewrite length_map, Hlen. reflexivity.
Qed.

End RoundTrip.

(* ===================================================================== *)
(** * An upload is stored as a whole                                      *)
(* ===================================================================== *)

Module AtomicFacts.
Import PyStr PyLib Exceptions Models Runtime Props.
Import Steps LibFacts Policy StoreFacts ErrorFacts RoundTrip.

(** An [upsert] that does not return has stored nothing. *)
Lemma upsert_refused pts w o w' :
  Qdrant.upsert pts w = (o, w') ->
  (forall u, o <> Return u) ->
  collection w' = collection w.
Proof.
  unfold Qdrant.upsert, bind, emit, get_collection, put_collection,
    Qdrant.no_collection, raise, ret. cbn.
  destruct (collection w) as [c|] eqn:Ec.
  - destruct (forallb _ pts).
    + intros H Hno. injection H as <- _. exfalso. exact (Hno tt eq_refl).
    + intros H _. injection H as _ <-. reflexivity.
  - intros H _. injection H as _ <-. reflexivity.
Qed.

Lemma save_points_refused env pts w o w' :
  VectorRepository.save_points env pts w = (o, w') ->
  (forall u, o <> Return u) ->
  stored (collection w') = stored (collection w).
Proof.
  unfold VectorRepository.save_points, bind, try_except.
  destruct (VectorRepository._ensure_collection_exists env w)
    as [[[]|e|] w1] eqn:E1;
    pose proof (ensure_stored _ _ _ _ E1) as H1.
  - destruct (Qdrant.upsert pts w1) as [[[]|e|] w2] eqn:E2.
    + intros H Hno. injection H as <- _. exfalso. exact (Hno tt eq_refl).
    + intros H _. unfold raise in H. injection H as _ <-.
      rewrite (upsert_refused _ _ _ _ E2) by discriminate. exact H1.
    + intros H _. injection H as _ <-.
      rewrite (upsert_refused _ _ _ _ E2) by discriminate. exact H1.
  - intros H _. injection H as _ <-. exact H1.
  - intros H _. injection H as _ <-. exact H1.
Qed.

Lemma upload_refused env file user_id w o w' :
  DocumentService.upload_document env file user_id w = (o, w') ->
  (forall r, o <> Return r) ->
  stored (collection w') = stored (collection w).
Proof.
  unfold DocumentService.upload_document.
  destruct (f_filename file) as [filename|];
    [|intros H _; injection H as _ <-; reflexivity].
  destruct (truthy filename); cbn [negb];
    [|intros H _; injection H as _ <-; reflexivity].
  destruct (DocumentService.str_in _ _); cbn [negb];
    [|intros H _; injection H as _ <-; reflexivity].
  unfold try_except, bind.
  pose proof (process_document_collection env file w) as Hp.
  destruct (DocumentService._process_document env file w)
    as [[chunks_data|e|] w1]; cbn [snd] in Hp.
  - match goal with
    | |- context [VectorRepository.save_points env ?pts w1] =>
        destruct (VectorRepository.save_points env pts w1)
          as [[[]|e|] w2] eqn:E2
    end.
    + intros H Hno. unfold ret in H. injection H as <- _.
      exfalso. eapply Hno. reflexivity.
    + intros H _.
      assert (w' = w2)
        by (destruct e as [[] ?|]; unfold raise in H;
            injection H as _ <-; reflexivity).
      subst w'. rewrite (save_points_refused _ _ _ _ _ E2) by discriminate.
      rewrite Hp. reflexivity.
    + intros H _. injection H as _ <-.
      rewrite (save_points_refused _ _ _ _ _ E2) by discriminate.
      rewrite Hp. reflexivity.
  - intros H _.
    assert (w' = w1)
      by (destruct e as [[] ?|]; unfold raise in H;
          injection H as _ <-; reflexivity).
    subst w'. rewrite Hp. reflexivity.
  - intros H _. injection H as _ <-. rewrite Hp. reflexivity.
Qed.

(** X16: an upload is stored as a whole or not at all.  Whenever the
    upload endpoint answers with something other than 200, the stored
    points are what they were: no chunk of the file is in the store, and
    no point of another document was replaced. *)
Theorem failed_upload_stores_nothing
    (env : Env) (file : UploadFile) (user : DocumentController.CurrentUser)
    (w : World) :
  let run := DocumentController.upload_document env file user w in
  DocumentController.status_code_of (fst run) <> Some 200%Z ->
  stored (collection (snd run)) = stored (collection w).
Proof.
  intros run. subst run.
  unfold DocumentController.upload_document, try_except.
  destruct (DocumentService.upload_document env file
              (DocumentController.cu_user_id user) w)
    as [[r|e|] w1] eqn:E.
  - intros H. exfalso. apply H. reflexivity.
  - intros _.
    pose proof (upload_refused _ _ _ _ _ _ E ltac:(discriminate)) as H.
    destruct e as [[] ?|]; exact H.
  - intros _. cbn [snd]. eapply upload_refused; [exact E|discriminate].
Qed.

End AtomicFacts.

(* ===================================================================== *)
(** * Listing                                                             *)
(* ===================================================================== *)

Module ListingFacts.
Import PyStr PyLib Exceptions Models Runtime Props MoreProps.
Import Steps LibFacts Policy StoreFacts ErrorFacts.

Lemma doc_id_map_has_iff d_id doc_id_map :
  VectorRepository.doc_id_map_has d_id doc_id_map = true
  <-> In d_id (map fst doc_id_map).
Proof.
  unfold VectorRepository.doc_id_map_has. rewrite existsb_exists, in_map_iff.
  split.
  - intros (kv & Hin & E). apply eqb_eq in E. eauto.
  - intros (kv & E & Hin). exists kv. split; [exact Hin|].
    apply eqb_eq. exact E.
Qed.

(** The keys of [doc_id_map] after the loop: no key twice, and the keys
    are the document ids of the points. *)
Lemma doc_id_map_keys all_points : forall doc_id_map,
  NoDup (map fst doc_id_map) ->
  let result := fold_left VectorRepository.doc_id_map_step all_points
                          doc_id_map in
  NoDup (map fst result)
  /\ forall d_id, In d_id (map fst result)
                  <-> In d_id (map fst doc_id_map)
                      \/ In (Some d_id) (map doc_key all_points).
Proof.
  induction all_points as [|point rest IH]; intros doc_id_map Hnd; cbn zeta.
  - split; [exact Hnd|]. intros d_id. simpl. tauto.
  - cbn [fold_left map].
    assert (Hstep :
      NoDup (map fst (VectorRepository.doc_id_map_step doc_id_map point))
      /\ forall d_id,
           In d_id (map fst (VectorRepository.doc_id_map_step doc_id_map point))
           <-> In d_id (map fst doc_id_map) \/ Some d_id = doc_key point).
    { unfold VectorRepository.doc_id_map_step, doc_key.
      destruct (p_doc_id (payload point)) as [d|].
      2:{ split; [exact Hnd|]. intros d_id. split; [auto|].
          intros [H|H]; [exact H|discriminate]. }
      destruct (truthy d); cbn [andb].
      2:{ split; [exact Hnd|]. intros d_id. split; [auto|].
          intros [H|H]; [exact H|discriminate]. }
      destruct (VectorRepository.doc_id_map_has d doc_id_map) eqn:Ehas;
        cbn [negb].
      - apply doc_id_map_has_iff in Ehas. split; [exact Hnd|].
        intros d_id. split; [auto|].
        intros [H|H]; [exact H|]. injection H as ->. exact Ehas.
      - assert (Hnot : ~ In d (map fst doc_id_map)).
        { intros H. apply doc_id_map_has_iff in H. congruence. }
        rewrite map_app. cbn [map fst]. split.
        + apply NoDup_app; [exact Hnd|constructor; [intros []|constructor]|].
          intros x Hx [<-|[]]. exact (Hnot Hx).
        + intros d_id. rewrite in_app_iff. cbn [In]. split.
          * intros [H|[<-|[]]]; auto.
          * intros [H|H]; [auto|]. injection H as ->. auto. }
    destruct Hstep as [Hnd1 Hkeys1].
    destruct (IH _ Hnd1) as [Hnd2 Hkeys2]. split; [exact Hnd2|].
    intros d_id. rewrite Hkeys2, Hkeys1. cbn [In]. split.
    + intros [[H|H]|H]; auto.
    + intros [H|[H|H]]; auto.
Qed.

(** The documents of points that carry their metadata. *)
Lemma documents_of_described points : forall w documents w',
  VectorRepository.documents_of points w = (Return documents, w') ->
  Forall self_described points ->
  map (fun doc => Some (dd_doc_id doc)) documents
  = map (fun pt => p_doc_id (payload pt)) points.
Proof.
  induction points as [|point rest IH]; intros w documents w'.
  - simpl. unfold ret. intros H _. injection H as <- _. reflexivity.
  - cbn [VectorRepository.documents_of]. unfold bind.
    pose proof (document_of_point_world point w) as H1.
    destruct (VectorRepository.document_of_point point w)
      as [[d|e|] w1] eqn:E1; simpl in H1; subst w1; try discriminate.
    destruct (VectorRepository.documents_of rest w)
      as [[ds|e|] w2] eqn:E2; try discriminate.
    unfold ret. intros H Hall. injection H as <- _.
    inversion Hall as [|? ? Hpt Hrest]; subst.
    cbn [map]. rewrite (IH _ _ _ E2 Hrest). f_equal.
    unfold self_described in Hpt.
    unfold VectorRepository.document_of_point in E1.
    destruct (p_doc_metadata (payload point)) as [m|]; [|contradiction].
    unfold ret in E1. injection E1 as <-. cbn [dd_doc_id dict_of_model].
    symmetry. exact Hpt.
Qed.

(** What [list_user_documents] returns, when it returns. *)
Lemma list_user_documents_value env (user_id : pystr) w documents w' :
  DocumentService.list_user_documents env user_id w = (Return documents, w') ->
  exists w1 w2,
    VectorRepository.documents_of
      (map snd (fold_left VectorRepository.doc_id_map_step
                          (listed_points user_id w) [])) w1
    = (Return documents, w2).
Proof.
  unfold DocumentService.list_user_documents, try_except.
  destruct (VectorRepository.get_unique_documents env (Some user_id) w)
    as [[docs|e|] w0] eqn:E.
  2:{ destruct e as [[] ?|]; discriminate. }
  2:{ discriminate. }
  intros H. injection H as <- <-.
  unfold VectorRepository.get_unique_documents, bind in E.
  destruct (VectorRepository._ensure_collection_exists env w)
    as [[[]|e|] w1] eqn:E1; try discriminate.
  pose proof (ensure_stored _ _ _ _ E1) as Hst.
  unfold try_except, bind in E.
  destruct (Qdrant.scroll _ 1000 w1) as [[all_points|e|] w2] eqn:E2;
    try discriminate.
  assert (Hall : all_points = listed_points user_id w).
  { unfold listed_points. rewrite <- Hst.
    unfold Qdrant.scroll, bind, emit, get_collection in E2. cbn in E2.
    destruct (collection w1) as [c|]; [|discriminate E2].
    unfold ret in E2. injection E2 as <- _. reflexivity. }
  subst all_points.
  match type of E with
  | context [VectorRepository.documents_of ?pts ?w2] =>
      destruct (VectorRepository.documents_of pts w2)
        as [[ds|e|] w3] eqn:E3; try discriminate
  end.
  injection E as -> _. eauto.
Qed.

(** X17: the listing has one entry for each document.  When the points
    that the listing looks at (the first 1000 stored points of the user)
    carry the metadata of their document, as the points of
    [upload_document] do, and [list_user_documents] returns, then no
    document id is listed twice, and the document ids listed are those of
    these points that are not empty, in the order in which they first
    occur. *)
Theorem listing_one_entry_per_document
    (env : Env) (user : DocumentController.CurrentUser) (w : World)
    (documents : list DocumentDict) (w' : World) :
  let user_id := DocumentController.cu_user_id user in
  DocumentService.list_user_documents env user_id w = (Return documents, w') ->
  Forall self_described (listed_points user_id w) ->
  NoDup (map dd_doc_id documents)
  /\ (forall d_id, In d_id (map dd_doc_id documents)
                   <-> In (Some d_id) (map doc_key (listed_points user_id w)))
  /\ map dd_doc_id documents
     = map fst (fold_left VectorRepository.doc_id_map_step
                          (listed_points user_id w) []).
Proof.
  intros user_id Hlist Hall.
  destruct (list_user_documents_value _ _ _ _ _ Hlist) as (w1 & w2 & Hdocs).
  set (all_points := listed_points user_id w) in *.
  set (doc_id_map := fold_left VectorRepository.doc_id_map_step all_points [])
    in *.
  assert (Hfrom : forall kv, In kv doc_id_map ->
            In (snd kv) all_points
            /\ p_doc_id (payload (snd kv)) = Some (fst kv)).
  { intros kv Hkv. apply doc_id_map_from in Hkv.
    destruct Hkv as [[]|Hkv]. exact Hkv. }
  assert (Hdesc : Forall self_described (map snd doc_id_map)).
  { rewrite Forall_forall in Hall |- *. intros pt Hpt.
    apply in_map_iff in Hpt. destruct Hpt as (kv & <- & Hkv).
    apply Hall, Hfrom, Hkv. }
  pose proof (documents_of_described _ _ _ _ Hdocs Hdesc) as Hids.
  assert (Hkeys : map dd_doc_id documents = map fst doc_id_map).
  { assert (E : map Some (map dd_doc_id documents)
                = map Some (map fst doc_id_map)).
    { rewrite !map_map. rewrite Hids. rewrite map_map. apply map_ext_in.
      intros kv Hkv. apply Hfrom, Hkv. }
    revert E. generalize (map dd_doc_id documents), (map fst doc_id_map).
    induction l as [|x l IH]; intros [|y l0]; simpl; try discriminate;
      [reflexivity|].
    intros E. injection E as -> E. f_equal. apply IH, E. }
  destruct (doc_id_map_keys all_points [] (NoDup_nil _)) as [Hnd Hiff].
  fold doc_id_map in Hnd, Hiff. rewrite Hkeys.
  split; [exact Hnd|]. split; [|reflexivity].
  intros d_id. rewrite Hiff. simpl. tauto.
Qed.

End ListingFacts.

(* ===================================================================== *)
(** * The endpoints behind the bearer token                               *)
(* ===================================================================== *)

Module EndpointFacts.
Import PyStr PyLib Exceptions Models Runtime Props MoreProps.
Import Steps LibFacts Policy Authentication AuthFacts.

Lemma reads_policy env user_id ev : reads env user_id ev -> policy env user_id ev.
Proof. intros H. apply deletes_policy, reads_deletes, H. Qed.

Lemma steps_weaken (P Q : event -> Prop) {A : Type} (m : M A) :
  (forall ev, P ev -> Q ev) -> steps (follows P) m -> steps (follows Q) m.
Proof. intros H Hm w. eapply follows_weaken; [exact H|apply Hm]. Qed.

Lemma follows_search_results P hits :
  steps (follows P) (DocumentController.search_results hits).
Proof.
  induction hits as [|hit rest IH]; simpl; steps_go. exact IH.
Qed.

Lemma follows_document_response P doc_id filename file_type chunks_count
    created_at user_id :
  steps (follows P)
        (DocumentController.document_response doc_id filename file_type
           chunks_count created_at user_id).
Proof. unfold DocumentController.document_response. steps_go. Qed.

Lemma follows_document_responses P documents :
  steps (follows P) (DocumentController.document_responses documents).
Proof.
  induction documents as [|doc rest IH]; simpl; steps_go;
    [apply follows_document_response|exact IH].
Qed.

Section Endpoints.
Variable env : Env.
Variable user : DocumentController.CurrentUser.

Lemma follows_upload_endpoint file :
  steps (follows (policy env (DocumentController.cu_user_id user)))
        (DocumentController.upload_document env file user).
Proof.
  unfold DocumentController.upload_document, DocumentController.http_error.
  steps_go. apply follows_upload_document.
Qed.

Lemma follows_search_endpoint query top_k :
  steps (follows (policy env (DocumentController.cu_user_id user)))
        (DocumentController.search_documents env query top_k user).
Proof.
  unfold DocumentController.search_documents, DocumentController.http_error.
  steps_go; [|apply follows_search_results].
  eapply steps_weaken; [apply reads_policy|].
  apply follows_search_user_documents.
Qed.

Lemma follows_list_endpoint :
  steps (follows (policy env (DocumentController.cu_user_id user)))
        (DocumentController.list_documents env user).
Proof.
  unfold DocumentController.list_documents, DocumentController.http_error.
  steps_go; [|apply follows_document_responses].
  eapply steps_weaken; [apply reads_policy|].
  apply follows_list_user_documents, user_id_given.
Qed.

Lemma follows_get_endpoint doc_id :
  steps (follows (policy env (DocumentController.cu_user_id user)))
        (DocumentController.get_document env doc_id user).
Proof.
  unfold DocumentController.get_document, DocumentController.http_error.
  steps_go; [|apply follows_document_response].
  eapply steps_weaken; [apply reads_policy|].
  apply follows_get_user_document, user_id_given.
Qed.

Lemma follows_delete_endpoint doc_id :
  steps (follows (policy env (DocumentController.cu_user_id user)))
        (DocumentController.delete_document env doc_id user).
Proof.
  unfold DocumentController.delete_document, DocumentController.http_error.
  steps_go.
  eapply steps_weaken; [apply deletes_policy|].
  apply follows_delete_user_document, user_id_given.
Qed.
End Endpoints.

Lemma scoped_request_of {A : Type} env aenv credentials
    (endpoint : DocumentController.CurrentUser -> M A) w :
  (forall user,
     steps (follows (policy env (DocumentController.cu_user_id user)))
           (endpoint user)) ->
  scoped_request env aenv credentials endpoint w.
Proof.
  intros H. unfold scoped_request, authenticated, bind.
  pose proof (get_current_user_bearer_world aenv credentials w) as Hw.
  destruct (get_current_user_bearer aenv credentials w)
    as [[user|e|] w0] eqn:E; cbn [snd] in Hw; subst w0.
  - destruct (get_current_user_bearer_returns _ _ _ _ _ E)
      as (payload & document & Hd & Hs & _).
    unfold token_subject. rewrite Hd, Hs.
    pose proof (user_id_given user) as Hu.
    specialize (H user w).
    destruct (DocumentController.cu_user_id user) as [|c rest];
      [congruence|exact H].
  - cbn [snd]. destruct (token_subject aenv credentials) as [[|c rest]|];
      try reflexivity. apply follows_refl.
  - cbn [snd]. destruct (token_subject aenv credentials) as [[|c rest]|];
      try reflexivity. apply follows_refl.
Qed.

(** X18: the dependency that every document endpoint is behind.  It asks
    nothing of the vector store and ends.  When it hands a user to the
    endpoint, the user id is the ["sub"] of the decoded token, it is not
    empty, and the users collection has a document with that id; when it
    does not, it raises an [HTTPException] with status 401 or 500, and
    401 "Invalid token payload" for a token that decodes without a user
    id. *)
Theorem bearer_token_guard
    (aenv : AuthEnv) (credentials : pystr) (w : World) :
  let r := get_current_user_bearer aenv credentials w in
  snd r = w
  /\ fst r <> Hang
  /\ (forall user, fst r = Return user ->
        token_subject aenv credentials
        = Some (DocumentController.cu_user_id user)
        /\ DocumentController.cu_user_id user <> []
        /\ registered aenv (DocumentController.cu_user_id user) = true)
  /\ (forall e, fst r = Raise e ->
        exists detail,
          e = HTTPException 401 detail \/ e = HTTPException 500 detail)
  /\ (forall payload,
        jwt_decode aenv credentials = Decoded payload ->
        sub payload = None \/ sub payload = Some [] ->
        fst r = Raise (HTTPException 401 (lit "Invalid token payload"))).
Proof.
  intros r. subst r.
  split; [apply get_current_user_bearer_world|].
  destruct (get_current_user_bearer aenv credentials w) as [o w0] eqn:E.
  cbn [fst]. split.
  { intros ->. revert E. auth_cases aenv credentials; discriminate. }
  split.
  { intros user ->.
    destruct (get_current_user_bearer_returns _ _ _ _ _ E)
      as (payload & document & Hd & Hs & _ & Hf).
    unfold token_subject, registered. rewrite Hd, Hf.
    split; [exact Hs|]. split; [apply user_id_given|reflexivity]. }
  split.
  { intros e ->. eapply get_current_user_bearer_raises. exact E. }
  intros payload Hd Hs.
  rewrite (get_current_user_bearer_no_user_id _ _ _ w Hd Hs) in E.
  injection E as <- _. reflexivity.
Qed.

(** X19: whatever the token and whatever the request, the five document
    endpoints behind the dependency ask the vector store only for what
    the policy allows for the user of the token: every point written has
    that user id, every lookup, search and deletion has the filter on it;
    and a request whose token names no user asks for nothing. *)
Theorem authenticated_requests_scoped
    (env : Env) (aenv : AuthEnv) (credentials : pystr) (w : World)
    (file : UploadFile) (query : pystr) (top_k : Z) (doc_id : pystr) :
  scoped_request env aenv credentials
    (DocumentController.upload_document env file) w
  /\ scoped_request env aenv credentials
       (DocumentController.search_documents env query top_k) w
  /\ scoped_request env aenv credentials
       (DocumentController.list_documents env) w
  /\ scoped_request env aenv credentials
       (DocumentController.get_document env doc_id) w
  /\ scoped_request env aenv credentials
       (DocumentController.delete_document env doc_id) w.
Proof.
  repeat split; apply scoped_request_of; intros user.
  - apply follows_upload_endpoint.
  - apply follows_search_endpoint.
  - apply follows_list_endpoint.
  - apply follows_get_endpoint.
  - apply follows_delete_endpoint.
Qed.

End EndpointFacts.

(* ===================================================================== *)
(** * The properties at concrete inputs                                   *)
(* ===================================================================== *)

Module Instances.
Import PyStr PyLib Chunker Exceptions Models Runtime Props.
Import Steps LibFacts Policy Scenario MoreProps.

Local Open Scope Z_scope.

(** [chunker] on five words, windows of three with one shared. *)
Example chunker_five_words :
  chunker 6 (lit "a b  c d e") 3 1 = Some [lit "a b c"; lit "c d e"].
Proof. reflexivity. Qed.

Lemma chunker_sliding_window_witness :
  (0 < 3 /\ 0 <= 1 < 3)
  /\ exists n : nat,
       forall fuel,
         (length (split (clean_text (lit "a b  c d e"))) < fuel)%nat ->
         chunker fuel (lit "a b  c d e") 3 1
         = Some (map (fun k => join [SPACE]
                                 (window (split (clean_text (lit "a b  c d e")))
                                         3 1 k))
                     (List.seq 0 n)).
Proof.
  split; [lia|].
  destruct (ChunkerFacts.chunker_sliding_window (lit "a b  c d e") 3 1
              ltac:(lia) ltac:(lia)) as (n & H & _).
  exists n. exact H.
Defined.

Lemma chunker_terminates_witness :
  (0 < 2 /\ -1 < 2)
  /\ forall fuel,
       (length (split (clean_text (lit "a b c d e"))) < fuel)%nat ->
       exists chunks, chunker fuel (lit "a b c d e") 2 (-1) = Some chunks.
Proof.
  split; [lia|].
  exact (proj1 (ChunkerFacts.chunker_terminates (lit "a b c d e") 2 (-1)
                  ltac:(lia) ltac:(lia))).
Defined.

(** With a negative overlap the windows leave tokens out between them. *)
Example chunker_negative_overlap :
  chunker 6 (lit "a b c d e") 2 (-1) = Some [lit "a b"; lit "d e"].
Proof. reflexivity. Qed.

(** Size 1 and overlap 1 on two words: the loop does not end. *)
Example chunker_no_end fuel : chunker fuel (lit "a b") 1 1 = None.
Proof.
  unfold chunker. apply ChunkerFacts.chunker_loop_stuck; try lia; reflexivity.
Qed.

Lemma clean_text_idempotent_witness :
  clean_text (clean_text (lit "  a   b  ")) = clean_text (lit "  a   b  ").
Proof.
  exact (proj1 (CleanTextFacts.clean_text_idempotent (lit "  a   b  "))).
Defined.

Lemma upload_rejects_unsupported_type_witness :
  (exists name,
     f_filename sheet_xlsx = Some name
     /\ ~ In (ascii_lower (snd (splitext 47%N None name)))
             [lit ".txt"; lit ".pdf"; lit ".docx"])
  /\ exists msg,
       DocumentController.upload_document (env0 3 3 4 1) sheet_xlsx alice
         empty_world
       = (Raise (HTTPException 400 msg), empty_world).
Proof.
  assert (H : exists name,
             f_filename sheet_xlsx = Some name
             /\ ~ In (ascii_lower (snd (splitext 47%N None name)))
                     [lit ".txt"; lit ".pdf"; lit ".docx"]).
  { eexists. split; [reflexivity|]. vm_compute.
    intros [H|[H|[H|[]]]]; discriminate H. }
  split; [exact H|].
  destruct (ErrorFacts.upload_rejects_unsupported_type
              (env0 3 3 4 1) sheet_xlsx alice empty_world
              (or_intror (or_intror H))) as (msg & _ & Hc).
  exists msg. exact Hc.
Defined.

Lemma search_rejects_empty_query_witness :
  forallb isspace [SPACE; 9%N; NBSP] = true
  /\ DocumentController.search_documents (env0 2 2 4 1) [SPACE; 9%N; NBSP] 5
       alice alice_world
     = (Raise (HTTPException 400 (lit "Query cannot be empty")), alice_world).
Proof.
  split; [reflexivity|].
  exact (proj2 (ErrorFacts.search_rejects_empty_query
                  (env0 2 2 4 1) [SPACE; 9%N; NBSP] 5 alice alice_world
                  eq_refl)).
Defined.

Lemma alice_world_no_chunk_of_bob pt :
  In pt (stored (collection alice_world)) ->
  ~ (p_doc_id (payload pt) = Some (lit "d1")
     /\ p_user_id (payload pt)
        = Some (DocumentController.cu_user_id bob)).
Proof.
  intros [<-|[<-|[<-|[]]]] [_ H]; vm_compute in H; discriminate H.
Defined.

Lemma delete_unowned_document_not_found_witness :
  world_ok alice_world
  /\ exists w',
       DocumentController.delete_document (env0 2 2 4 1) (lit "d1") bob
         alice_world
       = (Raise (HTTPException 404
                   (lit "Document " ++ lit "d1" ++ lit " not found")), w')
       /\ stored (collection w') = stored (collection alice_world).
Proof.
  assert (H1 : world_ok alice_world) by (intros _; discriminate).
  split; [exact H1|].
  destruct (StoreFacts.delete_unowned_document_not_found
              (env0 2 2 4 1) (lit "d1") bob alice_world H1
              alice_world_no_chunk_of_bob) as (w' & _ & Hc & _ & Hst).
  exists w'. split; assumption.
Defined.

Lemma service_scopes_by_user_witness :
  follows (uploads (env0 3 3 4 1) seven_txt (lit "alice") empty_world)
          empty_world
          (snd (DocumentService.upload_document (env0 3 3 4 1) seven_txt
                  (lit "alice") empty_world))
  /\ steps (follows (deletes (env0 2 2 4 1) (lit "alice")))
           (DocumentService.delete_user_document (env0 2 2 4 1) (lit "d1")
              (lit "alice")).
Proof.
  split.
  - exact (proj1 (StoreFacts.service_scopes_by_user (env0 3 3 4 1) alice)
             seven_txt empty_world).
  - exact (proj1 (proj2 (proj2 (proj2 (proj2 (proj2 (proj2 (proj2 (proj2
             (proj2 (StoreFacts.service_scopes_by_user
                       (env0 2 2 4 1) alice))))))))) (lit "d1"))).
Defined.

Lemma stored_vectors_have_collection_size_witness :
  configured (env0 3 3 4 1) (collection empty_world)
  /\ forall pt,
       In pt (stored (collection
                (snd (DocumentService.upload_document (env0 3 3 4 1) seven_txt
                        (lit "alice") empty_world)))) ->
       In pt (stored (collection empty_world))
       \/ len (vector pt) = VECTOR_SIZE (env0 3 3 4 1).
Proof.
  assert (H : configured (env0 3 3 4 1) (collection empty_world)) by exact I.
  split; [exact H|].
  exact (proj1 (proj2 (StoreFacts.stored_vectors_have_collection_size
                         (env0 3 3 4 1) seven_txt (lit "alice") empty_world H))).
Defined.

(** The upload of the seven words stores two points, of three components
    each, with the indices 0 and 1. *)
Example upload_stores_two_points :
  let r := DocumentService.upload_document (env0 3 3 4 1) seven_txt
             (lit "alice") empty_world in
  option_map u_chunks_count
             (match fst r with Return u => Some u | _ => None end) = Some 2
  /\ map (fun pt => (len (vector pt), p_chunk_index (payload pt)))
         (stored (collection (snd r)))
     = [(3, Some 0); (3, Some 1)].
Proof. split; vm_compute; reflexivity. Qed.

Lemma get_user_document_sorted_witness :
  exists d w',
    DocumentService.get_user_document (env0 2 2 4 1) (lit "d1") (lit "alice")
      alice_world
    = (Return d, w')
    /\ map p_chunk_index (d_chunks d) = [Some 0; Some 1; Some 2]
    /\ StronglySorted (key_le DocumentService.chunk_index_key) (d_chunks d).
Proof.
  eexists. eexists. split; [vm_compute; reflexivity|].
  split; [reflexivity|].
  destruct (StoreFacts.get_user_document_sorted
              (env0 2 2 4 1) (lit "d1") (lit "alice") alice_world _ _
              ltac:(vm_compute; reflexivity)) as (chunks & _ & _ & Hs & _).
  exact Hs.
Defined.

(** ** The authentication dependency at three tokens *)

Example token_of_alice :
  Authentication.get_current_user_bearer auth0 (lit "token-of-alice")
    empty_world
  = (Return alice, empty_world).
Proof. reflexivity. Qed.

Example token_without_user :
  Authentication.authenticated auth0 (lit "token-without-user")
    (DocumentController.delete_document (env0 2 2 4 1) (lit "d1")) alice_world
  = (Raise (HTTPException 401 (lit "Invalid token payload")), alice_world).
Proof. reflexivity. Qed.

Example old_token :
  Authentication.get_current_user_bearer auth0 (lit "old-token") empty_world
  = (Raise (HTTPException 401 (lit "Token expired")), empty_world).
Proof. reflexivity. Qed.

(** ** Where the claim C6 fails *)

(** The repository has marked the collection ready and the collection is
    gone.  No stored chunk has the document id [d1] and the user id of
    bob, as there is no chunk at all; [delete_user_document] does not
    raise [DocumentNotFoundError] but the [PointError] of the lookup that
    failed, and the endpoint answers 500, not 404. *)
Lemma delete_with_collection_gone :
  ~ world_ok gone_world
  /\ (forall pt, In pt (stored (collection gone_world)) ->
        ~ (p_doc_id (payload pt) = Some (lit "d1")
           /\ p_user_id (payload pt)
              = Some (DocumentController.cu_user_id bob)))
  /\ exists msg w',
       DocumentService.delete_user_document (env0 2 2 4 1) (lit "d1")
         (DocumentController.cu_user_id bob) gone_world
       = (Raise (Exn PointError msg), w')
       /\ DocumentController.delete_document (env0 2 2 4 1) (lit "d1") bob
            gone_world
          = (Raise (HTTPException 500 (lit "Vector point error: " ++ msg)), w')
       /\ DocumentController.status_code_of
            (fst (DocumentController.delete_document (env0 2 2 4 1) (lit "d1")
                    bob gone_world))
          = Some 500%Z.
Proof.
  split; [intros H; apply (H eq_refl); reflexivity|].
  split; [intros pt []|].
  eexists. eexists. split; [vm_compute; reflexivity|].
  split; vm_compute; reflexivity.
Qed.

(** ** More of the code at concrete inputs *)

Lemma chunker_returns_no_chunk_iff_witness :
  (0 < 1)%nat
  /\ (chunker 1 [233%N; SPACE; 233%N] 3 1 = Some []
      <-> Forall (fun c => visible c = false) [233%N; SPACE; 233%N]).
Proof.
  split; [lia|].
  exact (TextFacts.chunker_returns_no_chunk_iff 1 [233%N; SPACE; 233%N] 3 1
           ltac:(lia)).
Defined.

Lemma chunks_reassemble_witness :
  (0 < 3 /\ 0 <= 1 < 3)
  /\ split (lit "a b c") ++ concat (map (skipn 1) [split (lit "c d e")])
     = split (clean_text (lit "a b  c d e")).
Proof.
  split; [lia|].
  exact (TextFacts.chunks_reassemble 6 (lit "a b  c d e") 3 1
           [lit "a b c"; lit "c d e"] ltac:(lia) ltac:(lia) eq_refl).
Defined.

Lemma chunks_are_joined_tokens_witness :
  (0 < 3 /\ 0 <= 1 < 3)
  /\ In (lit "c d e") [lit "a b c"; lit "c d e"]
  /\ strip (lit "c d e") = lit "c d e"
  /\ (1 <= length (split (lit "c d e")) <= Z.to_nat 3)%nat.
Proof.
  split; [lia|].
  assert (Hin : In (lit "c d e") [lit "a b c"; lit "c d e"])
    by (right; left; reflexivity).
  split; [exact Hin|].
  destruct (TextFacts.chunks_are_joined_tokens 6 (lit "a b  c d e") 3 1
              [lit "a b c"; lit "c d e"] (lit "c d e")
              ltac:(lia) ltac:(lia) eq_refl Hin) as (_ & Hlen & Hstrip & _).
  split; [exact Hstrip|exact Hlen].
Defined.

Lemma chunker_number_of_chunks_witness :
  (0 < 3 /\ 0 <= 1 < 3)
  /\ len [lit "a b c"; lit "c d e"]
     = (if len (split (clean_text (lit "a b  c d e"))) =? 0 then 0
        else 1 + Z.max 0
                   ((len (split (clean_text (lit "a b  c d e"))) - 1 - 1)
                    / (3 - 1))).
Proof.
  split; [lia|].
  exact (TextFacts.chunker_number_of_chunks 6 (lit "a b  c d e") 3 1
           [lit "a b c"; lit "c d e"] ltac:(lia) ltac:(lia) eq_refl).
Defined.

Lemma load_document_errors_witness :
  exists e w',
    Extractor.load_document (env0 3 3 4 1) (lit "/tmp/tmpq1w2e3.xlsx")
      (f_content sheet_xlsx) empty_world
    = (Raise e, w')
    /\ e = Exn FileTypeError (lit "Unsupported file type: " ++ lit ".xlsx").
Proof.
  eexists. eexists. split; [vm_compute; reflexivity|].
  refine (proj1 (proj2 (PipelineFacts.load_document_errors
                          (env0 3 3 4 1) (lit "/tmp/tmpq1w2e3.xlsx")
                          (f_content sheet_xlsx) empty_world _ _
                          ltac:(vm_compute; reflexivity))) _).
  vm_compute. intros [H|[H|[H|[]]]]; discriminate H.
Defined.

Lemma process_document_wraps_extraction_errors_witness :
  f_filename sheet_xlsx = Some (lit "sheet.xlsx")
  /\ fst (DocumentService._process_document (env0 3 3 4 1) sheet_xlsx
            empty_world)
     = Raise (Exn FileProcessingError
                (lit "Failed to extract text from document: "
                 ++ lit "Unsupported file type: .xlsx")).
Proof.
  split; [reflexivity|].
  exact (PipelineFacts.process_document_wraps_extraction_errors
           (env0 3 3 4 1) sheet_xlsx (lit "sheet.xlsx") empty_world
           (Exn FileTypeError (lit "Unsupported file type: .xlsx"))
           eq_refl ltac:(vm_compute; reflexivity)).
Defined.

Lemma process_document_by_text_witness :
  (0 < CHUNK_SIZE (env0 3 3 4 1)
   /\ 0 <= OVERLAP (env0 3 3 4 1) < CHUNK_SIZE (env0 3 3 4 1))
  /\ fst (DocumentService._process_document (env0 3 3 4 1) seven_txt
            empty_world)
     = Return (combine [lit "one two three four"; lit "four five six seven"]
                       [zero_vector 3; zero_vector 3]).
Proof.
  split; [vm_compute; repeat split; discriminate|].
  exact (proj2 (ProcessFacts.process_document_by_text
                  (env0 3 3 4 1) seven_txt (lit "seven.TXT") empty_world
                  (lit "one two three four five six seven")
                  eq_refl ltac:(vm_compute; reflexivity)
                  ltac:(vm_compute; reflexivity)
                  ltac:(vm_compute; split; [discriminate|reflexivity]))).
Defined.

Lemma failed_upload_stores_nothing_witness :
  DocumentController.status_code_of
    (fst (DocumentController.upload_document (env0 2 2 4 1) sheet_xlsx alice
            alice_world)) <> Some 200
  /\ stored (collection
               (snd (DocumentController.upload_document (env0 2 2 4 1)
                       sheet_xlsx alice alice_world)))
     = stored (collection alice_world).
Proof.
  assert (H : DocumentController.status_code_of
                (fst (DocumentController.upload_document (env0 2 2 4 1)
                        sheet_xlsx alice alice_world)) <> Some 200)
    by (vm_compute; discriminate).
  split; [exact H|].
  exact (AtomicFacts.failed_upload_stores_nothing
           (env0 2 2 4 1) sheet_xlsx alice alice_world H).
Defined.

Lemma get_unowned_document_not_found_witness :
  world_ok alice_world
  /\ exists w',
       DocumentController.get_document (env0 2 2 4 1) (lit "d1") bob
         alice_world
       = (Raise (HTTPException 404
                   (lit "Document " ++ lit "d1" ++ lit " not found")), w').
Proof.
  assert (H1 : world_ok alice_world) by (intros _; discriminate).
  split; [exact H1|].
  destruct (DocumentFacts.get_unowned_document_not_found
              (env0 2 2 4 1) (lit "d1") bob alice_world H1
              alice_world_no_chunk_of_bob) as (w' & _ & Hc & _).
  exists w'. exact Hc.
Defined.

Lemma delete_removes_the_document_witness :
  stored (collection
            (snd (DocumentService.delete_user_document (env0 2 2 4 1)
                    (lit "d1") (lit "alice") alice_world)))
  = filter (fun pt =>
              negb (Qdrant.matches
                      (Some (VectorRepository.doc_filter (lit "d1")
                               (Some (lit "alice")))) pt))
           (stored (collection alice_world)).
Proof.
  exact (proj1 (DocumentFacts.delete_removes_the_document
                  (env0 2 2 4 1) (lit "d1") alice alice_world
                  (lit "Document d1 deleted successfully")
                  (snd (DocumentService.delete_user_document (env0 2 2 4 1)
                          (lit "d1") (lit "alice") alice_world))
                  ltac:(vm_compute; reflexivity))).
Defined.

Lemma delete_then_not_found_witness :
  exists w'',
    DocumentService.get_user_document (env0 2 2 4 1) (lit "d1") (lit "alice")
      (snd (DocumentService.delete_user_document (env0 2 2 4 1)
              (lit "d1") (lit "alice") alice_world))
    = (Raise (Exn DocumentNotFoundError
                (lit "Document " ++ lit "d1" ++ lit " not found")), w'').
Proof.
  exact (proj1 (DocumentFacts.delete_then_not_found
                  (env0 2 2 4 1) (lit "d1") alice alice_world
                  (lit "Document d1 deleted successfully")
                  (snd (DocumentService.delete_user_document (env0 2 2 4 1)
                          (lit "d1") (lit "alice") alice_world))
                  ltac:(vm_compute; reflexivity))).
Defined.

Lemma seven_point_ids (i j : nat) :
  Z.of_nat i < 2 -> Z.of_nat j < 2 ->
  uuid5 (env0 3 3 4 1) (uuid4 (env0 3 3 4 1))
        (str_of_int (env0 3 3 4 1) (Z.of_nat i))
  = uuid5 (env0 3 3 4 1) (uuid4 (env0 3 3 4 1))
          (str_of_int (env0 3 3 4 1) (Z.of_nat j)) ->
  i = j.
Proof.
  intros Hi Hj.
  destruct i as [|[|i]]; [| |lia]; (destruct j as [|[|j]]; [| |lia]);
    intros H; try reflexivity; vm_compute in H; discriminate H.
Defined.

Lemma upload_then_get_witness :
  0 < u_chunks_count seven_result <= 1000
  /\ exists d w'',
       DocumentService.get_user_document (env0 3 3 4 1) (lit "doc-1")
         (lit "alice") seven_world
       = (Return d, w'')
       /\ len (d_chunks d) = 2.
Proof.
  assert (H : 0 < u_chunks_count seven_result <= 1000) by (simpl; lia).
  split; [exact H|].
  destruct (RoundTrip.upload_then_get
              (env0 3 3 4 1) seven_txt alice empty_world seven_result
              seven_world ltac:(vm_compute; reflexivity)
              ltac:(intros pt [])
              seven_point_ids H) as (d & w'' & Hget & _ & Hlen & _).
  exists d, w''. split; [exact Hget|exact Hlen].
Defined.

Lemma search_hits_all_or_none_witness :
  DocumentService.search_hits [bare_result] empty_world
  = (Raise (Exn KeyError (lit "'" ++ lit "chunk_text" ++ lit "'")),
     empty_world).
Proof.
  exact (proj1 (DocumentFacts.search_hits_all_or_none [bare_result]
                  empty_world)).
Defined.

Lemma listing_one_entry_per_document_witness :
  Forall self_described (listed_points (lit "alice") seven_world)
  /\ NoDup (map dd_doc_id
              (match fst (DocumentService.list_user_documents (env0 3 3 4 1)
                            (lit "alice") seven_world) with
               | Return documents => documents
               | _ => []
               end)).
Proof.
  assert (H : Forall self_described (listed_points (lit "alice") seven_world))
    by (vm_compute; repeat constructor).
  split; [exact H|].
  exact (proj1 (ListingFacts.listing_one_entry_per_document
                  (env0 3 3 4 1) alice seven_world _
                  (snd (DocumentService.list_user_documents (env0 3 3 4 1)
                          (lit "alice") seven_world))
                  ltac:(vm_compute; reflexivity) H)).
Defined.

Lemma initialize_collection_once_witness :
  world_ok empty_world
  /\ VectorRepository.initialize_collection (env0 3 3 4 1) empty_world
     = VectorRepository._ensure_collection_exists (env0 3 3 4 1) empty_world.
Proof.
  assert (H : world_ok empty_world) by (intros H; discriminate H).
  split; [exact H|].
  exact (proj1 (DocumentFacts.initialize_collection_once (env0 3 3 4 1)
                  empty_world H)).
Defined.

Lemma bearer_token_guard_witness :
  token_subject auth0 (lit "token-of-alice")
  = Some (DocumentController.cu_user_id alice)
  /\ registered auth0 (DocumentController.cu_user_id alice) = true.
Proof.
  destruct (proj1 (proj2 (proj2 (EndpointFacts.bearer_token_guard
                                   auth0 (lit "token-of-alice") empty_world)))
              alice eq_refl) as (H1 & _ & H2).
  split; [exact H1|exact H2].
Defined.

End Instances.
